(** * FFmpegWrapper: a shallow embedding of python/ffmpegwrapper.py

    The wrapper builds argument vectors for the bundled ffmpeg / ffprobe
    executables, launches them, and parses what they print.  The embedding
    has three layers:

    - [PyStr]: the Python string builtins the wrapper relies on
      ([str.strip], [str.split], [in], [str.startswith], [int(str)],
      [str(int)], [" ".join]);
    - [Py]: dynamically typed Python values (JSON documents, keyword
      options, argument vectors), exceptions, and a state-and-exception
      monad in which the state survives a raised exception, as in Python;
    - [FFmpegWrapper]: the methods of the class, one definition per method,
      under the method's own name.

    Strings are ASCII byte strings.  Two whitespace classes occur, as in
    CPython: [str.strip] and [str.split] use the ASCII part of
    [str.isspace] (TAB..CR, FS..US and space), whereas [int] and [float]
    skip only C's [isspace] class (TAB..CR and space), so that
    [int] rejects a literal followed by the byte 31 although [str.strip]
    removes that byte.
    Integers are unbounded and their conversion from and to text has no
    length limit (the interpreter's [int_max_str_digits] limit, introduced
    with Python 3.11, is taken to be off). *)

From Stdlib Require Import ZArith List String Ascii Bool Lia DecimalString DecimalZ QArith.
Import ListNotations.
Open Scope string_scope.
Open Scope Z_scope.

Set Implicit Arguments.
Set Warnings "-register-all".


(* ===================================================================== *)
(** ** Python string builtins *)
(* ===================================================================== *)

Module PyStr.

(** [c.isspace()] on ASCII: TAB..CR (9..13), FS..US (28..31) and space. *)
Definition is_space (c : ascii) : bool :=
  let n := N_of_ascii c in
  (((9 <=? n) && (n <=? 13)) || ((28 <=? n) && (n <=? 32)))%N.

Definition is_digit (c : ascii) : bool :=
  let n := N_of_ascii c in ((48 <=? n) && (n <=? 57))%N.

Definition digit_val (c : ascii) : Z := Z.of_N (N_of_ascii c) - 48.

Definition is_empty (s : string) : bool :=
  match s with EmptyString => true | _ => false end.

Fixpoint lstrip (s : string) : string :=
  match s with
  | EmptyString => EmptyString
  | String c r => if is_space c then lstrip r else s
  end.

Fixpoint rstrip (s : string) : string :=
  match s with
  | EmptyString => EmptyString
  | String c r =>
      let r' := rstrip r in
      if is_space c && is_empty r' then EmptyString else String c r'
  end.

(** [s.strip()] *)
Definition strip (s : string) : string := rstrip (lstrip s).

(** [s.split(sep)] for a one-character separator: never the empty list. *)
Fixpoint split_on (sep : ascii) (s : string) : list string :=
  match s with
  | EmptyString => [EmptyString]
  | String c r =>
      if Ascii.eqb c sep then EmptyString :: split_on sep r
      else match split_on sep r with
           | h :: t => String c h :: t
           | [] => [String c EmptyString]
           end
  end.

(** [s.split()]: maximal runs of non-whitespace characters. *)
Fixpoint split_ws (s : string) : list string :=
  match s with
  | EmptyString => []
  | String c r =>
      if is_space c then split_ws r
      else match r with
           | EmptyString => [String c EmptyString]
           | String c' _ =>
               if is_space c' then String c EmptyString :: split_ws r
               else match split_ws r with
                    | h :: t => String c h :: t
                    | [] => [String c EmptyString]
                    end
           end
  end.

(** [needle in hay] for two strings. *)
Fixpoint contains (needle hay : string) : bool :=
  prefix needle hay ||
  match hay with
  | EmptyString => false
  | String _ r => contains needle r
  end.

(** [s.startswith(p)] *)
Definition startswith (s p : string) : bool := prefix p s.

(** [sep.join(l)] for a list of strings. *)
Fixpoint join (sep : string) (l : list string) : string :=
  match l with
  | [] => EmptyString
  | [x] => x
  | x :: rest => x ++ sep ++ join sep rest
  end.

(** The digit part of a decimal integer literal: digits, with single
    underscores allowed between two digits. *)
Fixpoint parse_digits (acc : Z) (after_digit : bool) (s : string) : option Z :=
  match s with
  | EmptyString => if after_digit then Some acc else None
  | String c r =>
      if is_digit c then parse_digits (10 * acc + digit_val c) true r
      else if Ascii.eqb c "_"
           then (if after_digit then parse_digits acc false r else None)
           else None
  end.

(** The whitespace [int] and [float] skip around an ASCII literal: C's
    [isspace], that is TAB..CR (9..13) and space; FS..US are not in it. *)
Definition is_c_space (c : ascii) : bool :=
  let n := N_of_ascii c in
  (((9 <=? n) && (n <=? 13)) || (n =? 32))%N.

Fixpoint c_lstrip (s : string) : string :=
  match s with
  | EmptyString => EmptyString
  | String c r => if is_c_space c then c_lstrip r else s
  end.

Fixpoint c_rstrip (s : string) : string :=
  match s with
  | EmptyString => EmptyString
  | String c r =>
      let r' := c_rstrip r in
      if is_c_space c && is_empty r' then EmptyString else String c r'
  end.

Definition c_strip (s : string) : string := c_rstrip (c_lstrip s).

(** [int(s)] in base ten; [None] is Python's ValueError.  Surrounding
    C whitespace is skipped, one sign is allowed. *)
Definition py_int (s : string) : option Z :=
  match c_strip s with
  | String "+" r => parse_digits 0 false r
  | String "-" r => option_map Z.opp (parse_digits 0 false r)
  | t => parse_digits 0 false t
  end.

(** Every character of [s] satisfies [p]. *)
Fixpoint all_chars (p : ascii -> bool) (s : string) : bool :=
  match s with
  | EmptyString => true
  | String c r => p c && all_chars p r
  end.

Definition not_char (sep c : ascii) : bool := negb (Ascii.eqb c sep).

Definition not_space (c : ascii) : bool := negb (is_space c).

Definition not_c_space (c : ascii) : bool := negb (is_c_space c).

(** A character of the digit part of an integer literal. *)
Definition literal_char (c : ascii) : bool := is_digit c || Ascii.eqb c "_".

(** The value of a digit sequence read after the digits worth [acc]. *)
Fixpoint uint_val (u : Decimal.uint) (acc : Z) : Z :=
  match u with
  | Decimal.Nil => acc
  | Decimal.D0 l => uint_val l (10 * acc + 0)
  | Decimal.D1 l => uint_val l (10 * acc + 1)
  | Decimal.D2 l => uint_val l (10 * acc + 2)
  | Decimal.D3 l => uint_val l (10 * acc + 3)
  | Decimal.D4 l => uint_val l (10 * acc + 4)
  | Decimal.D5 l => uint_val l (10 * acc + 5)
  | Decimal.D6 l => uint_val l (10 * acc + 6)
  | Decimal.D7 l => uint_val l (10 * acc + 7)
  | Decimal.D8 l => uint_val l (10 * acc + 8)
  | Decimal.D9 l => uint_val l (10 * acc + 9)
  end.

(** [str(n)] for an integer. *)
Definition str_of_int (n : Z) : string := NilZero.string_of_int (Z.to_int n).

End PyStr.

(* ===================================================================== *)
(** ** Python values, exceptions and effects *)
(* ===================================================================== *)

Module Py.

(** Values as [json.loads] and keyword arguments deliver them.  A dict is
    an association list in insertion order; keys are strings.  Lists and
    dicts are the only containers: tuples, sets and other objects are not
    among the values, and a statement over [pyval] does not speak of
    them. *)
Inductive pyval (F : Type) : Type :=
| PNone
| PBool (b : bool)
| PInt (n : Z)
| PFloat (x : F)
| PStr (s : string)
| PList (l : list (pyval F))
| PDict (d : list (string * pyval F)).

Arguments PNone {F}.
Arguments PBool {F} b.
Arguments PInt {F} n.
Arguments PStr {F} s.

(** The interpreter's float arithmetic and container printing.  They are
    builtins of the host language, not code of the wrapper, and stay
    abstract: the wrapper's control flow is proved for every platform. *)
Class Platform : Type := {
  float : Type;
  (** the literal [0.0] *)
  float_zero : float;
  (** [float(s)] for a string; [None] is ValueError *)
  float_of_str : string -> option float;
  (** [float(n)] for an integer; [None] is OverflowError *)
  float_of_int : Z -> option float;
  (** [x == 0.0] *)
  float_is_zero : float -> bool;
  (** [x / y] when [y] is not zero *)
  float_div : float -> float -> float;
  (** [round(x, 2)] *)
  float_round2 : float -> float;
  (** [int(x)]; [None] is the error raised on infinities and NaN *)
  float_to_int : float -> option Z;
  (** [str(x)] *)
  float_str : float -> string;
  (** [str(v)] for a list or a dict *)
  container_str : pyval float -> string
}.

Inductive exn : Type :=
| ValueError (msg : string)
| JSONDecodeError (msg : string)
| TypeError
| AttributeError
| KeyError
| IndexError
| OverflowError
| ZeroDivisionError
| OSError (msg : string)
| CalledProcessError (returncode : Z) (cmd : list string).

(** A pure computation that may raise. *)
Definition res (A : Type) : Type := (exn + A)%type.

Section Values.
Context {P : Platform}.

Definition value : Type := pyval float.
Definition dict : Type := list (string * value).

Definition rbind {A B} (r : res A) (k : A -> res B) : res B :=
  match r with
  | inr a => k a
  | inl e => inl e
  end.

(** [bool(v)] *)
Definition truthy (v : value) : bool :=
  match v with
  | PNone => false
  | PBool b => b
  | PInt n => negb (n =? 0)
  | PFloat x => negb (float_is_zero x)
  | PStr s => negb (PyStr.is_empty s)
  | PList l => match l with [] => false | _ => true end
  | PDict d => match d with [] => false | _ => true end
  end.

(** [v is None] *)
Definition is_none (v : value) : bool :=
  match v with PNone => true | _ => false end.

(** [str(v)] *)
Definition py_str (v : value) : string :=
  match v with
  | PNone => "None"
  | PBool true => "True"
  | PBool false => "False"
  | PInt n => PyStr.str_of_int n
  | PFloat x => float_str x
  | PStr s => s
  | _ => container_str v
  end.

(** [v == s] for a string literal [s] *)
Definition eq_str (v : value) (s : string) : bool :=
  match v with PStr t => String.eqb t s | _ => false end.

(** [d.get(k)] as an option, the first binding of [k] *)
Fixpoint dict_lookup (d : dict) (k : string) : option value :=
  match d with
  | [] => None
  | (k', v) :: rest => if String.eqb k' k then Some v else dict_lookup rest k
  end.

(** [d.get(k, default)] *)
Definition dict_get (d : dict) (k : string) (default : value) : value :=
  match dict_lookup d k with Some v => v | None => default end.

Definition dict_remove (d : dict) (k : string) : dict :=
  filter (fun kv => negb (String.eqb (fst kv) k)) d.

(** [d.pop(k, default)]: the value, and the dict without the key *)
Definition dict_pop (d : dict) (k : string) (default : value) : value * dict :=
  (dict_get d k default, dict_remove d k).

(** [v.get(k, default)] on an arbitrary value: only dicts have [get]. *)
Definition get (v : value) (k : string) (default : value) : res value :=
  match v with
  | PDict d => inr (dict_get d k default)
  | _ => inl AttributeError
  end.

(** [k in v] for a string [k] *)
Definition str_in (k : string) (v : value) : res bool :=
  match v with
  | PStr s => inr (PyStr.contains k s)
  | PList l => inr (existsb (fun x => eq_str x k) l)
  | PDict d => inr (existsb (fun kv => String.eqb (fst kv) k) d)
  | _ => inl TypeError
  end.

(** [v[k]] for a string [k] *)
Definition getitem (v : value) (k : string) : res value :=
  match v with
  | PDict d => match dict_lookup d k with Some x => inr x | None => inl KeyError end
  | _ => inl TypeError
  end.

Fixpoint chars (s : string) : list value :=
  match s with
  | EmptyString => []
  | String c r => PStr (String c EmptyString) :: chars r
  end.

(** The items a [for] loop over [v] visits. *)
Definition iterate (v : value) : res (list value) :=
  match v with
  | PList l => inr l
  | PDict d => inr (map (fun kv => PStr (fst kv)) d)
  | PStr s => inr (chars s)
  | _ => inl TypeError
  end.

(** [float(v)] *)
Definition py_float (v : value) : res float :=
  match v with
  | PStr s => match float_of_str s with Some x => inr x | None => inl (ValueError "could not convert string to float") end
  | PInt n => match float_of_int n with Some x => inr x | None => inl OverflowError end
  | PBool b => match float_of_int (if b then 1 else 0) with Some x => inr x | None => inl OverflowError end
  | PFloat x => inr x
  | _ => inl TypeError
  end.

(** [int(v)] *)
Definition py_int (v : value) : res Z :=
  match v with
  | PStr s => match PyStr.py_int s with Some n => inr n | None => inl (ValueError "invalid literal for int() with base 10") end
  | PInt n => inr n
  | PBool b => inr (if b then 1 else 0)
  | PFloat x => match float_to_int x with Some n => inr n | None => inl OverflowError end
  | _ => inl TypeError
  end.

(** [x / y] on floats *)
Definition truediv (x y : float) : res float :=
  if float_is_zero y then inl ZeroDivisionError else inr (float_div x y).

(** The strings of an argument vector, if all of its items are strings. *)
Fixpoint as_strings (l : list value) : option (list string) :=
  match l with
  | [] => Some []
  | PStr s :: rest => option_map (cons s) (as_strings rest)
  | _ :: _ => None
  end.

(** [sep.join(l)]: TypeError unless every item is a string. *)
Definition str_join (sep : string) (l : list value) : res string :=
  match as_strings l with
  | Some ss => inr (PyStr.join sep ss)
  | None => inl TypeError
  end.

(** How [int] and [float] read the same literal: what [int] accepts,
    [float] accepts too, and the float is zero exactly when the integer
    is.  Both builtins skip the same whitespace ([PyStr.is_c_space]) and
    read the same signs, digits and underscores; an IEEE double read from
    a nonzero integer literal has magnitude at least one or is infinite,
    so it is not zero. *)
Definition int_float_coherent : Prop :=
  forall s n, PyStr.py_int s = Some n ->
    exists x, float_of_str s = Some x /\ float_is_zero x = (n =? 0).

End Values.

(** *** State and exceptions.  The state a computation has reached is kept
    when it raises. *)
Section Monad.
Variable S : Type.

Definition M (A : Type) : Type := S -> res A * S.

Definition ret {A} (a : A) : M A := fun s => (inr a, s).

Definition raise {A} (e : exn) : M A := fun s => (inl e, s).

Definition bind {A B} (c : M A) (k : A -> M B) : M B :=
  fun s => match c s with
           | (inr a, s') => k a s'
           | (inl e, s') => (inl e, s')
           end.

(** [try: c  except Exception as e: h e] *)
Definition try_except {A} (c : M A) (h : exn -> M A) : M A :=
  fun s => match c s with
           | (inr a, s') => (inr a, s')
           | (inl e, s') => h e s'
           end.

Definition lift {A} (r : res A) : M A := fun s => (r, s).

Definition gets {A} (f : S -> A) : M A := fun s => (inr (f s), s).

Definition modify (f : S -> S) : M unit := fun s => (inr tt, f s).

End Monad.

Arguments ret {S A} a.
Arguments raise {S A} e.
Arguments lift {S A} r.
Arguments gets {S A} f.
Arguments modify {S} f.

End Py.

Declare Scope py_scope.
Delimit Scope py_scope with py.
Notation "x <- c ;; k" := (Py.bind c (fun x => k))
  (at level 61, c at next level, right associativity) : py_scope.
Notation "c ;; k" := (Py.bind c (fun _ => k))
  (at level 61, right associativity) : py_scope.
Notation "x <~ r ;; k" := (Py.rbind r (fun x => k))
  (at level 61, r at next level, right associativity) : py_scope.

(* ===================================================================== *)
(** ** The wrapper class *)
(* ===================================================================== *)

Module FFmpegWrapper.
Import Py.
Local Open Scope py_scope.

Section Wrapper.
Context {P : Platform}.

(** What [subprocess.run] meets: the launch fails, or the child runs to
    an exit status with its two output streams. *)
Inductive proc_outcome : Type :=
| LaunchFailed (e : exn)
| Exited (returncode : Z) (out err : string).

(** What [subprocess.Popen] followed by the polling loops meets; the lines
    the monitoring thread happened to read from the diagnostic stream are
    part of the outcome, [err] is what [communicate] still finds. *)
Inductive popen_outcome : Type :=
| PopenFailed (e : exn)
| PopenExited (returncode : Z) (lines_read : list string) (out err : string).

(** The surroundings of a call: file system, child processes, the JSON
    decoder and the host framework object. *)
Record Env : Type := mkEnv {
  os_path_exists : string -> bool;
  os_path_dirname : string -> string;
  os_makedirs : string -> option exn;
  subprocess_outcome : list string -> proc_outcome;
  popen_outcome_of : list string -> popen_outcome;
  json_loads : string -> option value;
  (** [framework.settings]; [None] when the attribute is missing *)
  framework_settings : option value;
  bundled_ffmpeg_path : string;
  bundled_ffprobe_path : string
}.

Inductive level : Type := Info | Debug | Error.

Inductive log_arg : Type :=
| AStr (s : string)
| AInt (n : Z)
| AExn (e : exn).

(** One logger call, [fmt % arg] left unformatted. *)
Record log_entry : Type := Log { log_level : level; log_fmt : string; log_argument : log_arg }.

(** What a call leaves behind. *)
Record State : Type := mkState {
  created_dirs : list string;
  launched : list (list string);
  logged : list log_entry;
  notified : list string
}.

Definition initial_state : State := mkState [] [] [] [].

Definition W : Type -> Type := M State.

Variable env : Env.

Definition logger (l : level) (fmt : string) (a : log_arg) : W unit :=
  modify (fun s => mkState (created_dirs s) (launched s) (logged s ++ [Log l fmt a]) (notified s)).

Definition record_launch (cmd : list string) : W unit :=
  modify (fun s => mkState (created_dirs s) (launched s ++ [cmd]) (logged s) (notified s)).

Definition progress_callback_call (text : string) : W unit :=
  modify (fun s => mkState (created_dirs s) (launched s) (logged s) (notified s ++ [text])).

(** [os.path.exists(p)] *)
Definition path_exists (p : string) : W bool :=
  gets (fun s => os_path_exists env p || existsb (String.eqb p) (created_dirs s)).

(** [os.makedirs(d)] *)
Definition makedirs (d : string) : W unit :=
  match os_makedirs env d with
  | Some e => raise e
  | None => modify (fun s => mkState (created_dirs s ++ [d]) (launched s) (logged s) (notified s))
  end.

(** The keyword arguments the wrapper passes on to [subprocess]; [true]
    stands for the keyword given as [True], [false] for its absence.
    [text] chooses str over bytes for the captured streams, which are
    strings here either way. *)
Record run_kwargs : Type := mkKw { capture_output : bool; text : bool; check : bool }.

Record CompletedProcess : Type := mkResult {
  returncode : Z;
  stdout : option string;
  stderr : option string
}.

(** [subprocess.run(cmd, **kwargs)] *)
Definition subprocess_run (cmd : list value) (kw : run_kwargs) : W CompletedProcess :=
  match as_strings cmd with
  | None => raise TypeError
  | Some argv =>
      record_launch argv ;;
      match subprocess_outcome env argv with
      | LaunchFailed e => raise e
      | Exited rc out err =>
          if check kw && negb (rc =? 0) then raise (CalledProcessError rc argv)
          else ret (if capture_output kw
                    then mkResult rc (Some out) (Some err)
                    else mkResult rc None None)
      end
  end.

(** The instance attributes set by [__init__]. *)
Record Self : Type := mkSelf {
  _ffmpeg_path : string;
  _ffprobe_path : string;
  _max_threads : Z;
  _default_video_codec : string;
  _default_audio_codec : string
}.

Definition _get_bundled_ffmpeg_path : string := bundled_ffmpeg_path env.
Definition _get_bundled_ffprobe_path : string := bundled_ffprobe_path env.

Definition init : W Self :=
  let self := mkSelf _get_bundled_ffmpeg_path _get_bundled_ffprobe_path 4 "libx264" "aac" in
  logger Info "FFmpeg path: %s" (AStr (_ffmpeg_path self)) ;;
  logger Info "FFprobe path: %s" (AStr (_ffprobe_path self)) ;;
  ret self.

Variable self : Self.

(** [cmd.extend(["-threads", str(self._max_threads)])] under its guard *)
Definition with_threads (cmd : list value) : list value :=
  if 0 <? _max_threads self
  then cmd ++ [PStr "-threads"; PStr (PyStr.str_of_int (_max_threads self))]
  else cmd.

Definition log_failure (tool : string) (result : CompletedProcess) : W unit :=
  if negb (returncode result =? 0) then
    logger Error (tool ++ " command failed with return code %s") (AInt (returncode result)) ;;
    match stderr result with
    | Some err => if negb (PyStr.is_empty err)
                  then logger Error (tool ++ " stderr: %s") (AStr err)
                  else ret tt
    | None => ret tt
    end
  else ret tt.

Definition execute_ffmpeg_command (args : list value) (kw : run_kwargs) : W CompletedProcess :=
  let cmd := with_threads (PStr (_ffmpeg_path self) :: args) in
  line <- lift (str_join " " cmd) ;;
  logger Debug "Executing FFmpeg command: %s" (AStr line) ;;
  try_except
    (result <- subprocess_run cmd kw ;;
     log_failure "FFmpeg" result ;;
     ret result)
    (fun e => logger Error "FFmpeg command failed: %s" (AExn e) ;; raise e).

(** One turn of the monitoring loop on a line it has read. *)
Definition monitor_line (progress_callback : bool) (line : string) : W unit :=
  if negb (PyStr.is_empty line) && progress_callback then
    if PyStr.contains "time=" line
    then progress_callback_call ("FFmpeg: " ++ PyStr.strip line)
    else ret tt
  else ret tt.

Fixpoint monitor_progress (progress_callback : bool) (lines : list string) : W unit :=
  match lines with
  | [] => ret tt
  | line :: rest => monitor_line progress_callback line ;; monitor_progress progress_callback rest
  end.

(** [subprocess.Popen(cmd, stdout=PIPE, stderr=PIPE, universal_newlines=True,
    **kwargs)], the monitoring thread and the wait loop, up to
    [communicate].  [Popen] has no [capture_output] or [check] keyword. *)
Definition popen_and_wait (cmd : list value) (progress_callback : bool) (kw : run_kwargs)
  : W CompletedProcess :=
  if capture_output kw || check kw then raise TypeError else
  match as_strings cmd with
  | None => raise TypeError
  | Some argv =>
      record_launch argv ;;
      match popen_outcome_of env argv with
      | PopenFailed e => raise e
      | PopenExited rc lines out err =>
          (if progress_callback then monitor_progress progress_callback lines else ret tt) ;;
          ret (mkResult rc (Some out) (Some err))
      end
  end.

Definition execute_ffmpeg_with_progress (args : list value) (progress_callback : bool)
    (kw : run_kwargs) : W CompletedProcess :=
  let cmd := with_threads (PStr (_ffmpeg_path self) :: args) in
  let cmd := (cmd ++ [PStr "-progress"; PStr "pipe:2"])%list in
  line <- lift (str_join " " cmd) ;;
  logger Debug "Executing FFmpeg command with progress: %s" (AStr line) ;;
  try_except
    (result <- popen_and_wait cmd progress_callback kw ;;
     log_failure "FFmpeg" result ;;
     ret result)
    (fun e => logger Error "FFmpeg command failed: %s" (AExn e) ;; raise e).

Definition execute_ffprobe_command (args : list value) (kw : run_kwargs) : W CompletedProcess :=
  let cmd := PStr (_ffprobe_path self) :: args in
  line <- lift (str_join " " cmd) ;;
  logger Debug "Executing FFprobe command: %s" (AStr line) ;;
  try_except
    (result <- subprocess_run cmd kw ;;
     log_failure "FFprobe" result ;;
     ret result)
    (fun e => logger Error "FFprobe command failed: %s" (AExn e) ;; raise e).

Definition execute_command (args : list value) (kw : run_kwargs) : W CompletedProcess :=
  execute_ffmpeg_command args kw.

(** *** get_video_info *)

(** The [info] dictionary; its keys are fixed, so it is a record. *)
Record MediaInfo : Type := mkInfo {
  duration : float;
  width : value;
  height : value;
  fps : option float;
  video_codec : value;
  audio_codec : value;
  bitrate : Z;
  file_size : Z
}.

Definition initial_info : MediaInfo :=
  mkInfo float_zero PNone PNone None PNone PNone 0 0.

(** [v.split(sep)]: only strings have the method. *)
Definition split_method (v : value) (sep : ascii) : res (list string) :=
  match v with
  | PStr s => inr (PyStr.split_on sep s)
  | _ => inl AttributeError
  end.

(** Lines 261-266: the frame rate of a video stream. *)
Definition frame_rate (info : MediaInfo) (stream : value) : res MediaInfo :=
  fps_str <~ get stream "r_frame_rate" (PStr "0/1") ;;
  has_slash <~ str_in "/" fps_str ;;
  if has_slash then
    parts <~ split_method fps_str "/" ;;
    match parts with
    | [num; den] =>
        d <~ py_int (PStr den) ;;
        if negb (d =? 0) then
          x <~ py_float (PStr num) ;;
          y <~ py_float (PStr den) ;;
          q <~ truediv x y ;;
          inr (mkInfo (duration info) (width info) (height info) (Some (float_round2 q))
                      (video_codec info) (audio_codec info) (bitrate info) (file_size info))
        else inr info
    | _ => inl (ValueError "too many values to unpack (expected 2)")
    end
  else inr info.

(** Lines 256-269: the body of the loop over the streams. *)
Definition scan_stream (info : MediaInfo) (stream : value) : res MediaInfo :=
  codec_type <~ get stream "codec_type" PNone ;;
  if eq_str codec_type "video" then
    w <~ get stream "width" PNone ;;
    h <~ get stream "height" PNone ;;
    c <~ get stream "codec_name" PNone ;;
    frame_rate (mkInfo (duration info) w h (fps info) c (audio_codec info)
                       (bitrate info) (file_size info)) stream
  else
    codec_type <~ get stream "codec_type" PNone ;;
    if eq_str codec_type "audio" then
      c <~ get stream "codec_name" PNone ;;
      inr (mkInfo (duration info) (width info) (height info) (fps info)
                  (video_codec info) c (bitrate info) (file_size info))
    else inr info.

Fixpoint scan_streams (info : MediaInfo) (streams : list value) : res MediaInfo :=
  match streams with
  | [] => inr info
  | stream :: rest => info' <~ scan_stream info stream ;; scan_streams info' rest
  end.

(** Lines 248-252: the container-level fields. *)
Definition format_fields (info : MediaInfo) (data : value) : res MediaInfo :=
  has_format <~ str_in "format" data ;;
  if has_format then
    format_info <~ getitem data "format" ;;
    d <~ get format_info "duration" (PInt 0) ;;
    dur <~ py_float d ;;
    b <~ get format_info "bit_rate" (PInt 0) ;;
    br <~ py_int b ;;
    z <~ get format_info "size" (PInt 0) ;;
    sz <~ py_int z ;;
    inr (mkInfo dur (width info) (height info) (fps info)
                (video_codec info) (audio_codec info) br sz)
  else inr info.

(** Lines 236-271: from the decoded document to the summary. *)
Definition extract_info (data : value) : res MediaInfo :=
  info <~ format_fields initial_info data ;;
  streams <~ get data "streams" (PList []) ;;
  items <~ iterate streams ;;
  scan_streams info items.

(** [json.loads(result.stdout)] *)
Definition loads (out : option string) : res value :=
  match out with
  | None => inl TypeError
  | Some text =>
      match json_loads env text with
      | Some v => inr v
      | None => inl (JSONDecodeError "Expecting value")
      end
  end.

(** The two [except] clauses shared by the probe methods. *)
Definition probe_handlers {A} (e : exn) : W A :=
  match e with
  | CalledProcessError _ _ => logger Error "ffprobe command failed: %s" (AExn e) ;; raise e
  | JSONDecodeError _ => logger Error "Failed to parse ffprobe output: %s" (AExn e) ;; raise e
  | _ => raise e
  end.

Definition get_video_info (video_path : string) : W MediaInfo :=
  present <- path_exists video_path ;;
  if negb present then raise (ValueError ("Video file does not exist: " ++ video_path)) else
  let args := [PStr "-v"; PStr "quiet"; PStr "-print_format"; PStr "json";
               PStr "-show_format"; PStr "-show_streams"; PStr video_path] in
  try_except
    (result <- execute_ffprobe_command args (mkKw true true true) ;;
     data <- lift (loads (stdout result)) ;;
     lift (extract_info data))
    probe_handlers.

(** *** convert_video *)

(** [self._framework.settings.get(key, fixed)] *)
Definition settings_get (key : string) (fixed : value) : res value :=
  match framework_settings env with
  | None => inl AttributeError
  | Some settings => get settings key fixed
  end.

(** The [try] / [except (AttributeError, KeyError)] around the lookup. *)
Definition default_codec (key fixed : string) : res value :=
  match settings_get key (PStr fixed) with
  | inr v => inr v
  | inl AttributeError => inr (PStr fixed)
  | inl KeyError => inr (PStr fixed)
  | inl e => inl e
  end.

(** [if codec: args.extend([flag, codec])] *)
Definition codec_flag (flag : string) (codec : value) : list value :=
  if truthy codec then [PStr flag; codec] else [].

(** Lines 322-324: the remaining keyword options, in the dict's order. *)
Fixpoint option_flags (options : dict) : list value :=
  match options with
  | [] => []
  | (key, v) :: rest =>
      (if is_none v then [] else [PStr ("-" ++ key); PStr (py_str v)]) ++ option_flags rest
  end.

(** Lines 299-328: the argument vector of a conversion. *)
Definition convert_args (input_path output_path : string) (options : dict)
  : res (list value) :=
  dv <~ default_codec "default_video_codec" "libx264" ;;
  let (vcodec, options) := dict_pop options "vcodec" dv in
  da <~ default_codec "default_audio_codec" "aac" ;;
  let (acodec, options) := dict_pop options "acodec" da in
  inr ([PStr "-i"; PStr input_path] ++ codec_flag "-vcodec" vcodec
       ++ codec_flag "-acodec" acodec ++ option_flags options
       ++ [PStr "-y"; PStr output_path])%list.

Definition convert_video (input_path output_path : string) (progress_callback : bool)
    (options : dict) : W CompletedProcess :=
  present <- path_exists input_path ;;
  if negb present then raise (ValueError ("Input file does not exist: " ++ input_path)) else
  let output_dir := os_path_dirname env output_path in
  dir_present <- path_exists output_dir ;;
  (if negb (PyStr.is_empty output_dir) && negb dir_present
   then makedirs output_dir else ret tt) ;;
  args <- lift (convert_args input_path output_path options) ;;
  if progress_callback
  then execute_ffmpeg_with_progress args progress_callback (mkKw false false false)
  else execute_ffmpeg_command args (mkKw true true false).

(** *** get_media_formats *)

Record Formats : Type := mkFormats { encoders : list string; decoders : list string }.

(** Lines 350-358: the loop over the lines of a listing; [names] is the
    list being appended to. *)
Fixpoint scan_listing (in_section : bool) (names : list string) (lines : list string)
  : list string :=
  match lines with
  | [] => names
  | line :: rest =>
      if PyStr.startswith (PyStr.strip line) "------" then scan_listing true names rest
      else if in_section && negb (PyStr.is_empty (PyStr.strip line)) then
        match PyStr.split_ws line with
        | _ :: name :: _ => scan_listing in_section (names ++ [name]) rest
        | _ => scan_listing in_section names rest
        end
      else scan_listing in_section names rest
  end.

(** Lines 347-358: what one listing adds to a list of names. *)
Definition listing_names (result : CompletedProcess) (names : list string)
  : res (list string) :=
  if returncode result =? 0 then
    match stdout result with
    | Some out => inr (scan_listing false names (PyStr.split_on "010" out))
    | None => inl AttributeError
    end
  else inr names.

Definition get_media_formats : W Formats :=
  let on_error (formats : Formats) (e : exn) : W Formats :=
    logger Error "Failed to get format information: %s" (AExn e) ;; ret formats in
  try_except
    (result <- execute_ffmpeg_command [PStr "-encoders"] (mkKw true true false) ;;
     enc <- lift (listing_names result []) ;;
     try_except
       (result <- execute_ffmpeg_command [PStr "-decoders"] (mkKw true true false) ;;
        dec <- lift (listing_names result []) ;;
        ret (mkFormats enc dec))
       (on_error (mkFormats enc [])))
    (on_error (mkFormats [] [])).

(** *** validate_media_file *)

Definition validate_media_file (media_path : string) : W bool :=
  let args := [PStr "-v"; PStr "error"; PStr "-show_entries"; PStr "format=duration";
               PStr "-of"; PStr "csv=p=0"; PStr media_path] in
  try_except
    (result <- execute_ffprobe_command args (mkKw true true false) ;;
     ret (returncode result =? 0))
    (fun _ => ret false).

(** *** get_stream_info *)

(** [v[0]] *)
Definition first_item (v : value) : res value :=
  match v with
  | PStr (String c _) => inr (PStr (String c EmptyString))
  | PStr EmptyString => inl IndexError
  | PList (x :: _) => inr x
  | PList [] => inl IndexError
  | PDict _ => inl KeyError
  | _ => inl TypeError
  end.

Definition get_stream_info (media_path : string) (stream_type : value) : W value :=
  present <- path_exists media_path ;;
  if negb present then raise (ValueError ("Media file does not exist: " ++ media_path)) else
  let args := [PStr "-v"; PStr "quiet"; PStr "-print_format"; PStr "json";
               PStr "-show_streams"] in
  args <- (if truthy stream_type
           then code <- lift (first_item stream_type) ;;
                ret (args ++ [PStr "-select_streams"; code])%list
           else ret args) ;;
  let args := (args ++ [PStr media_path])%list in
  try_except
    (result <- execute_ffprobe_command args (mkKw true true true) ;;
     data <- lift (loads (stdout result)) ;;
     lift (get data "streams" (PList [])))
    probe_handlers.

(** *** extract_frames, create_thumbnail *)

Definition extract_frames (video_path output_pattern : string)
    (start_time duration_ fps_ : value) : W CompletedProcess :=
  let args := (if is_none start_time then [] else [PStr "-ss"; PStr (py_str start_time)]) in
  let args := (args ++ [PStr "-i"; PStr video_path])%list in
  let args := (if is_none duration_ then args
               else args ++ [PStr "-t"; PStr (py_str duration_)])%list in
  let args := (if is_none fps_ then args
               else args ++ [PStr "-vf"; PStr ("fps=" ++ py_str fps_)])%list in
  let args := (args ++ [PStr "-y"; PStr output_pattern])%list in
  execute_ffmpeg_command args (mkKw true true false).

Definition create_thumbnail (video_path output_path : string) (time_offset : value)
  : W CompletedProcess :=
  let args := [PStr "-i"; PStr video_path; PStr "-ss"; PStr (py_str time_offset);
               PStr "-vframes"; PStr "1"; PStr "-y"; PStr output_path] in
  execute_ffmpeg_command args (mkKw true true false).

(** *** create_proxy *)

Definition resolution_map : list (string * string) :=
  [("720p", "1280x720"); ("1080p", "1920x1080"); ("480p", "854x480")].

Record QualitySettings : Type := mkQuality { crf : string; preset : string }.

Definition quality_map : list (string * QualitySettings) :=
  [("fast", mkQuality "28" "fast");
   ("medium", mkQuality "23" "medium");
   ("slow", mkQuality "18" "slow")].

Fixpoint table_lookup {A} (m : list (string * A)) (k : string) : option A :=
  match m with
  | [] => None
  | (k', a) :: rest => if String.eqb k' k then Some a else table_lookup rest k
  end.

(** [m.get(key, default)] on a dict with string keys, for an arbitrary
    key: lists and dicts are unhashable, other non-strings are absent. *)
Definition table_get {A} (m : list (string * A)) (key : value) (default : A) : res A :=
  match key with
  | PStr k => inr (match table_lookup m k with Some a => a | None => default end)
  | PList _ => inl TypeError
  | PDict _ => inl TypeError
  | _ => inr default
  end.

(** Line 484 *)
Definition target_res (resolution : value) : res value :=
  match resolution with
  | PStr k => inr (match table_lookup resolution_map k with
                   | Some r => PStr r
                   | None => resolution
                   end)
  | PList _ => inl TypeError
  | PDict _ => inl TypeError
  | _ => inr resolution
  end.

(** Line 493; [quality_map['medium']] is evaluated first and is present. *)
Definition quality_settings (quality : value) : res QualitySettings :=
  medium <~ match table_lookup quality_map "medium" with
            | Some q => inr q
            | None => inl KeyError
            end ;;
  table_get quality_map quality medium.

(** The keyword options [create_proxy] hands to [convert_video].  The
    scale filter is ["scale=%s" % target_res]: for a right operand that is
    not a tuple, and no value of the model is one, the format operator
    prints it with [str]. *)
Definition proxy_options (resolution quality : value) : res dict :=
  res_ <~ target_res resolution ;;
  settings <~ quality_settings quality ;;
  inr [("vf", PStr ("scale=" ++ py_str res_));
       ("crf", PStr (crf settings));
       ("preset", PStr (preset settings))].

Definition create_proxy (input_path output_path : string) (resolution quality : value)
  : W CompletedProcess :=
  options <- lift (proxy_options resolution quality) ;;
  convert_video input_path output_path false options.


End Wrapper.
End FFmpegWrapper.

(* ===================================================================== *)
(** ** A reference platform with exact rational arithmetic

    Used to run the model on concrete probe documents.  Floats are
    rationals, [float] reads decimal literals with an optional fraction
    (no exponent, no infinities), [round(x, 2)] rounds the exact value
    half to even. *)
(* ===================================================================== *)

Module ExactPlatform.

Definition round_half_even (x : Q) : Z :=
  let n := Qnum x in
  let d := Zpos (Qden x) in
  let q := n / d in
  let r := n mod d in
  match 2 * r ?= d with
  | Lt => q
  | Gt => q + 1
  | Eq => if Z.even q then q else q + 1
  end.

Definition round2 (x : Q) : Q := Qred (Qmake (round_half_even (x * 100)) 100).

(** Where the reader of a decimal literal stands. *)
Inductive position : Type := AtStart | AfterDigit | AfterUnderscore | AfterPoint.

(** The unsigned part of a float literal, [digits [. digits]] with at
    least one digit: [mant] collects the digits read, [scale] is the power
    of ten to divide by once the point has been passed.  An underscore
    stands between two digits only. *)
Fixpoint read_decimal (mant : Z) (scale : option positive) (seen_digit : bool)
    (pos : position) (s : string) : option Q :=
  match s with
  | EmptyString =>
      match pos with
      | AfterUnderscore => None
      | _ =>
          if seen_digit
          then match scale with
               | None => Some (inject_Z mant)
               | Some k => Some (Qred (Qmake mant k))
               end
          else None
      end
  | String c r =>
      if PyStr.is_digit c
      then read_decimal (10 * mant + PyStr.digit_val c) (option_map (Pos.mul 10) scale)
                        true AfterDigit r
      else if Ascii.eqb c "_"
      then match pos with
           | AfterDigit => read_decimal mant scale seen_digit AfterUnderscore r
           | _ => None
           end
      else if Ascii.eqb c "."
      then match scale, pos with
           | None, AtStart | None, AfterDigit =>
               read_decimal mant (Some 1%positive) seen_digit AfterPoint r
           | _, _ => None
           end
      else None
  end.

(** [float(s)]: C whitespace around the literal is skipped, one sign is
    allowed. *)
Definition read_float (s : string) : option Q :=
  match PyStr.c_strip s with
  | String "+" r => read_decimal 0 None false AtStart r
  | String "-" r => option_map Qopp (read_decimal 0 None false AtStart r)
  | t => read_decimal 0 None false AtStart t
  end.

Definition platform : Py.Platform := {|
  Py.float := Q;
  Py.float_zero := 0%Q;
  Py.float_of_str := read_float;
  Py.float_of_int := fun n => Some (inject_Z n);
  Py.float_is_zero := fun x => Qnum x =? 0;
  Py.float_div := fun x y => Qred (x / y);
  Py.float_round2 := round2;
  Py.float_to_int := fun x => Some (Z.quot (Qnum x) (Zpos (Qden x)));
  Py.float_str := fun _ => "<float>";
  Py.container_str := fun _ => "<container>"
|}.

End ExactPlatform.

Module Scenarios.
Import Py FFmpegWrapper.

#[local] Existing Instance ExactPlatform.platform.

(** The probe document of the first end-to-end scenario. *)
Definition probe_document : value :=
  PDict [("format", PDict [("duration", PStr "12"); ("bit_rate", PStr "128000");
                           ("size", PStr "500000")]);
         ("streams", PList [
            PDict [("codec_type", PStr "video"); ("width", PInt 1920); ("height", PInt 1080);
                   ("codec_name", PStr "h264"); ("r_frame_rate", PStr "30000/1001")];
            PDict [("codec_type", PStr "audio"); ("codec_name", PStr "aac")]])].

Definition self0 : Self := mkSelf "ffmpeg.exe" "ffprobe.exe" 4 "libx264" "aac".

(** The text ffprobe prints in the scenarios; the decoder below reads it
    as the scenario's document. *)
Definition probe_output : string := "<probe output>".

(** An environment from a file-system test, the outcome of every launch,
    the document [probe_output] decodes to and the framework settings. *)
Definition env_of (present : string -> bool) (run : list string -> proc_outcome)
    (doc : option value) (settings : option value) : Env :=
  mkEnv present (fun _ => "") (fun _ => None) run
        (fun _ => PopenExited 0 [] "" "")
        (fun text => if String.eqb text probe_output then doc else None) settings
        "ffmpeg.exe" "ffprobe.exe".

Definition video_a : value :=
  PDict [("codec_type", PStr "video"); ("width", PInt 1920); ("height", PInt 1080);
         ("codec_name", PStr "h264"); ("r_frame_rate", PStr "30000/1001")].

Definition audio_a : value :=
  PDict [("codec_type", PStr "audio"); ("codec_name", PStr "aac")].

Definition video_b : value :=
  PDict [("codec_type", PStr "video"); ("width", PInt 640); ("height", PInt 360);
         ("codec_name", PStr "mjpeg"); ("r_frame_rate", PStr "25/1")].

Definition audio_b : value :=
  PDict [("codec_type", PStr "audio"); ("codec_name", PStr "mp3")].

(** A probe document with two video and two audio streams. *)
Definition two_video_streams : list value := [video_a; audio_a; video_b; audio_b].

Definition two_video_document : dict := [("streams", PList two_video_streams)].

Definition two_video_env : Env :=
  env_of (fun _ => true) (fun _ => Exited 0 probe_output "")
         (Some (PDict two_video_document)) None.

(** A probe document whose only stream has the frame rate [rate]. *)
Definition rate_stream (rate : string) : dict :=
  [("codec_type", PStr "video"); ("width", PInt 1920); ("r_frame_rate", PStr rate)].

Definition rate_env (rate : string) : Env :=
  env_of (fun _ => true) (fun _ => Exited 0 probe_output "")
         (Some (PDict [("streams", PList [PDict (rate_stream rate)])])) None.

(** A probe document with a [format] object, in which the video stream
    with the frame rate [rate] stands between two audio streams. *)
Definition rated_document (rate : string) : dict :=
  [("format", PDict [("duration", PStr "12.5"); ("bit_rate", PStr "128000");
                     ("size", PStr "500000")]);
   ("streams", PList ([audio_a] ++ PDict (rate_stream rate) :: [audio_b]))].

Definition rated_env (rate : string) : Env :=
  env_of (fun _ => true) (fun _ => Exited 0 probe_output "")
         (Some (PDict (rated_document rate))) None.

(** Nothing exists; every child prints a complaint and exits with 1. *)
Definition missing_env : Env :=
  env_of (fun _ => false) (fun _ => Exited 1 "" "No such file or directory") None None.

(** Every child exits with status 2. *)
Definition failing_env : Env :=
  env_of (fun _ => true) (fun _ => Exited 2 "" "Invalid data found") None None.

(** A listing with a second separator line among the entries. *)
Definition listing_two_separators : string :=
  "Encoders:
 ------
 V..... libx264 H.264
 ------ libdash Dash
 A..... aac AAC".

Definition listing_env : Env :=
  env_of (fun _ => true) (fun _ => Exited 0 listing_two_separators "") None None.

(** What [get_video_info] returns on [two_video_document]. *)
Definition overwritten_info : MediaInfo :=
  mkInfo 0%Q (PInt 640) (PInt 360) (Some 25%Q) (PStr "mjpeg") (PStr "mp3") 0 0.

Definition settings_env : Env :=
  env_of (fun _ => true) (fun _ => Exited 0 "" "") None
         (Some (PDict [("default_video_codec", PStr "libx265")])).

(** The child of a progress run prints two progress lines among others. *)
Definition progress_lines : list string :=
  ["frame=  120 fps= 30 time=00:00:05.00 bitrate= 900kbits/s
"; "Press [q] to stop
"; ""; "frame=  240 fps= 30 time=00:00:10.00 bitrate= 910kbits/s
"].

Definition progress_env : Env :=
  mkEnv (fun _ => true) (fun _ => "") (fun _ => None) (fun _ => Exited 0 "" "")
        (fun _ => PopenExited 1 progress_lines "" "Conversion failed!")
        (fun _ => None) None "ffmpeg.exe" "ffprobe.exe".

(** Only the input exists; every output lies in the directory [renders],
    which [os.makedirs] makes or refuses to make. *)
Definition dir_env (refusal : option exn) : Env :=
  mkEnv (String.eqb "in.mp4") (fun _ => "renders") (fun _ => refusal)
        (fun _ => Exited 0 "" "") (fun _ => PopenExited 0 [] "" "")
        (fun _ => None) None "ffmpeg.exe" "ffprobe.exe".

(** The executables cannot be started. *)
Definition no_binary_env : Env :=
  env_of (fun _ => true) (fun _ => LaunchFailed (OSError "No such file or directory"))
         None None.

(** ffprobe prints something that is not JSON. *)
Definition garbage_env : Env :=
  env_of (fun _ => true) (fun _ => Exited 0 "not json" "") None None.

(** A probe document whose bit rate is unknown. *)
Definition unknown_rate_document : dict :=
  [("format", PDict [("duration", PStr "12"); ("bit_rate", PStr "N/A");
                     ("size", PStr "500000")]);
   ("streams", PList [video_a])].

Definition unknown_rate_env : Env :=
  env_of (fun _ => true) (fun _ => Exited 0 probe_output "")
         (Some (PDict unknown_rate_document)) None.

(** A probe document with nothing in it. *)
Definition empty_env : Env :=
  env_of (fun _ => true) (fun _ => Exited 0 probe_output "") (Some (PDict [])) None.

(** An audio file with a subtitle track. *)
Definition subtitle : value := PDict [("codec_type", PStr "subtitle"); ("codec_name", PStr "srt")].

Definition audio_document : dict := [("streams", PList [audio_b; subtitle])].

Definition audio_env : Env :=
  env_of (fun _ => true) (fun _ => Exited 0 probe_output "")
         (Some (PDict audio_document)) None.

End Scenarios.

(* ===================================================================== *)
(** ** Vocabulary of the statements *)
(* ===================================================================== *)

Module Vocabulary.
Import Py FFmpegWrapper.

Section Streams.
Context {P : Platform}.

(** The stream is a dict whose [codec_type] is the string [t]. *)
Definition codec_type_is (t : string) (stream : value) : bool :=
  match stream with
  | PDict d => eq_str (dict_get d "codec_type" PNone) t
  | _ => false
  end.

(** [stream.get(k)] of a stream that is a dict. *)
Definition field (stream : value) (k : string) : value :=
  match stream with
  | PDict d => dict_get d k PNone
  | _ => PNone
  end.

(** The loop body goes through on this stream. *)
Definition stream_ok (stream : value) : bool :=
  match scan_stream initial_info stream with
  | inr _ => true
  | inl _ => false
  end.

(** The frame rate the stream itself supplies, if it supplies one. *)
Definition own_fps (stream : value) : option float :=
  match frame_rate initial_info stream with
  | inr i => fps i
  | inl _ => None
  end.

(** The frame rate after the streams: that of the last video stream that
    supplies one, [rate] if none does. *)
Fixpoint last_fps (streams : list value) (rate : option float) : option float :=
  match streams with
  | [] => rate
  | s :: rest =>
      last_fps rest
        (if codec_type_is "video" s
         then match own_fps s with Some x => Some x | None => rate end
         else rate)
  end.

Definition set_fps (i : MediaInfo) (rate : option float) : MediaInfo :=
  mkInfo (duration i) (width i) (height i) rate (video_codec i) (audio_codec i)
         (bitrate i) (file_size i).

End Streams.

Section Runs.
Context {P : Platform}.

(** The command line [execute_ffmpeg_command] builds from [args]. *)
Definition ffmpeg_command (self : Self) (args : list string) : list string :=
  _ffmpeg_path self :: args ++
    (if 0 <? _max_threads self
     then ["-threads"; PyStr.str_of_int (_max_threads self)] else []).

(** The command line [execute_ffmpeg_with_progress] builds from [args]. *)
Definition ffmpeg_progress_command (self : Self) (args : list string) : list string :=
  ffmpeg_command self args ++ ["-progress"; "pipe:2"].

(** The command line [execute_ffprobe_command] builds from [args]. *)
Definition ffprobe_command (self : Self) (args : list string) : list string :=
  _ffprobe_path self :: args.

(** The state after one launch of [argv] and the log entries [entries]. *)
Definition after_run (st : State) (argv : list string) (entries : list log_entry) : State :=
  mkState (created_dirs st) (launched st ++ [argv]) (logged st ++ entries) (notified st).

(** An output stream as the result object holds it. *)
Definition captured (kw : run_kwargs) (s : string) : option string :=
  if capture_output kw then Some s else None.

Definition debug_entry (tool : string) (argv : list string) : log_entry :=
  Log Debug ("Executing " ++ tool ++ " command: %s") (AStr (PyStr.join " " argv)).

Definition raised_entry (tool : string) (e : exn) : log_entry :=
  Log Error (tool ++ " command failed: %s") (AExn e).

(** The entries logged for a result with a non-zero status. *)
Definition status_entries (tool : string) (kw : run_kwargs) (rc : Z) (err : string)
  : list log_entry :=
  Log Error (tool ++ " command failed with return code %s") (AInt rc) ::
  (if capture_output kw && negb (PyStr.is_empty err)
   then [Log Error (tool ++ " stderr: %s") (AStr err)] else []).

(** The path is absent from the file system the call sees. *)
Definition absent (env : Env) (st : State) (path : string) : Prop :=
  os_path_exists env path = false /\
  existsb (String.eqb path) (created_dirs st) = false.

(** The argument vector of the probe behind [get_video_info]. *)
Definition probe_command (self : Self) (video_path : string) : list string :=
  [_ffprobe_path self; "-v"; "quiet"; "-print_format"; "json";
   "-show_format"; "-show_streams"; video_path].

(** The body shared by the two synchronous executors. *)
Definition run_logged (env : Env) (tool : string) (cmd : list value) (kw : run_kwargs)
  : W CompletedProcess :=
  bind (lift (str_join " " cmd)) (fun line =>
  bind (logger Debug ("Executing " ++ tool ++ " command: %s") (AStr line)) (fun _ =>
  try_except
    (bind (subprocess_run env cmd kw) (fun result =>
     bind (log_failure tool result) (fun _ => ret result)))
    (fun e => bind (logger Error (tool ++ " command failed: %s") (AExn e))
                   (fun _ => raise e)))).

(** The arguments of the probe behind [validate_media_file]. *)
Definition validate_args (media_path : string) : list string :=
  ["-v"; "error"; "-show_entries"; "format=duration"; "-of"; "csv=p=0"; media_path].

(** The codec in the spec's words: the per-call override if the option is
    given, else the settings entry if the framework has settings with that
    key, else the fixed default. *)
Definition resolved_codec (env : Env) (options : dict) (name key fixed : string) : value :=
  match dict_lookup options name with
  | Some v => v
  | None =>
      match framework_settings env with
      | Some (PDict settings) =>
          match dict_lookup settings key with
          | Some v => v
          | None => PStr fixed
          end
      | _ => PStr fixed
      end
  end.

(** The options left once both codec options are popped. *)
Definition other_options (options : dict) : dict :=
  dict_remove (dict_remove options "vcodec") "acodec".


End Runs.

(** *** The listing format in the spec's words *)

(** A separator line: a row of dashes, whitespace around it aside. *)
Definition is_separator (line : string) : bool :=
  PyStr.startswith (PyStr.strip line) "------".

Definition is_blank (line : string) : bool := PyStr.is_empty (PyStr.strip line).

(** The second whitespace-delimited token of a line, when it has one. *)
Definition second_token (line : string) : list string :=
  match PyStr.split_ws line with
  | _ :: name :: _ => [name]
  | _ => []
  end.

(** The lines that follow the first separator line. *)
Fixpoint after_first_separator (lines : list string) : list string :=
  match lines with
  | [] => []
  | line :: rest => if is_separator line then rest else after_first_separator rest
  end.

(** The names as the spec words them: the second token of every
    non-blank line that follows the first separator line. *)
Definition spec_format_names (listing : string) : list string :=
  flat_map second_token
    (filter (fun line => negb (is_blank line))
       (after_first_separator (PyStr.split_on "010" listing))).

(** The names as the code collects them: separator lines are never read
    as entries, wherever they stand. *)
Definition listed_names (lines : list string) : list string :=
  flat_map second_token (filter (fun line => negb (is_separator line)) lines).

(** The names one listing contributes: none unless the status is 0. *)
Definition names_of (rc : Z) (out : string) : list string :=
  if rc =? 0 then listed_names (after_first_separator (PyStr.split_on "010" out)) else [].

Section Calls.
Context {P : Platform}.

(** The value is a string. *)
Definition is_str (v : value) : bool :=
  match v with PStr _ => true | _ => false end.

(** The value is a dict. *)
Definition is_dict (v : value) : bool :=
  match v with PDict _ => true | _ => false end.

(** The value cannot be a dict key. *)
Definition unhashable (v : value) : bool :=
  match v with PList _ => true | PDict _ => true | _ => false end.

(** The texts handed to the progress callback for the lines read. *)
Definition progress_texts (lines : list string) : list string :=
  map (fun line => "FFmpeg: " ++ PyStr.strip line)
      (filter (PyStr.contains "time=") lines).

(** A flag pair for an optional argument, absent for None only. *)
Definition optional_flag (flag : string) (v : value) : list string :=
  if is_none v then [] else [flag; py_str v].

(** The arguments [extract_frames] hands to the executor. *)
Definition frames_args (video_path output_pattern : string)
    (start_time duration_ fps_ : value) : list string :=
  (optional_flag "-ss" start_time ++ ["-i"; video_path]
   ++ optional_flag "-t" duration_
   ++ (if is_none fps_ then [] else ["-vf"; ("fps=" ++ py_str fps_)%string])
   ++ ["-y"; output_pattern])%list.

(** The arguments [create_thumbnail] hands to the executor. *)
Definition thumbnail_args (video_path output_path : string) (time_offset : value)
  : list string :=
  ["-i"; video_path; "-ss"; py_str time_offset; "-vframes"; "1"; "-y"; output_path].

(** A stream type as a caller gives it: None or a string. *)
Definition type_value (stream_type : option string) : value :=
  match stream_type with
  | None => PNone
  | Some s => PStr s
  end.

(** The arguments [get_stream_info] hands to the executor. *)
Definition stream_args (media_path : string) (stream_type : option string) : list string :=
  (["-v"; "quiet"; "-print_format"; "json"; "-show_streams"]
   ++ match stream_type with
      | Some (String c _) => ["-select_streams"; String c EmptyString]
      | _ => []
      end
   ++ [media_path])%list.

(** What the [except] clauses of the probe methods log for [e]. *)
Definition probe_entries (e : exn) : list log_entry :=
  match e with
  | CalledProcessError _ _ => [Log Error "ffprobe command failed: %s" (AExn e)]
  | JSONDecodeError _ => [Log Error "Failed to parse ffprobe output: %s" (AExn e)]
  | _ => []
  end.

(** The executor [convert_video] ends in. *)
Definition convert_executor (env : Env) (self : Self) (progress_callback : bool)
    (args : list value) : W CompletedProcess :=
  if progress_callback
  then execute_ffmpeg_with_progress env self args progress_callback (mkKw false false false)
  else execute_ffmpeg_command env self args (mkKw true true false).

(** The output directory is named and not there. *)
Definition output_dir_missing (env : Env) (st : State) (output_path : string) : bool :=
  let dir := os_path_dirname env output_path in
  negb (PyStr.is_empty dir) &&
  negb (os_path_exists env dir || existsb (String.eqb dir) (created_dirs st)).


End Calls.

Section Probes.
Context {P : Platform}.

(** The codec value gives no flag or a flag with a string. *)
Definition codec_ok (v : value) : bool := negb (truthy v) || is_str v.

(** The shape shared by [get_video_info] and [get_stream_info] after the
    existence test: probe, decode, read, under the two [except] clauses. *)
Definition probe_then {A} (env : Env) (self : Self) (args : list string)
    (read : value -> res A) : W A :=
  try_except
    (bind (execute_ffprobe_command env self (map PStr args) (mkKw true true true))
       (fun result =>
          bind (lift (loads env (stdout result)))
               (fun data => lift (read data))))
    (@probe_handlers A).

(** The arguments of the probe behind [get_video_info]. *)
Definition info_args (video_path : string) : list string :=
  ["-v"; "quiet"; "-print_format"; "json"; "-show_format"; "-show_streams"; video_path].

(** What a probe method returns and leaves behind, by what the probe
    meets. *)
Definition probe_outcome {A} (env : Env) (self : Self) (args : list string)
    (read : value -> res A) (st : State) : res A * State :=
  let cmd := ffprobe_command self args in
  let announced := debug_entry "FFprobe" cmd in
  match subprocess_outcome env cmd with
  | LaunchFailed e =>
      (inl e, after_run st cmd ([announced; raised_entry "FFprobe" e] ++ probe_entries e))
  | Exited rc out err =>
      if rc =? 0 then
        match json_loads env out with
        | None =>
            (inl (JSONDecodeError "Expecting value"),
             after_run st cmd
               (announced :: probe_entries (JSONDecodeError "Expecting value")))
        | Some data =>
            match read data with
            | inr a => (inr a, after_run st cmd [announced])
            | inl e => (inl e, after_run st cmd (announced :: probe_entries e))
            end
        end
      else
        (inl (CalledProcessError rc cmd),
         after_run st cmd
           ([announced; raised_entry "FFprobe" (CalledProcessError rc cmd)]
            ++ probe_entries (CalledProcessError rc cmd)))
  end.

(** The state one listing launch of [get_media_formats] leaves. *)
Definition after_listing (env : Env) (self : Self) (flag : string) (st : State) : State :=
  let cmd := ffmpeg_command self [flag] in
  match subprocess_outcome env cmd with
  | LaunchFailed e =>
      after_run st cmd
        [debug_entry "FFmpeg" cmd; raised_entry "FFmpeg" e;
         Log Error "Failed to get format information: %s" (AExn e)]
  | Exited rc out err =>
      after_run st cmd
        (debug_entry "FFmpeg" cmd ::
           (if rc =? 0 then [] else status_entries "FFmpeg" (mkKw true true false) rc err))
  end.

End Probes.

Section Conversions.
Context {P : Platform}.

(** The words a resolved codec puts on the command line: the flag and the
    codec for a string that is not empty, nothing for a falsy value. *)
Definition codec_words (flag : string) (codec : value) : list string :=
  match codec with
  | PStr s => if PyStr.is_empty s then [] else [flag; s]
  | _ => []
  end.

(** The settings entry [key], when the framework has settings that are a
    mapping and hold the key. *)
Definition setting_value (env : Env) (key : string) : option value :=
  match framework_settings env with
  | Some (PDict settings) => dict_lookup settings key
  | _ => None
  end.

(** The arguments [convert_video] hands to its executor, as strings. *)
Definition convert_words (env : Env) (input_path output_path : string) (options : dict)
  : list string :=
  (["-i"; input_path]
   ++ codec_words "-vcodec"
        (resolved_codec env options "vcodec" "default_video_codec" "libx264")
   ++ codec_words "-acodec"
        (resolved_codec env options "acodec" "default_audio_codec" "aac")
   ++ flat_map (fun kv => optional_flag ("-" ++ fst kv) (snd kv)) (other_options options)
   ++ ["-y"; output_path])%list.

(** The command line a conversion launches for the arguments [words]. *)
Definition convert_command (self : Self) (progress_callback : bool) (words : list string)
  : list string :=
  if progress_callback then ffmpeg_progress_command self words
  else ffmpeg_command self words.

(** The state [convert_video] hands to its executor: the output directory
    has been made if it was named and not there. *)
Definition after_output_dir (env : Env) (st : State) (output_path : string) : State :=
  if output_dir_missing env st output_path
  then mkState (created_dirs st ++ [os_path_dirname env output_path])
               (launched st) (logged st) (notified st)
  else st.

(** The scale target of a resolution given as a string. *)
Definition scale_target (resolution : string) : string :=
  match table_lookup resolution_map resolution with
  | Some target => target
  | None => resolution
  end.

(** None, a boolean, a number or a string: the values that are not
    containers. *)
Definition is_scalar (v : value) : bool :=
  match v with
  | PList _ => false
  | PDict _ => false
  | _ => true
  end.

End Conversions.

End Vocabulary.

(* ===================================================================== *)
(** ** Facts about the string builtins *)
(* ===================================================================== *)

Unset Implicit Arguments.

Module PyStrFacts.
Import PyStr.

Lemma all_chars_weaken (p q : ascii -> bool) (s : string) :
  (forall c, p c = true -> q c = true) -> all_chars p s = true -> all_chars q s = true.
Proof.
  intros Hpq. induction s as [|c r IH]; simpl; auto.
  intros H. apply andb_true_iff in H as [Hc Hr].
  rewrite (Hpq _ Hc), (IH Hr). reflexivity.
Qed.

Lemma all_chars_c_lstrip (p : ascii -> bool) (s : string) :
  (forall c, is_c_space c = true -> p c = true) ->
  all_chars p (c_lstrip s) = true -> all_chars p s = true.
Proof.
  intros Hsp. induction s as [|c r IH]; simpl; auto.
  destruct (is_c_space c) eqn:E.
  - intros H. rewrite (Hsp _ E), (IH H). reflexivity.
  - simpl. auto.
Qed.

Lemma all_chars_c_rstrip (p : ascii -> bool) (s : string) :
  (forall c, is_c_space c = true -> p c = true) ->
  all_chars p (c_rstrip s) = true -> all_chars p s = true.
Proof.
  intros Hsp. induction s as [|c r IH]; simpl; auto.
  destruct (is_c_space c && is_empty (c_rstrip r)) eqn:E.
  - intros _. apply andb_true_iff in E as [Ec Er].
    destruct (c_rstrip r); [|discriminate].
    rewrite (Hsp _ Ec), IH; reflexivity.
  - simpl. intros H. apply andb_true_iff in H as [Hc Hr].
    rewrite Hc, (IH Hr). reflexivity.
Qed.

Lemma all_chars_c_strip (p : ascii -> bool) (s : string) :
  (forall c, is_c_space c = true -> p c = true) ->
  all_chars p (c_strip s) = true -> all_chars p s = true.
Proof.
  intros Hsp H. apply all_chars_c_lstrip; auto. apply all_chars_c_rstrip; auto.
Qed.

Lemma parse_digits_chars (s : string) : forall acc b n,
  parse_digits acc b s = Some n -> all_chars literal_char s = true.
Proof.
  induction s as [|c r IH]; simpl; intros acc b n H; auto.
  unfold literal_char at 1.
  destruct (is_digit c); simpl.
  - eapply IH; eauto.
  - destruct (Ascii.eqb c "_"); [|discriminate].
    destruct b; [|discriminate]. eapply IH; eauto.
Qed.

Lemma space_not_slash (c : ascii) : is_c_space c = true -> not_char "/" c = true.
Proof. destruct c as [[] [] [] [] [] [] [] []]; vm_compute; congruence. Qed.

Lemma literal_not_slash (c : ascii) : literal_char c = true -> not_char "/" c = true.
Proof. destruct c as [[] [] [] [] [] [] [] []]; vm_compute; congruence. Qed.

(** A string that [int] accepts holds no slash. *)
Lemma py_int_no_slash (s : string) (n : Z) :
  py_int s = Some n -> all_chars (not_char "/") s = true.
Proof.
  unfold py_int. intros H.
  apply all_chars_c_strip; [exact space_not_slash|].
  assert (Hd : forall t m, parse_digits 0 false t = Some m ->
                           all_chars (not_char "/") t = true).
  { intros t m Ht. eapply all_chars_weaken; [exact literal_not_slash|].
    eapply parse_digits_chars; eauto. }
  destruct (c_strip s) as [|c r] eqn:E; [discriminate H|].
  destruct (Ascii.eqb c "+") eqn:Ep.
  - apply Ascii.eqb_eq in Ep. subst c. simpl. eapply Hd; eauto.
  - destruct (Ascii.eqb c "-") eqn:Em.
    + apply Ascii.eqb_eq in Em. subst c. simpl.
      destruct (parse_digits 0 false r) eqn:Er; [|discriminate].
      eapply Hd; eauto.
    + assert (H' : parse_digits 0 false (String c r) = Some n).
      { revert H Ep Em. clear.
        destruct c as [[] [] [] [] [] [] [] []]; simpl; intros; try assumption; discriminate. }
      eapply Hd; eauto.
Qed.

Lemma split_on_single (sep : ascii) (s : string) :
  all_chars (not_char sep) s = true -> split_on sep s = [s].
Proof.
  induction s as [|c r IH]; simpl; auto.
  intros H. apply andb_true_iff in H as [Hc Hr].
  unfold not_char in Hc. apply negb_true_iff in Hc. rewrite Hc, (IH Hr). reflexivity.
Qed.

Lemma split_on_app (sep : ascii) (a b : string) :
  all_chars (not_char sep) a = true ->
  split_on sep (a ++ String sep b) = a :: split_on sep b.
Proof.
  induction a as [|c r IH]; simpl.
  - intros _. rewrite Ascii.eqb_refl. reflexivity.
  - intros H. apply andb_true_iff in H as [Hc Hr].
    unfold not_char in Hc. apply negb_true_iff in Hc. rewrite Hc, (IH Hr). reflexivity.
Qed.

(** [num + "/" + den] splits into its two parts. *)
Lemma split_rational (num den : string) :
  all_chars (not_char "/") num = true -> all_chars (not_char "/") den = true ->
  split_on "/" (num ++ "/" ++ den) = [num; den].
Proof.
  intros Hn Hd. simpl. rewrite split_on_app by assumption.
  rewrite split_on_single by assumption. reflexivity.
Qed.

Lemma contains_slash (a b : string) : contains "/" (a ++ "/" ++ b) = true.
Proof.
  induction a as [|c r IH].
  - simpl. destruct b; reflexivity.
  - simpl in *. rewrite IH. apply orb_true_r.
Qed.

(** *** [int] reads back what [str] prints *)

Lemma parse_digits_uint (u : Decimal.uint) : forall acc,
  parse_digits acc true (NilEmpty.string_of_uint u) = Some (uint_val u acc).
Proof.
  induction u as [|l IH|l IH|l IH|l IH|l IH|l IH|l IH|l IH|l IH|l IH]; intros acc;
    cbn [NilEmpty.string_of_uint uint_val]; [reflexivity|..]; rewrite <- IH; reflexivity.
Qed.

Lemma parse_digits_first (u : Decimal.uint) :
  parse_digits 0 false (NilZero.string_of_uint u) = Some (uint_val u 0).
Proof.
  destruct u as [|l|l|l|l|l|l|l|l|l|l];
    cbn [NilZero.string_of_uint NilEmpty.string_of_uint uint_val];
    [reflexivity|..]; rewrite <- parse_digits_uint; reflexivity.
Qed.

Lemma of_uint_acc_val (l : Decimal.uint) : forall acc,
  Zpos (Pos.of_uint_acc l acc) = uint_val l (Zpos acc).
Proof.
  induction l as [|l IH|l IH|l IH|l IH|l IH|l IH|l IH|l IH|l IH|l IH]; intros acc;
    cbn [Pos.of_uint_acc uint_val]; [reflexivity|..]; rewrite IH; f_equal; lia.
Qed.

Lemma of_uint_val (u : Decimal.uint) : Z.of_uint u = uint_val u 0.
Proof.
  unfold Z.of_uint.
  induction u as [|l IH|l IH|l IH|l IH|l IH|l IH|l IH|l IH|l IH|l IH];
    cbn [Pos.of_uint uint_val Z.of_N]; [reflexivity|exact IH|..];
    apply of_uint_acc_val.
Qed.

Lemma c_rstrip_no_space (s : string) : all_chars not_c_space s = true -> c_rstrip s = s.
Proof.
  induction s as [|c r IH]; simpl; [reflexivity|].
  intros H. apply andb_true_iff in H as [Hc Hr]. unfold not_c_space in Hc.
  apply negb_true_iff in Hc. rewrite Hc, (IH Hr). reflexivity.
Qed.

Lemma c_strip_no_space (s : string) : all_chars not_c_space s = true -> c_strip s = s.
Proof.
  intros H. unfold c_strip.
  assert (Hl : c_lstrip s = s).
  { destruct s as [|c r]; [reflexivity|]. simpl in *.
    apply andb_true_iff in H as [Hc _]. unfold not_c_space in Hc.
    apply negb_true_iff in Hc. rewrite Hc. reflexivity. }
  rewrite Hl. apply c_rstrip_no_space. exact H.
Qed.

Lemma digits_no_space (u : Decimal.uint) :
  all_chars not_c_space (NilEmpty.string_of_uint u) = true.
Proof.
  induction u as [|l IH|l IH|l IH|l IH|l IH|l IH|l IH|l IH|l IH|l IH];
    cbn [NilEmpty.string_of_uint all_chars]; [reflexivity|..]; rewrite IH; reflexivity.
Qed.

Lemma printed_no_space (u : Decimal.uint) :
  all_chars not_c_space (NilZero.string_of_uint u) = true.
Proof.
  destruct u; try apply digits_no_space. reflexivity.
Qed.

(** [int(str(n)) == n] *)
Lemma py_int_str_of_int (n : Z) : py_int (str_of_int n) = Some n.
Proof.
  unfold str_of_int. rewrite <- (DecimalZ.of_to n) at 2.
  destruct (Z.to_int n) as [u|u]; cbn [NilZero.string_of_int Z.of_int]; unfold py_int.
  - rewrite c_strip_no_space by apply printed_no_space.
    rewrite of_uint_val, <- parse_digits_first.
    destruct u; reflexivity.
  - rewrite c_strip_no_space
      by (cbn [all_chars]; rewrite printed_no_space; reflexivity).
    rewrite parse_digits_first, of_uint_val. reflexivity.
Qed.

End PyStrFacts.

(* ===================================================================== *)
(** ** Facts about the wrapper *)
(* ===================================================================== *)

Module WrapperFacts.
Import Py FFmpegWrapper PyStrFacts Vocabulary.

Ltac run_monad :=
  unfold bind, ret, raise, lift, try_except, gets, modify in *.

(** An integer literal is read by the float reader of the reference
    platform as the same number. *)
Lemma read_decimal_integer (s : string) : forall acc b n seen pos,
  PyStr.parse_digits acc b s = Some n ->
  (if b then pos = ExactPlatform.AfterDigit /\ seen = true
   else pos = ExactPlatform.AtStart \/ pos = ExactPlatform.AfterUnderscore) ->
  ExactPlatform.read_decimal acc None seen pos s = Some (inject_Z n).
Proof.
  induction s as [|c r IH]; intros acc b n seen pos H Hpos;
    cbn [PyStr.parse_digits ExactPlatform.read_decimal] in *.
  - destruct b; [|discriminate]. destruct Hpos as [-> ->]. congruence.
  - destruct (PyStr.is_digit c).
    + cbn [option_map]. apply (IH _ true); [exact H|]. split; reflexivity.
    + destruct (Ascii.eqb c "_"); [|discriminate].
      destruct b; [|discriminate]. destruct Hpos as [-> ->].
      apply (IH _ false); [exact H|]. right. reflexivity.
Qed.

Lemma read_float_integer (s : string) (n : Z) :
  PyStr.py_int s = Some n -> ExactPlatform.read_float s = Some (inject_Z n).
Proof.
  unfold PyStr.py_int, ExactPlatform.read_float.
  assert (Hd : forall t m, PyStr.parse_digits 0 false t = Some m ->
             ExactPlatform.read_decimal 0 None false ExactPlatform.AtStart t
             = Some (inject_Z m)).
  { intros t m Ht. apply (read_decimal_integer t 0 false); [exact Ht|]. left. reflexivity. }
  destruct (PyStr.c_strip s) as [|c r]; [discriminate|].
  destruct (Ascii.eqb c "+") eqn:Ep.
  - apply Ascii.eqb_eq in Ep. subst c. apply Hd.
  - destruct (Ascii.eqb c "-") eqn:Em.
    + apply Ascii.eqb_eq in Em. subst c.
      destruct (PyStr.parse_digits 0 false r) as [k|] eqn:Er; [|discriminate].
      cbn [option_map]. intros H. injection H as <-.
      rewrite (Hd _ _ Er). reflexivity.
    + intros H. 
      assert (H' : PyStr.parse_digits 0 false (String c r) = Some n).
      { revert H Ep Em. clear.
        destruct c as [[] [] [] [] [] [] [] []]; simpl; intros; try assumption; discriminate. }
      assert (Hgoal := Hd _ _ H').
      revert Hgoal Ep Em. clear.
      destruct c as [[] [] [] [] [] [] [] []]; intros; try assumption; discriminate.
Qed.

Lemma exact_platform_coherent : @int_float_coherent ExactPlatform.platform.
Proof.
  intros s n H. exists (inject_Z n). split.
  - exact (read_float_integer s n H).
  - reflexivity.
Qed.

Section Facts.
Context {P : Platform}.

(** When the file exists, the probe exits with status 0 and its output
    decodes, [get_video_info] is [extract_info] of the decoded document. *)
Lemma get_video_info_decodes (env : Env) (self : Self) (video_path out err : string)
    (data : value) (st : State) :
  os_path_exists env video_path = true ->
  subprocess_outcome env (probe_command self video_path) = Exited 0 out err ->
  json_loads env out = Some data ->
  fst (get_video_info env self video_path st) = extract_info data.
Proof.
  intros Hex Hrun Hjson.
  unfold get_video_info, path_exists. run_monad. rewrite Hex. simpl.
  unfold execute_ffprobe_command, subprocess_run, record_launch, logger, str_join.
  run_monad. simpl. unfold probe_command in Hrun. rewrite Hrun. simpl.
  unfold log_failure. run_monad. simpl. unfold loads. rewrite Hjson.
  destruct (extract_info data) as [e|info]; simpl; [|reflexivity].
  destruct e; reflexivity.
Qed.

Lemma frame_rate_rational (Hplat : int_float_coherent) (info : MediaInfo) (d : dict)
    (num den : string) (n m : Z) :
  dict_lookup d "r_frame_rate" = Some (PStr (num ++ "/" ++ den)) ->
  PyStr.py_int num = Some n ->
  PyStr.py_int den = Some m ->
  exists x y, float_of_str num = Some x /\ float_of_str den = Some y /\
    float_is_zero y = (m =? 0) /\
    frame_rate info (PDict d) =
      inr (if m =? 0 then info
           else mkInfo (duration info) (width info) (height info)
                       (Some (float_round2 (float_div x y)))
                       (video_codec info) (audio_codec info) (bitrate info) (file_size info)).
Proof.
  intros Hrate Hn Hm.
  destruct (Hplat _ _ Hn) as [x [Hx _]].
  destruct (Hplat _ _ Hm) as [y [Hy Hy0]].
  exists x, y. repeat split; auto.
  unfold frame_rate. cbn [get rbind]. unfold dict_get. rewrite Hrate.
  cbn [str_in rbind]. rewrite contains_slash. cbn [split_method rbind].
  rewrite split_rational by (eapply py_int_no_slash; eauto).
  cbn [py_int rbind]. rewrite Hm. cbn [rbind].
  destruct (m =? 0) eqn:E; cbn [negb]; [reflexivity|].
  cbn [py_float rbind]. rewrite Hx, Hy. cbn [rbind].
  unfold truediv. rewrite Hy0. reflexivity.
Qed.

(** *** The scan of the stream list *)

Lemma frame_rate_own (i : MediaInfo) (stream : value) :
  frame_rate i stream =
    match frame_rate initial_info stream with
    | inl e => inl e
    | inr j => inr (match fps j with Some x => set_fps i (Some x) | None => i end)
    end.
Proof.
  unfold frame_rate.
  destruct (get stream "r_frame_rate" (PStr "0/1")) as [e|fps_str]; [reflexivity|].
  cbn [rbind].
  destruct (str_in "/" fps_str) as [e|[]]; try reflexivity. cbn [rbind].
  destruct (split_method fps_str "/") as [e|parts]; [reflexivity|]. cbn [rbind].
  destruct parts as [|num [|den [|]]]; try reflexivity.
  destruct (py_int (PStr den)) as [e|dd]; [reflexivity|]. cbn [rbind].
  destruct (negb (dd =? 0)); [|reflexivity].
  destruct (py_float (PStr num)) as [e|x]; [reflexivity|]. cbn [rbind].
  destruct (py_float (PStr den)) as [e|y]; [reflexivity|]. cbn [rbind].
  destruct (truediv x y) as [e|q]; reflexivity.
Qed.

(** What one turn of the loop does to the summary. *)
Lemma scan_stream_effect (i i' : MediaInfo) (stream : value) :
  scan_stream i stream = inr i' ->
  if codec_type_is "video" stream then
    i' = mkInfo (duration i) (field stream "width") (field stream "height")
                (match own_fps stream with Some x => Some x | None => fps i end)
                (field stream "codec_name") (audio_codec i) (bitrate i) (file_size i)
  else if codec_type_is "audio" stream then
    i' = mkInfo (duration i) (width i) (height i) (fps i) (video_codec i)
                (field stream "codec_name") (bitrate i) (file_size i)
  else i' = i.
Proof.
  destruct stream as [| | | | |l|d]; try discriminate.
  unfold scan_stream, codec_type_is, field, own_fps. cbn [get rbind].
  destruct (eq_str (dict_get d "codec_type" PNone) "video").
  - rewrite frame_rate_own.
    destruct (frame_rate initial_info (PDict d)) as [e|j]; [discriminate|].
    intros H. injection H as <-. destruct (fps j); reflexivity.
  - destruct (eq_str (dict_get d "codec_type" PNone) "audio");
      intros H; injection H as <-; [reflexivity|]. reflexivity.
Qed.

(** Whether a turn of the loop raises does not depend on the summary. *)
Lemma scan_stream_total (i : MediaInfo) (stream : value) :
  stream_ok stream = true -> exists i', scan_stream i stream = inr i'.
Proof.
  unfold stream_ok.
  destruct stream as [| | | | |l|d]; try discriminate.
  unfold scan_stream. cbn [get rbind].
  destruct (eq_str (dict_get d "codec_type" PNone) "video").
  - rewrite (frame_rate_own (mkInfo _ _ _ _ _ _ _ _)).
    rewrite (frame_rate_own (mkInfo (duration i) _ _ _ _ _ _ _)).
    destruct (frame_rate initial_info (PDict d)); [discriminate|]. eauto.
  - destruct (eq_str (dict_get d "codec_type" PNone) "audio"); eauto.
Qed.

Lemma scan_streams_total (streams : list value) : forall i,
  forallb stream_ok streams = true -> exists i', scan_streams i streams = inr i'.
Proof.
  induction streams as [|s rest IH]; intros i H; simpl.
  - eauto.
  - apply andb_true_iff in H as [Hs Hrest].
    destruct (scan_stream_total i s Hs) as [j Hj]. rewrite Hj. cbn [rbind]. auto.
Qed.

Lemma scan_streams_split (pre : list value) : forall i i' s post,
  scan_streams i (pre ++ s :: post) = inr i' ->
  exists i1 i2, scan_streams i pre = inr i1 /\ scan_stream i1 s = inr i2 /\
                scan_streams i2 post = inr i'.
Proof.
  induction pre as [|p pre IH]; intros i i' s post H; simpl in H.
  - destruct (scan_stream i s) as [e|i2] eqn:E; [discriminate|].
    exists i, i2. auto.
  - simpl. destruct (scan_stream i p) as [e|j]; [discriminate|]. cbn [rbind] in *.
    apply IH in H. exact H.
Qed.

Lemma scan_streams_no_video (streams : list value) : forall i i',
  forallb (fun s => negb (codec_type_is "video" s)) streams = true ->
  scan_streams i streams = inr i' ->
  width i' = width i /\ height i' = height i /\ video_codec i' = video_codec i /\
  fps i' = fps i.
Proof.
  induction streams as [|s rest IH]; intros i i' Hno H; simpl in H.
  - injection H as <-. auto.
  - simpl in Hno. apply andb_true_iff in Hno as [Hs Hrest].
    destruct (scan_stream i s) as [e|j] eqn:E; [discriminate|]. cbn [rbind] in H.
    apply scan_stream_effect in E. apply negb_true_iff in Hs. rewrite Hs in E.
    destruct (IH _ _ Hrest H) as [Hw [Hh [Hc Hf]]].
    destruct (codec_type_is "audio" s); subst j; simpl in *; auto.
Qed.

Lemma scan_streams_no_audio (streams : list value) : forall i i',
  forallb (fun s => negb (codec_type_is "audio" s)) streams = true ->
  scan_streams i streams = inr i' ->
  audio_codec i' = audio_codec i.
Proof.
  induction streams as [|s rest IH]; intros i i' Hno H; simpl in H.
  - injection H as <-. auto.
  - simpl in Hno. apply andb_true_iff in Hno as [Hs Hrest].
    destruct (scan_stream i s) as [e|j] eqn:E; [discriminate|]. cbn [rbind] in H.
    apply scan_stream_effect in E. apply negb_true_iff in Hs. rewrite Hs in E.
    rewrite (IH _ _ Hrest H).
    destruct (codec_type_is "video" s); subst j; reflexivity.
Qed.

Lemma video_not_audio (s : value) :
  codec_type_is "audio" s = true -> codec_type_is "video" s = false.
Proof.
  destruct s as [| | | | |l|d]; try discriminate. unfold codec_type_is.
  destruct (dict_get d "codec_type" PNone) as [| | | |t| |]; try discriminate.
  unfold eq_str. intros H. apply String.eqb_eq in H. subst t. reflexivity.
Qed.

Lemma scan_streams_fps (streams : list value) : forall i i',
  scan_streams i streams = inr i' -> fps i' = last_fps streams (fps i).
Proof.
  induction streams as [|s rest IH]; intros i i' H; simpl in H.
  - injection H as <-. reflexivity.
  - destruct (scan_stream i s) as [e|j] eqn:E; [discriminate|]. cbn [rbind] in H.
    apply scan_stream_effect in E. rewrite (IH _ _ H). cbn [last_fps].
    destruct (codec_type_is "video" s); [subst j; reflexivity|].
    destruct (codec_type_is "audio" s); subst j; reflexivity.
Qed.

Lemma format_fields_fps (i i' : MediaInfo) (data : value) :
  format_fields i data = inr i' -> fps i' = fps i.
Proof.
  unfold format_fields.
  destruct (str_in "format" data) as [e|[]]; cbn [rbind]; try discriminate.
  - destruct (getitem data "format") as [e|format_info]; cbn [rbind]; [discriminate|].
    destruct (get format_info "duration" (PInt 0)) as [e|d]; cbn [rbind]; [discriminate|].
    destruct (py_float d) as [e|dur]; cbn [rbind]; [discriminate|].
    destruct (get format_info "bit_rate" (PInt 0)) as [e|b]; cbn [rbind]; [discriminate|].
    destruct (py_int b) as [e|br]; cbn [rbind]; [discriminate|].
    destruct (get format_info "size" (PInt 0)) as [e|z]; cbn [rbind]; [discriminate|].
    destruct (py_int z) as [e|sz]; cbn [rbind]; [discriminate|].
    intros H. injection H as <-. reflexivity.
  - intros H. injection H as <-. reflexivity.
Qed.

Lemma scan_streams_app (pre : list value) : forall i i1 i2 s post,
  scan_streams i pre = inr i1 -> scan_stream i1 s = inr i2 ->
  scan_streams i (pre ++ s :: post) = scan_streams i2 post.
Proof.
  induction pre as [|p pre IH]; intros i i1 i2 s post Hpre Hs; simpl in *.
  - injection Hpre as <-. rewrite Hs. reflexivity.
  - destruct (scan_stream i p) as [e|j]; [discriminate|]. cbn [rbind] in *.
    eapply IH; eauto.
Qed.

Lemma last_fps_no_video (streams : list value) : forall rate,
  forallb (fun s => negb (codec_type_is "video" s)) streams = true ->
  last_fps streams rate = rate.
Proof.
  induction streams as [|s rest IH]; intros rate H; simpl in *; [reflexivity|].
  apply andb_true_iff in H as [Hs Hrest]. apply negb_true_iff in Hs.
  rewrite Hs. apply IH. exact Hrest.
Qed.

(** C3.  A video stream whose [r_frame_rate] is ["num/den"], two integer
    literals as [int] reads them (the printed form of any integer is one,
    [py_int_str_of_int]).  The stream may stand anywhere in the stream
    list of a probe document, which may have a [format] object: [pre] are
    the streams before it, which left the summary [before], and [post]
    the streams after it.  When the denominator is not zero, the loop
    body sets [fps] to [round(float(num) / float(den), 2)], the divisor
    is not a zero float, and [get_video_info] returns what the streams of
    [post] make of that summary: its [fps] is this value unless a later
    video stream supplies another.  When the denominator is zero, the
    loop body leaves [fps] as it was, and [get_video_info] returns with
    the [fps] of the other streams, unset when no other stream is a video
    stream.  Neither case raises. *)
Theorem fps_of_rational_frame_rate (Hplat : int_float_coherent)
    (env : Env) (self : Self) (video_path out err : string) (st : State)
    (doc : dict) (pre post : list value) (info_f before info : MediaInfo)
    (d : dict) (num den : string) (n m : Z) :
  dict_lookup d "codec_type" = Some (PStr "video") ->
  dict_lookup d "r_frame_rate" = Some (PStr (num ++ "/" ++ den)) ->
  PyStr.py_int num = Some n ->
  PyStr.py_int den = Some m ->
  os_path_exists env video_path = true ->
  subprocess_outcome env (probe_command self video_path) = Exited 0 out err ->
  json_loads env out = Some (PDict doc) ->
  format_fields initial_info (PDict doc) = inr info_f ->
  dict_lookup doc "streams" = Some (PList (pre ++ PDict d :: post)) ->
  scan_streams info_f pre = inr before ->
  forallb stream_ok post = true ->
  exists x y,
    float_of_str num = Some x /\ float_of_str den = Some y /\
    let seen i rate := mkInfo (duration i) (dict_get d "width" PNone)
                         (dict_get d "height" PNone) rate
                         (dict_get d "codec_name" PNone) (audio_codec i)
                         (bitrate i) (file_size i) in
    (m <> 0 ->
       float_is_zero y = false /\
       truediv x y = inr (float_div x y) /\
       scan_stream info (PDict d) = inr (seen info (Some (float_round2 (float_div x y)))) /\
       exists result,
         fst (get_video_info env self video_path st) = inr result /\
         scan_streams (seen before (Some (float_round2 (float_div x y)))) post = inr result /\
         fps result = last_fps post (Some (float_round2 (float_div x y))) /\
         (forallb (fun s => negb (codec_type_is "video" s)) post = true ->
          fps result = Some (float_round2 (float_div x y)))) /\
    (m = 0 ->
       scan_stream info (PDict d) = inr (seen info (fps info)) /\
       exists result,
         fst (get_video_info env self video_path st) = inr result /\
         scan_streams (seen before (fps before)) post = inr result /\
         fps result = last_fps post (fps before) /\
         (forallb (fun s => negb (codec_type_is "video" s)) (pre ++ post) = true ->
          fps result = None)).
Proof.
  intros Hvideo Hrate Hn Hm Hex Hrun Hjson Hfmt Hstreams Hpre Hok.
  assert (Hscan : forall i x y,
            frame_rate (mkInfo (duration i) (dict_get d "width" PNone)
                          (dict_get d "height" PNone) (fps i)
                          (dict_get d "codec_name" PNone) (audio_codec i)
                          (bitrate i) (file_size i)) (PDict d) = x ->
            y = x -> scan_stream i (PDict d) = y).
  { intros i x y Hx ->. unfold scan_stream. cbn [get rbind]. unfold dict_get at 1.
    rewrite Hvideo. cbn [eq_str]. rewrite String.eqb_refl. exact Hx. }
  assert (Hdoc : forall i2, scan_stream before (PDict d) = inr i2 ->
            exists result,
              fst (get_video_info env self video_path st) = inr result /\
              scan_streams i2 post = inr result /\
              fps result = last_fps post (fps i2)).
  { intros i2 Hi2. destruct (scan_streams_total post i2 Hok) as [result Hresult].
    exists result. split; [|split; [exact Hresult|]].
    - rewrite (get_video_info_decodes env self video_path out err _ st Hex Hrun Hjson).
      unfold extract_info. rewrite Hfmt. cbn [rbind get]. unfold dict_get.
      rewrite Hstreams. cbn [iterate rbind].
      rewrite <- Hresult.
      exact (scan_streams_app pre info_f before i2 (PDict d) post Hpre Hi2).
    - apply scan_streams_fps. exact Hresult. }
  pose proof (fun i => frame_rate_rational Hplat i d num den n m Hrate Hn Hm) as Hfr.
  destruct (Hfr info) as [x [y [Hx [Hy [Hy0 _]]]]].
  exists x, y. split; [exact Hx|]. split; [exact Hy|]. cbv zeta.
  assert (Hfr' : forall i, frame_rate i (PDict d) =
      inr (if m =? 0 then i
           else mkInfo (duration i) (width i) (height i)
                       (Some (float_round2 (float_div x y)))
                       (video_codec i) (audio_codec i) (bitrate i) (file_size i))).
  { intros i. destruct (Hfr i) as [x' [y' [Hx' [Hy' [_ H]]]]].
    rewrite Hx in Hx'. rewrite Hy in Hy'. injection Hx' as <-. injection Hy' as <-. exact H. }
  split.
  - intros Hne. apply Z.eqb_neq in Hne.
    assert (Hz : float_is_zero y = false) by (rewrite Hy0; exact Hne).
    split; [exact Hz|]. split; [unfold truediv; rewrite Hz; reflexivity|].
    assert (Hs : forall i, scan_stream i (PDict d) = inr
       (mkInfo (duration i) (dict_get d "width" PNone) (dict_get d "height" PNone)
          (Some (float_round2 (float_div x y))) (dict_get d "codec_name" PNone)
          (audio_codec i) (bitrate i) (file_size i))).
    { intros i. eapply Hscan; [apply Hfr'|]. rewrite Hne. reflexivity. }
    split; [apply Hs|].
    destruct (Hdoc _ (Hs before)) as [result [Hget [Hrest Hfps]]].
    exists result. split; [exact Hget|]. split; [exact Hrest|].
    cbn [fps] in Hfps. split; [exact Hfps|].
    intros Hno. rewrite Hfps. apply last_fps_no_video. exact Hno.
  - intros ->.
    assert (Hs : forall i, scan_stream i (PDict d) = inr
       (mkInfo (duration i) (dict_get d "width" PNone) (dict_get d "height" PNone)
          (fps i) (dict_get d "codec_name" PNone)
          (audio_codec i) (bitrate i) (file_size i))).
    { intros i. eapply Hscan; [apply Hfr'|]. reflexivity. }
    split; [apply Hs|].
    destruct (Hdoc _ (Hs before)) as [result [Hget [Hrest Hfps]]].
    exists result. split; [exact Hget|]. split; [exact Hrest|].
    cbn [fps] in Hfps. split; [exact Hfps|].
    intros Hno. rewrite forallb_app in Hno. apply andb_true_iff in Hno as [Hnpre Hnpost].
    rewrite Hfps, (last_fps_no_video post _ Hnpost).
    destruct (scan_streams_no_video pre info_f before Hnpre Hpre) as [_ [_ [_ Hf]]].
    rewrite Hf. rewrite (format_fields_fps initial_info info_f (PDict doc) Hfmt).
    reflexivity.
Qed.

(** C1, as the code has it.  On a probe document whose format fields
    convert and whose streams all go through the loop body,
    [get_video_info] returns a summary in which width, height and video
    codec are those of the LAST video stream of the list, the frame rate
    is that of the last video stream that supplies one ([last_fps]), and
    the audio codec is that of the LAST audio stream; the streams before
    the last of each type do not show in width, height and the codecs. *)
Theorem get_video_info_takes_last_streams
    (env : Env) (self : Self) (video_path out err : string) (st : State)
    (doc : dict) (streams : list value) (info_f : MediaInfo) :
  os_path_exists env video_path = true ->
  subprocess_outcome env (probe_command self video_path) = Exited 0 out err ->
  json_loads env out = Some (PDict doc) ->
  format_fields initial_info (PDict doc) = inr info_f ->
  dict_lookup doc "streams" = Some (PList streams) ->
  forallb stream_ok streams = true ->
  exists info,
    fst (get_video_info env self video_path st) = inr info /\
    fps info = last_fps streams None /\
    (forall pre v post,
       streams = (pre ++ v :: post)%list ->
       codec_type_is "video" v = true ->
       forallb (fun s => negb (codec_type_is "video" s)) post = true ->
       width info = field v "width" /\ height info = field v "height" /\
       video_codec info = field v "codec_name" /\
       (forall x, own_fps v = Some x -> fps info = Some x)) /\
    (forall pre a post,
       streams = (pre ++ a :: post)%list ->
       codec_type_is "audio" a = true ->
       forallb (fun s => negb (codec_type_is "audio" s)) post = true ->
       audio_codec info = field a "codec_name").
Proof.
  intros Hex Hrun Hjson Hfmt Hstreams Hok.
  destruct (scan_streams_total streams info_f Hok) as [info Hinfo].
  exists info. split; [|split; [|split]].
  - rewrite (get_video_info_decodes env self video_path out err _ st Hex Hrun Hjson).
    unfold extract_info. rewrite Hfmt. cbn [rbind get]. unfold dict_get.
    rewrite Hstreams. cbn [iterate rbind]. exact Hinfo.
  - rewrite (scan_streams_fps streams info_f info Hinfo).
    rewrite (format_fields_fps initial_info info_f (PDict doc) Hfmt). reflexivity.
  - intros pre v post -> Hv Hpost.
    apply scan_streams_split in Hinfo as [i1 [i2 [_ [Hs Hrest]]]].
    apply scan_stream_effect in Hs. rewrite Hv in Hs.
    destruct (scan_streams_no_video post i2 info Hpost Hrest) as [Hw [Hh [Hc Hf]]].
    subst i2. simpl in *. repeat split; auto.
    intros x Hx. rewrite Hf, Hx. reflexivity.
  - intros pre a post -> Ha Hpost.
    apply scan_streams_split in Hinfo as [i1 [i2 [_ [Hs Hrest]]]].
    apply scan_stream_effect in Hs. rewrite (video_not_audio a Ha), Ha in Hs.
    rewrite (scan_streams_no_audio post i2 info Hpost Hrest). subst i2. reflexivity.
Qed.

(** *** The executors *)

Lemma as_strings_map (l : list string) : as_strings (map PStr l) = Some l.
Proof.
  induction l as [|x l IH]; simpl; [reflexivity|]. rewrite IH. reflexivity.
Qed.

Lemma with_threads_map (self : Self) (exe : string) (args : list string) :
  with_threads self (PStr exe :: map PStr args) =
  map PStr (exe :: args ++
    (if 0 <? _max_threads self
     then ["-threads"; PyStr.str_of_int (_max_threads self)] else []))%list.
Proof.
  unfold with_threads. destruct (0 <? _max_threads self); simpl.
  - rewrite map_app. reflexivity.
  - rewrite app_nil_r. reflexivity.
Qed.

Lemma execute_ffmpeg_command_body (env : Env) (self : Self) (args : list string)
    (kw : run_kwargs) :
  execute_ffmpeg_command env self (map PStr args) kw =
  run_logged env "FFmpeg" (map PStr (ffmpeg_command self args)) kw.
Proof.
  unfold execute_ffmpeg_command, ffmpeg_command. rewrite with_threads_map. reflexivity.
Qed.

Lemma execute_ffprobe_command_body (env : Env) (self : Self) (args : list string)
    (kw : run_kwargs) :
  execute_ffprobe_command env self (map PStr args) kw =
  run_logged env "FFprobe" (map PStr (ffprobe_command self args)) kw.
Proof. reflexivity. Qed.

Lemma run_logged_launch_failed (env : Env) (tool : string) (argv : list string)
    (kw : run_kwargs) (e : exn) (st : State) :
  subprocess_outcome env argv = LaunchFailed e ->
  run_logged env tool (map PStr argv) kw st =
    (inl e, after_run st argv [debug_entry tool argv; raised_entry tool e]).
Proof.
  intros H. unfold run_logged, str_join, subprocess_run, record_launch, logger.
  rewrite as_strings_map. run_monad. simpl. rewrite H. simpl.
  unfold after_run. rewrite <- app_assoc. reflexivity.
Qed.

Lemma run_logged_exited (env : Env) (tool : string) (argv : list string)
    (kw : run_kwargs) (rc : Z) (out err : string) (st : State) :
  subprocess_outcome env argv = Exited rc out err ->
  run_logged env tool (map PStr argv) kw st =
    if rc =? 0 then
      (inr (mkResult rc (captured kw out) (captured kw err)),
       after_run st argv [debug_entry tool argv])
    else if check kw then
      (inl (CalledProcessError rc argv),
       after_run st argv [debug_entry tool argv;
                          raised_entry tool (CalledProcessError rc argv)])
    else
      (inr (mkResult rc (captured kw out) (captured kw err)),
       after_run st argv (debug_entry tool argv :: status_entries tool kw rc err)).
Proof.
  intros H. unfold run_logged, str_join, subprocess_run, record_launch, logger.
  rewrite as_strings_map. run_monad. simpl. rewrite H.
  unfold after_run, captured, status_entries, log_failure, logger. run_monad.
  destruct (rc =? 0) eqn:E; simpl.
  - rewrite andb_false_r. destruct (capture_output kw); simpl; rewrite E; reflexivity.
  - rewrite andb_true_r. destruct (check kw); simpl.
    + rewrite <- app_assoc. reflexivity.
    + destruct (capture_output kw); simpl; rewrite E; simpl.
      * destruct (PyStr.is_empty err); simpl; rewrite <- ?app_assoc; reflexivity.
      * rewrite <- app_assoc. reflexivity.
Qed.

(** C5, as the code has it.  A synchronous execution whose child exits
    with a non-zero status returns the result object with that status and
    the captured streams, and logs the status and the diagnostic text,
    unless the caller asked for [check=True]: then [subprocess.run] raises
    CalledProcessError, which is logged and re-raised.  A launch failure
    is logged and re-raised unchanged.  Both for ffmpeg and ffprobe. *)
Theorem sync_execution_outcomes (env : Env) (self : Self) (args : list string)
    (kw : run_kwargs) (st : State) :
  (forall rc out err,
     rc <> 0 ->
     subprocess_outcome env (ffmpeg_command self args) = Exited rc out err ->
     execute_ffmpeg_command env self (map PStr args) kw st =
       if check kw then
         (inl (CalledProcessError rc (ffmpeg_command self args)),
          after_run st (ffmpeg_command self args)
            [debug_entry "FFmpeg" (ffmpeg_command self args);
             raised_entry "FFmpeg" (CalledProcessError rc (ffmpeg_command self args))])
       else
         (inr (mkResult rc (captured kw out) (captured kw err)),
          after_run st (ffmpeg_command self args)
            (debug_entry "FFmpeg" (ffmpeg_command self args)
               :: status_entries "FFmpeg" kw rc err))) /\
  (forall e,
     subprocess_outcome env (ffmpeg_command self args) = LaunchFailed e ->
     execute_ffmpeg_command env self (map PStr args) kw st =
       (inl e, after_run st (ffmpeg_command self args)
                 [debug_entry "FFmpeg" (ffmpeg_command self args);
                  raised_entry "FFmpeg" e])) /\
  (forall rc out err,
     rc <> 0 ->
     subprocess_outcome env (ffprobe_command self args) = Exited rc out err ->
     execute_ffprobe_command env self (map PStr args) kw st =
       if check kw then
         (inl (CalledProcessError rc (ffprobe_command self args)),
          after_run st (ffprobe_command self args)
            [debug_entry "FFprobe" (ffprobe_command self args);
             raised_entry "FFprobe" (CalledProcessError rc (ffprobe_command self args))])
       else
         (inr (mkResult rc (captured kw out) (captured kw err)),
          after_run st (ffprobe_command self args)
            (debug_entry "FFprobe" (ffprobe_command self args)
               :: status_entries "FFprobe" kw rc err))) /\
  (forall e,
     subprocess_outcome env (ffprobe_command self args) = LaunchFailed e ->
     execute_ffprobe_command env self (map PStr args) kw st =
       (inl e, after_run st (ffprobe_command self args)
                 [debug_entry "FFprobe" (ffprobe_command self args);
                  raised_entry "FFprobe" e])).
Proof.
  repeat split.
  - intros rc out err Hrc H. rewrite execute_ffmpeg_command_body.
    rewrite (run_logged_exited _ _ _ _ _ _ _ _ H).
    apply Z.eqb_neq in Hrc. rewrite Hrc. reflexivity.
  - intros e H. rewrite execute_ffmpeg_command_body.
    apply run_logged_launch_failed. exact H.
  - intros rc out err Hrc H. rewrite execute_ffprobe_command_body.
    rewrite (run_logged_exited _ _ _ _ _ _ _ _ H).
    apply Z.eqb_neq in Hrc. rewrite Hrc. reflexivity.
  - intros e H. rewrite execute_ffprobe_command_body.
    apply run_logged_launch_failed. exact H.
Qed.

Lemma run_logged_launched (env : Env) (tool : string) (argv : list string)
    (kw : run_kwargs) (st : State) :
  launched (snd (run_logged env tool (map PStr argv) kw st)) = (launched st ++ [argv])%list.
Proof.
  destruct (subprocess_outcome env argv) as [e|rc out err] eqn:H.
  - rewrite (run_logged_launch_failed _ _ _ _ _ _ H). reflexivity.
  - rewrite (run_logged_exited _ _ _ _ _ _ _ _ H).
    destruct (rc =? 0); [reflexivity|]. destruct (check kw); reflexivity.
Qed.

Lemma monitor_progress_state (cb : bool) (lines : list string) : forall st,
  exists texts,
    monitor_progress cb lines st =
      (inr tt, mkState (created_dirs st) (launched st) (logged st) (notified st ++ texts)).
Proof.
  induction lines as [|line rest IH]; intros st; simpl.
  - exists []. rewrite app_nil_r. destruct st; reflexivity.
  - unfold bind at 1. unfold monitor_line.
    destruct (negb (PyStr.is_empty line) && cb);
      [destruct (PyStr.contains "time=" line)|].
    + unfold progress_callback_call, modify.
      match goal with |- context [monitor_progress cb rest ?s] =>
        destruct (IH s) as [texts Ht]; rewrite Ht end.
      simpl. eexists. rewrite <- app_assoc. reflexivity.
    + unfold ret. apply IH.
    + unfold ret. apply IH.
Qed.

Lemma popen_and_wait_launched (env : Env) (argv : list string) (cb : bool)
    (kw : run_kwargs) (s : State) :
  capture_output kw = false -> check kw = false ->
  launched (snd (popen_and_wait env (map PStr argv) cb kw s))
    = (launched s ++ [argv])%list.
Proof.
  intros Hc Hk. unfold popen_and_wait. rewrite Hc, Hk, as_strings_map. cbn [orb].
  unfold record_launch. run_monad.
  destruct (popen_outcome_of env argv) as [e|rc lines out err]; [reflexivity|].
  destruct cb; [|reflexivity].
  match goal with |- context [monitor_progress true lines ?s0] =>
    destruct (monitor_progress_state true lines s0) as [texts Ht]; rewrite Ht end.
  reflexivity.
Qed.

Lemma log_failure_launched (tool : string) (r : CompletedProcess) (s : State) :
  fst (log_failure tool r s) = inr tt /\
  launched (snd (log_failure tool r s)) = launched s.
Proof.
  unfold log_failure, logger. run_monad.
  destruct (negb (returncode r =? 0)); [|split; reflexivity].
  cbn. destruct (stderr r) as [err|]; [|split; reflexivity].
  destruct (negb (PyStr.is_empty err)); split; reflexivity.
Qed.

Lemma execute_ffmpeg_with_progress_launched (env : Env) (self : Self)
    (args : list string) (cb : bool) (kw : run_kwargs) (st : State) :
  capture_output kw = false -> check kw = false ->
  launched (snd (execute_ffmpeg_with_progress env self (map PStr args) cb kw st))
    = (launched st ++ [ffmpeg_progress_command self args])%list.
Proof.
  intros Hc Hk. unfold execute_ffmpeg_with_progress.
  rewrite with_threads_map.
  change [PStr "-progress"; PStr "pipe:2"]
    with (map (@PStr float) ["-progress"; "pipe:2"]).
  rewrite <- map_app.
  change (_ffmpeg_path self :: args ++
            (if 0 <? _max_threads self
             then ["-threads"; PyStr.str_of_int (_max_threads self)] else []))%list
    with (ffmpeg_command self args).
  fold (ffmpeg_progress_command self args).
  unfold str_join. rewrite as_strings_map. unfold logger. run_monad.
  match goal with |- context [popen_and_wait env _ cb kw ?s0] =>
    pose proof (popen_and_wait_launched env (ffmpeg_progress_command self args)
                  cb kw s0 Hc Hk) as Hl;
    destruct (popen_and_wait env (map PStr (ffmpeg_progress_command self args)) cb kw s0)
      as [[e|r] s1] end.
  - exact Hl.
  - destruct (log_failure_launched "FFmpeg" r s1) as [Hf Hs].
    destruct (log_failure "FFmpeg" r s1) as [[e|[]] s2]; simpl in *; congruence.
Qed.

(** *** convert_video *)

(** Once the input exists and the output directory can be made, a
    conversion is one executor call on [convert_args]. *)
Lemma convert_video_executes (env : Env) (self : Self) (input_path output_path : string)
    (cb : bool) (options : dict) (args : list value) (st : State) :
  os_path_exists env input_path = true ->
  os_makedirs env (os_path_dirname env output_path) = None ->
  convert_args env input_path output_path options = inr args ->
  exists st0,
    launched st0 = launched st /\ logged st0 = logged st /\
    convert_video env self input_path output_path cb options st =
      (if cb
       then execute_ffmpeg_with_progress env self args cb (mkKw false false false)
       else execute_ffmpeg_command env self args (mkKw true true false)) st0.
Proof.
  intros Hex Hmk Hargs. unfold convert_video, path_exists, makedirs.
  rewrite Hmk, Hargs. run_monad. rewrite Hex. cbn [orb negb].
  destruct (negb (PyStr.is_empty (os_path_dirname env output_path)) &&
            negb (os_path_exists env (os_path_dirname env output_path)
                  || existsb (String.eqb (os_path_dirname env output_path))
                       (created_dirs st))).
  - eexists. split; [|split]; [| |destruct cb; reflexivity]; reflexivity.
  - exists st. split; [|split]; [| |destruct cb; reflexivity]; reflexivity.
Qed.

Lemma convert_args_tail (env : Env) (input_path output_path : string) (options : dict)
    (sargs : list string) :
  convert_args env input_path output_path options = inr (map PStr sargs) ->
  exists front, sargs = (front ++ ["-y"; output_path])%list.
Proof.
  unfold convert_args.
  destruct (default_codec env "default_video_codec" "libx264") as [e|dv]; [discriminate|].
  cbn [rbind]. destruct (dict_pop options "vcodec" dv) as [vcodec options1].
  destruct (default_codec env "default_audio_codec" "aac") as [e|da]; [discriminate|].
  cbn [rbind]. destruct (dict_pop options1 "acodec" da) as [acodec options2].
  intros H. injection H as H.
  assert (H' : map PStr sargs =
            (([PStr "-i"; PStr input_path] ++ codec_flag "-vcodec" vcodec ++
              codec_flag "-acodec" acodec ++ option_flags options2) ++
             [PStr "-y"; PStr output_path])%list).
  { rewrite <- H, <- !app_assoc. reflexivity. }
  apply map_eq_app in H' as [front [back [-> [_ Hback]]]].
  exists front. f_equal.
  destruct back as [|a [|b [|c back]]]; try discriminate.
  simpl in Hback. injection Hback as -> ->. reflexivity.
Qed.

(** C9.  With a positive thread count, the synchronous executor launches
    the executable path, then the caller's arguments, then ["-threads"]
    and the count; the progress executor launches the same followed by
    ["-progress"; "pipe:2"].  For a conversion the caller's arguments end
    in ["-y"] and the output path, so the thread flag follows them. *)
Theorem thread_flag_follows_arguments (env : Env) (self : Self) (args : list string)
    (kw : run_kwargs) (cb : bool) (st : State) :
  0 < _max_threads self ->
  ffmpeg_command self args =
    (_ffmpeg_path self :: args ++ ["-threads"; PyStr.str_of_int (_max_threads self)])%list /\
  launched (snd (execute_ffmpeg_command env self (map PStr args) kw st))
    = (launched st ++ [ffmpeg_command self args])%list /\
  (capture_output kw = false -> check kw = false ->
   launched (snd (execute_ffmpeg_with_progress env self (map PStr args) cb kw st))
     = (launched st ++ [ffmpeg_command self args ++ ["-progress"; "pipe:2"]])%list) /\
  (forall input_path output_path options,
     os_path_exists env input_path = true ->
     os_makedirs env (os_path_dirname env output_path) = None ->
     convert_args env input_path output_path options = inr (map PStr args) ->
     (exists front, args = front ++ ["-y"; output_path])%list /\
     launched (snd (convert_video env self input_path output_path cb options st))
       = (launched st ++
           [if cb then ffmpeg_command self args ++ ["-progress"; "pipe:2"]
            else ffmpeg_command self args])%list).
Proof.
  intros Hpos. apply Z.ltb_lt in Hpos.
  split; [unfold ffmpeg_command; rewrite Hpos; reflexivity|].
  split; [rewrite execute_ffmpeg_command_body; apply run_logged_launched|].
  split; [apply execute_ffmpeg_with_progress_launched|].
  intros input_path output_path options Hex Hmk Hargs.
  split; [eapply convert_args_tail; eauto|].
  destruct (convert_video_executes env self input_path output_path cb options _ st
              Hex Hmk Hargs) as [st0 [Hl [_ Hrun]]].
  rewrite Hrun, <- Hl. destruct cb.
  - apply execute_ffmpeg_with_progress_launched; reflexivity.
  - rewrite execute_ffmpeg_command_body. apply run_logged_launched.
Qed.

(** C2, as the code has it.  [convert_video], [get_video_info] and
    [get_stream_info], called with a path that does not exist, raise a
    ValueError that names the path, and leave the state as it was: no
    process is launched, nothing is logged.  [validate_media_file] does
    not look at the file system: it launches ffprobe on the path and
    returns whether the exit status is 0, and False when the launch
    fails. *)
Theorem missing_input_rejected (env : Env) (self : Self) (path : string) (st : State) :
  absent env st path ->
  (forall output_path cb options,
     convert_video env self path output_path cb options st
       = (inl (ValueError ("Input file does not exist: " ++ path)), st)) /\
  get_video_info env self path st
    = (inl (ValueError ("Video file does not exist: " ++ path)), st) /\
  (forall stream_type,
     get_stream_info env self path stream_type st
       = (inl (ValueError ("Media file does not exist: " ++ path)), st)) /\
  (exists st',
     validate_media_file env self path st
       = (inr (match subprocess_outcome env (ffprobe_command self (validate_args path)) with
               | Exited rc _ _ => rc =? 0
               | LaunchFailed _ => false
               end), st') /\
     launched st' = (launched st ++ [ffprobe_command self (validate_args path)])%list).
Proof.
  intros [Hfs Hdirs]. repeat split.
  - intros. unfold convert_video, path_exists. run_monad. rewrite Hfs, Hdirs. reflexivity.
  - unfold get_video_info, path_exists. run_monad. rewrite Hfs, Hdirs. reflexivity.
  - intros. unfold get_stream_info, path_exists. run_monad. rewrite Hfs, Hdirs. reflexivity.
  - unfold validate_media_file.
    change [PStr "-v"; PStr "error"; PStr "-show_entries"; PStr "format=duration";
            PStr "-of"; PStr "csv=p=0"; PStr path]
      with (map (@PStr float) (validate_args path)).
    rewrite execute_ffprobe_command_body. unfold try_except, bind.
    destruct (subprocess_outcome env (ffprobe_command self (validate_args path)))
      as [e|rc out err] eqn:H.
    + rewrite (run_logged_launch_failed _ _ _ _ _ _ H). eexists. split; reflexivity.
    + rewrite (run_logged_exited _ _ _ _ _ _ _ _ H). cbn [check].
      destruct (rc =? 0) eqn:E; eexists; (split; [cbn; rewrite ?E|]; reflexivity).
Qed.

(** *** Codec resolution and keyword options *)

Lemma default_codec_resolved (env : Env) (key fixed : string) :
  default_codec env key fixed =
    inr (match framework_settings env with
         | Some (PDict settings) =>
             match dict_lookup settings key with
             | Some v => v
             | None => PStr fixed
             end
         | _ => PStr fixed
         end).
Proof.
  unfold default_codec, settings_get.
  destruct (framework_settings env) as [[| | | | |l|d]|]; reflexivity.
Qed.

Lemma dict_lookup_remove_other (d : dict) (k k' : string) :
  k <> k' -> dict_lookup (dict_remove d k) k' = dict_lookup d k'.
Proof.
  intros Hne. induction d as [|[key v] rest IH]; simpl; [reflexivity|].
  destruct (String.eqb key k) eqn:E; simpl.
  - apply String.eqb_eq in E. subst key.
    destruct (String.eqb k k') eqn:E'; [apply String.eqb_eq in E'; contradiction|].
    exact IH.
  - destruct (String.eqb key k'); [reflexivity|exact IH].
Qed.

(** The argument vector, with the codecs as the spec words them. *)
Lemma convert_args_resolved (env : Env) (input_path output_path : string) (options : dict) :
  convert_args env input_path output_path options =
    inr ([PStr "-i"; PStr input_path]
         ++ codec_flag "-vcodec"
              (resolved_codec env options "vcodec" "default_video_codec" "libx264")
         ++ codec_flag "-acodec"
              (resolved_codec env options "acodec" "default_audio_codec" "aac")
         ++ option_flags (other_options options)
         ++ [PStr "-y"; PStr output_path])%list.
Proof.
  unfold convert_args. rewrite !default_codec_resolved. cbn [rbind].
  unfold dict_pop, dict_get, resolved_codec, other_options.
  rewrite dict_lookup_remove_other by discriminate. reflexivity.
Qed.

Lemma option_flags_strings (options : dict) :
  option_flags options =
    map PStr (flat_map (fun kv => optional_flag ("-" ++ fst kv) (snd kv)) options).
Proof.
  induction options as [|[k v] rest IH]; [reflexivity|].
  cbn [option_flags flat_map fst snd]. rewrite map_app, IH. unfold optional_flag.
  destruct (is_none v); reflexivity.
Qed.

Lemma codec_flag_words (flag : string) (v : value) :
  codec_ok v = true -> codec_flag flag v = map PStr (codec_words flag v).
Proof.
  unfold codec_ok, codec_flag, codec_words.
  destruct v as [| | | |s| |]; cbn [truthy is_str negb orb];
    try (destruct (truthy _); [discriminate|reflexivity]).
  - intros _. reflexivity.
  - destruct b; [discriminate|reflexivity].
  - destruct (negb (n =? 0)); [discriminate|reflexivity].
  - destruct (negb (float_is_zero x)); [discriminate|reflexivity].
  - intros _. destruct s; reflexivity.
  - destruct l; [reflexivity|discriminate].
  - destruct d; [reflexivity|discriminate].
Qed.

(** With codecs that are strings or falsy, the argument vector of a
    conversion is a vector of strings. *)
Lemma convert_args_words (env : Env) (input_path output_path : string) (options : dict) :
  codec_ok (resolved_codec env options "vcodec" "default_video_codec" "libx264") = true ->
  codec_ok (resolved_codec env options "acodec" "default_audio_codec" "aac") = true ->
  convert_args env input_path output_path options
    = inr (map PStr (convert_words env input_path output_path options)).
Proof.
  intros Hv Ha. rewrite convert_args_resolved. unfold convert_words.
  rewrite (codec_flag_words "-vcodec" _ Hv), (codec_flag_words "-acodec" _ Ha).
  rewrite option_flags_strings, !map_app. reflexivity.
Qed.

Lemma convert_executor_launched (env : Env) (self : Self) (cb : bool)
    (words : list string) (st : State) :
  launched (snd (convert_executor env self cb (map PStr words) st))
    = (launched st ++ [convert_command self cb words])%list.
Proof.
  unfold convert_executor, convert_command. destruct cb.
  - apply execute_ffmpeg_with_progress_launched; reflexivity.
  - rewrite execute_ffmpeg_command_body. apply run_logged_launched.
Qed.

(** A conversion whose input exists, whose output directory is there or
    can be made and whose codecs are strings or falsy is one executor call
    on [convert_words], and launches exactly that command. *)
Lemma convert_video_runs (env : Env) (self : Self) (input_path output_path : string)
    (cb : bool) (options : dict) (st : State) :
  os_path_exists env input_path = true ->
  output_dir_missing env st output_path = false \/
    os_makedirs env (os_path_dirname env output_path) = None ->
  codec_ok (resolved_codec env options "vcodec" "default_video_codec" "libx264") = true ->
  codec_ok (resolved_codec env options "acodec" "default_audio_codec" "aac") = true ->
  convert_video env self input_path output_path cb options st
    = convert_executor env self cb
        (map PStr (convert_words env input_path output_path options))
        (after_output_dir env st output_path) /\
  launched (snd (convert_video env self input_path output_path cb options st))
    = (launched st ++ [convert_command self cb
                         (convert_words env input_path output_path options)])%list.
Proof.
  intros Hex Hdir Hv Ha.
  assert (Hrun : convert_video env self input_path output_path cb options st
    = convert_executor env self cb
        (map PStr (convert_words env input_path output_path options))
        (after_output_dir env st output_path)).
  { pose proof (convert_args_words env input_path output_path options Hv Ha) as Hargs.
    unfold after_output_dir.
    unfold convert_video, path_exists, makedirs. run_monad.
    rewrite Hex. cbn [orb negb].
    unfold output_dir_missing in *.
    destruct (negb (PyStr.is_empty (os_path_dirname env output_path)) &&
              negb (os_path_exists env (os_path_dirname env output_path)
                    || existsb (String.eqb (os_path_dirname env output_path))
                         (created_dirs st))) eqn:Hmiss.
    - destruct Hdir as [Hdir|Hmk]; [discriminate|].
      rewrite Hmk, Hargs. unfold convert_executor. destruct cb; reflexivity.
    - rewrite Hargs. unfold convert_executor. destruct cb; reflexivity. }
  split; [exact Hrun|].
  rewrite Hrun, convert_executor_launched. unfold after_output_dir.
  destruct (output_dir_missing env st output_path); reflexivity.
Qed.

Lemma dict_remove_absent (d : dict) (k : string) :
  dict_lookup d k = None -> dict_remove d k = d.
Proof.
  induction d as [|[key v] rest IH]; simpl; [reflexivity|].
  destruct (String.eqb key k); [discriminate|]. cbn [negb].
  intros H. rewrite (IH H). reflexivity.
Qed.

(** Without a settings entry and without an override, the codec is the
    fixed default. *)
Lemma resolved_codec_fixed (env : Env) (options : dict) (name key fixed : string) :
  dict_lookup options name = None -> setting_value env key = None ->
  resolved_codec env options name key fixed = PStr fixed.
Proof.
  unfold resolved_codec, setting_value. intros -> H.
  destruct (framework_settings env) as [[| | | | |l|d]|]; try reflexivity.
  rewrite H. reflexivity.
Qed.

(** C4.  The codec looked up in the settings never raises: a missing
    settings attribute, settings that are not a mapping and a missing key
    all give the fixed default.  The argument vector of a conversion is
    always built, and carries for each codec the per-call override if the
    option is given, else the settings entry, else ["libx264"] / ["aac"],
    behind [-vcodec] / [-acodec].  So does the call itself: whatever the
    settings are, [convert_video] on an existing input, with an output
    directory that is there or can be made, is the executor call on these
    arguments and launches ffmpeg with the resolved codecs behind their
    flags (a codec that is a string is emitted, a falsy one is left out);
    when a lookup fails and no override is given, the command launched
    carries [-vcodec libx264] and [-acodec aac], and nothing of the
    failed lookup reaches the caller. *)
Theorem codec_resolution (env : Env) (input_path output_path : string) (options : dict) :
  (exists dv da,
     default_codec env "default_video_codec" "libx264" = inr dv /\
     default_codec env "default_audio_codec" "aac" = inr da /\
     (framework_settings env = None -> dv = PStr "libx264" /\ da = PStr "aac") /\
     (forall settings, framework_settings env = Some (PDict settings) ->
        dv = dict_get settings "default_video_codec" (PStr "libx264") /\
        da = dict_get settings "default_audio_codec" (PStr "aac")) /\
     resolved_codec env options "vcodec" "default_video_codec" "libx264"
       = dict_get options "vcodec" dv /\
     resolved_codec env options "acodec" "default_audio_codec" "aac"
       = dict_get options "acodec" da) /\
  convert_args env input_path output_path options =
    inr ([PStr "-i"; PStr input_path]
         ++ codec_flag "-vcodec"
              (resolved_codec env options "vcodec" "default_video_codec" "libx264")
         ++ codec_flag "-acodec"
              (resolved_codec env options "acodec" "default_audio_codec" "aac")
         ++ option_flags (other_options options)
         ++ [PStr "-y"; PStr output_path])%list /\
  (forall (self : Self) (cb : bool) (st : State),
     os_path_exists env input_path = true ->
     output_dir_missing env st output_path = false \/
       os_makedirs env (os_path_dirname env output_path) = None ->
     codec_ok (resolved_codec env options "vcodec" "default_video_codec" "libx264") = true ->
     codec_ok (resolved_codec env options "acodec" "default_audio_codec" "aac") = true ->
     convert_video env self input_path output_path cb options st
       = convert_executor env self cb
           (map PStr
              (["-i"; input_path]
               ++ codec_words "-vcodec"
                    (resolved_codec env options "vcodec" "default_video_codec" "libx264")
               ++ codec_words "-acodec"
                    (resolved_codec env options "acodec" "default_audio_codec" "aac")
               ++ flat_map (fun kv => optional_flag ("-" ++ fst kv) (snd kv))
                    (other_options options)
               ++ ["-y"; output_path])%list)
           (after_output_dir env st output_path) /\
     launched (snd (convert_video env self input_path output_path cb options st))
       = (launched st ++
          [convert_command self cb
             (["-i"; input_path]
              ++ codec_words "-vcodec"
                   (resolved_codec env options "vcodec" "default_video_codec" "libx264")
              ++ codec_words "-acodec"
                   (resolved_codec env options "acodec" "default_audio_codec" "aac")
              ++ flat_map (fun kv => optional_flag ("-" ++ fst kv) (snd kv))
                   (other_options options)
              ++ ["-y"; output_path])])%list) /\
  (forall (self : Self) (cb : bool) (st : State),
     os_path_exists env input_path = true ->
     output_dir_missing env st output_path = false \/
       os_makedirs env (os_path_dirname env output_path) = None ->
     dict_lookup options "vcodec" = None -> dict_lookup options "acodec" = None ->
     setting_value env "default_video_codec" = None ->
     setting_value env "default_audio_codec" = None ->
     convert_video env self input_path output_path cb options st
       = convert_executor env self cb
           (map PStr
              (["-i"; input_path; "-vcodec"; "libx264"; "-acodec"; "aac"]
               ++ flat_map (fun kv => optional_flag ("-" ++ fst kv) (snd kv)) options
               ++ ["-y"; output_path])%list)
           (after_output_dir env st output_path) /\
     launched (snd (convert_video env self input_path output_path cb options st))
       = (launched st ++
          [convert_command self cb
             (["-i"; input_path; "-vcodec"; "libx264"; "-acodec"; "aac"]
              ++ flat_map (fun kv => optional_flag ("-" ++ fst kv) (snd kv)) options
              ++ ["-y"; output_path])])%list).
Proof.
  split; [|split; [apply convert_args_resolved|split]].
  - do 2 eexists. rewrite !default_codec_resolved.
    split; [reflexivity|]. split; [reflexivity|].
    unfold resolved_codec, dict_get. repeat split.
    + rewrite H. reflexivity.
    + rewrite H. reflexivity.
    + rewrite H. reflexivity.
    + rewrite H. reflexivity.
  - intros self cb st Hex Hdir Hv Ha.
    exact (convert_video_runs env self input_path output_path cb options st Hex Hdir Hv Ha).
  - intros self cb st Hex Hdir Hov Hoa Hsv Hsa.
    pose proof (resolved_codec_fixed env options "vcodec" "default_video_codec" "libx264"
                  Hov Hsv) as Hv.
    pose proof (resolved_codec_fixed env options "acodec" "default_audio_codec" "aac"
                  Hoa Hsa) as Ha.
    assert (Hother : other_options options = options).
    { unfold other_options. rewrite (dict_remove_absent options "vcodec" Hov).
      apply dict_remove_absent. exact Hoa. }
    pose proof (convert_video_runs env self input_path output_path cb options st Hex Hdir)
      as Hrun.
    unfold convert_words in Hrun. rewrite Hv, Ha, Hother in Hrun.
    apply Hrun; reflexivity.
Qed.

Lemma option_flags_app (a b : dict) :
  option_flags (a ++ b)%list = (option_flags a ++ option_flags b)%list.
Proof.
  induction a as [|[k v] a IH]; simpl; [reflexivity|].
  rewrite IH, app_assoc. reflexivity.
Qed.

Lemma dict_lookup_skip (a b : dict) (k k' : string) (v : value) :
  k <> k' -> dict_lookup (a ++ (k, v) :: b)%list k' = dict_lookup (a ++ b)%list k'.
Proof.
  intros Hne. induction a as [|[key w] a IH]; simpl.
  - destruct (String.eqb k k') eqn:E; [apply String.eqb_eq in E; contradiction|].
    reflexivity.
  - destruct (String.eqb key k'); [reflexivity|exact IH].
Qed.

Lemma dict_remove_skip (a b : dict) (k k' : string) (v : value) :
  k <> k' ->
  dict_remove (a ++ (k, v) :: b)%list k' = (dict_remove a k' ++ (k, v) :: dict_remove b k')%list.
Proof.
  intros Hne. unfold dict_remove. rewrite filter_app. cbn [filter fst].
  apply String.eqb_neq in Hne. rewrite Hne. reflexivity.
Qed.

Lemma other_options_skip (a b : dict) (k : string) (v : value) :
  k <> "vcodec" -> k <> "acodec" ->
  other_options (a ++ (k, v) :: b)%list
    = (other_options a ++ (k, v) :: other_options b)%list.
Proof.
  intros Hv Ha. unfold other_options. rewrite !dict_remove_skip by assumption. reflexivity.
Qed.

Lemma other_options_app (a b : dict) :
  other_options (a ++ b)%list = (other_options a ++ other_options b)%list.
Proof. unfold other_options, dict_remove. rewrite !filter_app. reflexivity. Qed.

(** C10.  A keyword option whose value is None adds nothing to the
    argument vector.  A [vcodec] (or [acodec]) option that is given with a
    falsy value, None included, leaves the vector without any [-vcodec]
    (or [-acodec]) pair: the default codec is not used in its place. *)
Theorem none_options_emit_no_flag (env : Env) (input_path output_path : string) :
  (forall options1 options2 key,
     key <> "vcodec" -> key <> "acodec" ->
     convert_args env input_path output_path (options1 ++ (key, PNone) :: options2)%list
       = convert_args env input_path output_path (options1 ++ options2)%list) /\
  (forall options v,
     dict_lookup options "vcodec" = Some v -> truthy v = false ->
     convert_args env input_path output_path options =
       inr ([PStr "-i"; PStr input_path]
            ++ codec_flag "-acodec"
                 (resolved_codec env options "acodec" "default_audio_codec" "aac")
            ++ option_flags (other_options options)
            ++ [PStr "-y"; PStr output_path])%list) /\
  (forall options v,
     dict_lookup options "acodec" = Some v -> truthy v = false ->
     convert_args env input_path output_path options =
       inr ([PStr "-i"; PStr input_path]
            ++ codec_flag "-vcodec"
                 (resolved_codec env options "vcodec" "default_video_codec" "libx264")
            ++ option_flags (other_options options)
            ++ [PStr "-y"; PStr output_path])%list).
Proof.
  repeat split.
  - intros options1 options2 key Hv Ha. rewrite !convert_args_resolved.
    unfold resolved_codec. rewrite !dict_lookup_skip by assumption.
    rewrite other_options_skip, other_options_app, !option_flags_app by assumption.
    reflexivity.
  - intros options v Hv Hf. rewrite convert_args_resolved.
    unfold resolved_codec at 1. rewrite Hv. unfold codec_flag at 1. rewrite Hf.
    reflexivity.
  - intros options v Ha Hf. rewrite convert_args_resolved.
    unfold resolved_codec at 2. rewrite Ha. unfold codec_flag at 2. rewrite Hf.
    reflexivity.
Qed.

(** *** create_proxy *)



(** C8.  A quality tag other than fast, medium and slow selects the
    settings of medium, crf ["23"] and preset ["medium"], and the whole
    [create_proxy] call is the call with quality ["medium"].  What the
    call emits is pinned as well: for a resolution given as a string,
    [create_proxy] is the [convert_video] call whose options are the
    scale filter, crf ["23"] and preset ["medium"]; on an existing input,
    with an output directory that is there or can be made and default
    codecs that are strings or falsy, it launches ffmpeg with
    [-crf 23 -preset medium] behind the scale filter. *)
Theorem unknown_quality_is_medium (env : Env) (self : Self)
    (input_path output_path : string) (resolution : value) (quality : string)
    (st : State) :
  quality <> "fast" -> quality <> "medium" -> quality <> "slow" ->
  quality_settings (PStr quality) = inr (mkQuality "23" "medium") /\
  quality_settings (PStr quality) = quality_settings (PStr "medium") /\
  proxy_options resolution (PStr quality) = proxy_options resolution (PStr "medium") /\
  create_proxy env self input_path output_path resolution (PStr quality) st
    = create_proxy env self input_path output_path resolution (PStr "medium") st /\
  (forall r, resolution = PStr r ->
     proxy_options resolution (PStr quality)
       = inr [("vf", PStr ("scale=" ++ scale_target r)); ("crf", PStr "23");
              ("preset", PStr "medium")] /\
     create_proxy env self input_path output_path resolution (PStr quality) st
       = convert_video env self input_path output_path false
           [("vf", PStr ("scale=" ++ scale_target r)); ("crf", PStr "23");
            ("preset", PStr "medium")] st /\
     (os_path_exists env input_path = true ->
      output_dir_missing env st output_path = false \/
        os_makedirs env (os_path_dirname env output_path) = None ->
      codec_ok (resolved_codec env [] "vcodec" "default_video_codec" "libx264") = true ->
      codec_ok (resolved_codec env [] "acodec" "default_audio_codec" "aac") = true ->
      launched (snd (create_proxy env self input_path output_path resolution
                       (PStr quality) st))
        = (launched st ++
           [ffmpeg_command self
              (["-i"; input_path]
               ++ codec_words "-vcodec"
                    (resolved_codec env [] "vcodec" "default_video_codec" "libx264")
               ++ codec_words "-acodec"
                    (resolved_codec env [] "acodec" "default_audio_codec" "aac")
               ++ ["-vf"; ("scale=" ++ scale_target r)%string; "-crf"; "23";
                   "-preset"; "medium"; "-y"; output_path])])%list)).
Proof.
  intros H1 H2 H3.
  assert (Hq : quality_settings (PStr quality) = inr (mkQuality "23" "medium")).
  { apply String.eqb_neq in H1, H2, H3.
    unfold quality_settings, table_get, quality_map. cbn [table_lookup].
    rewrite (String.eqb_sym "fast" quality), (String.eqb_sym "medium" quality),
      (String.eqb_sym "slow" quality), H1, H2, H3. reflexivity. }
  assert (Ho : proxy_options resolution (PStr quality)
               = proxy_options resolution (PStr "medium")).
  { unfold proxy_options. rewrite Hq. reflexivity. }
  split; [exact Hq|]. split; [rewrite Hq; reflexivity|]. split; [exact Ho|].
  split; [unfold create_proxy; rewrite Ho; reflexivity|].
  intros r ->.
  assert (Hopts : proxy_options (PStr r) (PStr quality)
            = inr [("vf", PStr ("scale=" ++ scale_target r)); ("crf", PStr "23");
                   ("preset", PStr "medium")]).
  { unfold proxy_options. rewrite Hq. unfold target_res, scale_target. cbn [rbind].
    destruct (table_lookup resolution_map r); reflexivity. }
  assert (Hcall : create_proxy env self input_path output_path (PStr r) (PStr quality) st
            = convert_video env self input_path output_path false
                [("vf", PStr ("scale=" ++ scale_target r)); ("crf", PStr "23");
                 ("preset", PStr "medium")] st).
  { unfold create_proxy. rewrite Hopts. reflexivity. }
  split; [exact Hopts|]. split; [exact Hcall|].
  intros Hex Hdir Hv Ha. rewrite Hcall.
  exact (proj2 (convert_video_runs env self input_path output_path false
                  [("vf", PStr ("scale=" ++ scale_target r)); ("crf", PStr "23");
                   ("preset", PStr "medium")] st Hex Hdir Hv Ha)).
Qed.

(** *** get_media_formats *)

Lemma blank_no_tokens (line : string) :
  is_blank line = true -> PyStr.split_ws line = [].
Proof.
  unfold is_blank, PyStr.strip.
  induction line as [|c r IH]; [reflexivity|]. cbn [PyStr.lstrip PyStr.split_ws].
  destruct (PyStr.is_space c) eqn:E; [exact IH|].
  cbn [PyStr.rstrip]. rewrite E. discriminate.
Qed.

(** The loop over the lines, in closed form. *)
Lemma scan_listing_names (lines : list string) : forall in_section names,
  scan_listing in_section names lines =
    (names ++ listed_names (if in_section then lines else after_first_separator lines))%list.
Proof.
  induction lines as [|line rest IH]; intros in_section names.
  - destruct in_section; simpl; rewrite app_nil_r; reflexivity.
  - cbn [scan_listing after_first_separator]. fold (is_separator line).
    destruct (is_separator line) eqn:Hsep.
    + rewrite IH. destruct in_section; [|reflexivity].
      unfold listed_names. cbn [filter]. rewrite Hsep. reflexivity.
    + destruct in_section; cbn [andb].
      * unfold listed_names at 1. cbn [filter]. rewrite Hsep. cbn [negb flat_map].
        fold (listed_names rest). fold (is_blank line).
        destruct (is_blank line) eqn:Hb; cbn [negb].
        { rewrite IH. unfold second_token. rewrite (blank_no_tokens line Hb). reflexivity. }
        unfold second_token.
        destruct (PyStr.split_ws line) as [|t [|name ts]]; rewrite IH; try reflexivity.
        rewrite <- app_assoc. reflexivity.
      * rewrite IH. reflexivity.
Qed.

Lemma listing_names_of (kw : run_kwargs) (rc : Z) (out err : string) :
  capture_output kw = true ->
  listing_names (mkResult rc (captured kw out) (captured kw err)) [] = inr (names_of rc out).
Proof.
  intros Hc. unfold listing_names, names_of, captured. rewrite Hc. cbn [returncode stdout].
  destruct (rc =? 0); [|reflexivity]. rewrite scan_listing_names. reflexivity.
Qed.

(** What [get_media_formats] returns, by the outcome of its two launches. *)
Lemma get_media_formats_result (env : Env) (self : Self) (st : State) :
  fst (get_media_formats env self st) =
    inr (match subprocess_outcome env (ffmpeg_command self ["-encoders"]) with
         | LaunchFailed _ => mkFormats [] []
         | Exited rc out _ =>
             match subprocess_outcome env (ffmpeg_command self ["-decoders"]) with
             | LaunchFailed _ => mkFormats (names_of rc out) []
             | Exited rc' out' _ => mkFormats (names_of rc out) (names_of rc' out')
             end
         end).
Proof.
  unfold get_media_formats.
  change [PStr "-encoders"] with (map (@PStr float) ["-encoders"]).
  change [PStr "-decoders"] with (map (@PStr float) ["-decoders"]).
  rewrite !execute_ffmpeg_command_body.
  assert (Hrun : forall argv s,
    match subprocess_outcome env argv with
    | LaunchFailed e => exists s', run_logged env "FFmpeg" (map PStr argv)
                                     (mkKw true true false) s = (inl e, s')
    | Exited rc out err =>
        exists s', run_logged env "FFmpeg" (map PStr argv) (mkKw true true false) s
                   = (inr (mkResult rc (captured (mkKw true true false) out)
                                       (captured (mkKw true true false) err)), s')
    end).
  { intros argv s. destruct (subprocess_outcome env argv) as [e|rc out err] eqn:H.
    - rewrite (run_logged_launch_failed _ _ _ _ _ _ H). eauto.
    - rewrite (run_logged_exited _ _ _ _ _ _ _ _ H). cbn [check].
      destruct (rc =? 0); eauto. }
  unfold try_except at 1. unfold bind at 1.
  pose proof (Hrun (ffmpeg_command self ["-encoders"]) st) as He.
  destruct (subprocess_outcome env (ffmpeg_command self ["-encoders"])) as [e|rc out err];
    destruct He as [s1 He]; rewrite He.
  - reflexivity.
  - unfold bind at 1. unfold lift at 1. rewrite listing_names_of by reflexivity.
    unfold try_except at 1. unfold bind at 1.
    pose proof (Hrun (ffmpeg_command self ["-decoders"]) s1) as Hd.
    destruct (subprocess_outcome env (ffmpeg_command self ["-decoders"])) as [e'|rc' out' err'];
      destruct Hd as [s2 Hd]; rewrite Hd.
    + reflexivity.
    + unfold bind at 1. unfold lift at 1. rewrite listing_names_of by reflexivity.
      reflexivity.
Qed.

(** C6, as the code has it.  The names read from a listing are the
    second whitespace-delimited tokens of the lines that follow the first
    separator line and are not separator lines themselves; lines with
    fewer than two tokens, blank lines among them, give nothing, and so
    does a listing without separator line.  [get_media_formats] always
    returns: each list holds the names of its listing when the tool exits
    with status 0 ([names_of]), and is empty on another status; a failed
    launch of the encoder listing leaves both lists empty, a failed launch
    of the decoder listing leaves the encoder names alone. *)
Theorem catalog_names_skip_separators (env : Env) (self : Self) (st : State) :
  (forall listing,
     scan_listing false [] (PyStr.split_on "010" listing)
       = listed_names (after_first_separator (PyStr.split_on "010" listing))) /\
  (forall lines,
     (forall line, In line lines -> is_separator line = false) ->
     scan_listing false [] lines = []) /\
  fst (get_media_formats env self st) =
    inr (match subprocess_outcome env (ffmpeg_command self ["-encoders"]) with
         | LaunchFailed _ => mkFormats [] []
         | Exited rc out _ =>
             match subprocess_outcome env (ffmpeg_command self ["-decoders"]) with
             | LaunchFailed _ => mkFormats (names_of rc out) []
             | Exited rc' out' _ => mkFormats (names_of rc out) (names_of rc' out')
             end
         end).
Proof.
  split; [intros; apply scan_listing_names|].
  split; [|apply get_media_formats_result].
  intros lines Hno. rewrite scan_listing_names. cbn [app].
  induction lines as [|line rest IH]; [reflexivity|].
  cbn [after_first_separator]. rewrite (Hno line (or_introl eq_refl)).
  apply IH. intros l Hl. apply Hno. right. exact Hl.
Qed.

End Facts.
End WrapperFacts.

(* ===================================================================== *)
(** ** Further facts: executors, builders and parsers *)
(* ===================================================================== *)

Module ExtraFacts.
Import Py FFmpegWrapper PyStrFacts Vocabulary WrapperFacts.

Section Executors.
Context {P : Platform}.

Lemma as_strings_app (a b : list value) :
  as_strings (a ++ b) =
    match as_strings a with
    | Some x => option_map (app x) (as_strings b)
    | None => None
    end.
Proof.
  induction a as [|v a IH]; simpl.
  - destruct (as_strings b); reflexivity.
  - destruct v; try reflexivity. rewrite IH.
    destruct (as_strings a); simpl; [|reflexivity].
    destruct (as_strings b); reflexivity.
Qed.

Lemma with_threads_not_strings (self : Self) (exe : string) (args : list value) :
  as_strings args = None -> as_strings (with_threads self (PStr exe :: args)) = None.
Proof.
  intros H. unfold with_threads.
  destruct (0 <? _max_threads self); [rewrite as_strings_app|]; simpl; rewrite H; reflexivity.
Qed.

(** X1.  An argument vector with an item that is not a string never
    reaches a process: the joining of the command line for the debug
    message raises TypeError before the [try], so nothing is launched and
    nothing is logged.  A conversion whose [vcodec] option is truthy but
    not a string ends this way. *)
Theorem non_string_argument_rejected (env : Env) (self : Self) (args : list value)
    (kw : run_kwargs) (cb : bool) (st : State) :
  as_strings args = None ->
  execute_ffmpeg_command env self args kw st = (inl TypeError, st) /\
  execute_ffprobe_command env self args kw st = (inl TypeError, st) /\
  execute_ffmpeg_with_progress env self args cb kw st = (inl TypeError, st) /\
  (forall input_path output_path options v,
     os_path_exists env input_path = true ->
     output_dir_missing env st output_path = false ->
     dict_lookup options "vcodec" = Some v ->
     truthy v = true -> is_str v = false ->
     convert_video env self input_path output_path cb options st = (inl TypeError, st)).
Proof.
  intros H.
  assert (Hff : forall a k, as_strings a = None ->
            execute_ffmpeg_command env self a k st = (inl TypeError, st)).
  { intros a k Ha. unfold execute_ffmpeg_command, str_join.
    rewrite (with_threads_not_strings self _ a Ha). reflexivity. }
  assert (Hpr : forall a k, as_strings a = None ->
            execute_ffmpeg_with_progress env self a cb k st = (inl TypeError, st)).
  { intros a k Ha. unfold execute_ffmpeg_with_progress, str_join.
    rewrite as_strings_app, (with_threads_not_strings self _ a Ha). reflexivity. }
  split; [apply Hff; exact H|]. split.
  { unfold execute_ffprobe_command, str_join. simpl. rewrite H. reflexivity. }
  split; [apply Hpr; exact H|].
  intros input_path output_path options v Hex Hdir Hv Ht Hs.
  assert (Hargs : exists args', convert_args env input_path output_path options = inr args'
                                /\ as_strings args' = None).
  { eexists. split; [apply convert_args_resolved|].
    unfold resolved_codec at 1. rewrite Hv. unfold codec_flag at 1. rewrite Ht.
    rewrite as_strings_app. simpl. destruct v; try reflexivity; discriminate. }
  destruct Hargs as [args' [Hc Hn]].
  unfold convert_video, path_exists. run_monad. rewrite Hex. cbn [orb negb].
  unfold output_dir_missing in Hdir. rewrite Hdir. rewrite Hc.
  destruct cb; [apply Hpr|apply Hff]; exact Hn.
Qed.

(** X2.  [__init__] fixes the thread count at 4 and takes the two paths
    from the bundle, logging both.  A wrapper so built launches ffmpeg as
    the bundled path, the caller's arguments, then ["-threads"; "4"];
    ffprobe is launched as its bundled path and the arguments alone, it
    never gets a thread flag. *)
Theorem init_fixes_threads_and_paths (env : Env) (st : State) :
  exists self,
    init env st =
      (inr self,
       mkState (created_dirs st) (launched st)
         (logged st ++ [Log Info "FFmpeg path: %s" (AStr (bundled_ffmpeg_path env));
                        Log Info "FFprobe path: %s" (AStr (bundled_ffprobe_path env))])
         (notified st)) /\
    (forall args kw st1,
       launched (snd (execute_ffmpeg_command env self (map PStr args) kw st1))
         = (launched st1 ++ [bundled_ffmpeg_path env :: args ++ ["-threads"; "4"]])%list) /\
    (forall args kw st1,
       launched (snd (execute_ffprobe_command env self (map PStr args) kw st1))
         = (launched st1 ++ [bundled_ffprobe_path env :: args])%list).
Proof.
  eexists. split; [|split].
  - unfold init, logger. run_monad. cbn. rewrite <- app_assoc. reflexivity.
  - intros args kw st1. rewrite execute_ffmpeg_command_body. apply run_logged_launched.
  - intros args kw st1. rewrite execute_ffprobe_command_body. apply run_logged_launched.
Qed.

Lemma monitor_progress_texts (lines : list string) : forall st,
  monitor_progress true lines st =
    (inr tt, mkState (created_dirs st) (launched st) (logged st)
               (notified st ++ progress_texts lines)).
Proof.
  induction lines as [|line rest IH]; intros st.
  - cbn. rewrite app_nil_r. destruct st; reflexivity.
  - cbn [monitor_progress]. unfold bind at 1. unfold monitor_line, progress_texts.
    cbn [filter]. rewrite andb_true_r.
    destruct line as [|c r].
    + cbn. rewrite IH. destruct st; reflexivity.
    + cbn [PyStr.is_empty negb].
      destruct (PyStr.contains "time=" (String c r)).
      * unfold progress_callback_call, modify. rewrite IH. cbn [map created_dirs launched
          logged notified]. unfold progress_texts. rewrite <- app_assoc. reflexivity.
      * unfold ret. rewrite IH. reflexivity.
Qed.

(** X3.  The progress executor, called as [convert_video] calls it: when
    the child is launched and exits, the result carries the exit status
    and both streams, whatever the status, and a non-zero status is only
    logged; with a callback, the callback has received one text per line
    read that contains ["time="], in reading order, each ["FFmpeg: "]
    followed by the stripped line, and without a callback nothing is
    sent.  A launch that fails is logged and re-raised. *)
Theorem progress_execution_outcomes (env : Env) (self : Self) (args : list string)
    (cb : bool) (kw : run_kwargs) (st : State) :
  capture_output kw = false -> check kw = false ->
  let cmd := ffmpeg_progress_command self args in
  let announced :=
    Log Debug "Executing FFmpeg command with progress: %s" (AStr (PyStr.join " " cmd)) in
  (forall rc lines out err,
     popen_outcome_of env cmd = PopenExited rc lines out err ->
     execute_ffmpeg_with_progress env self (map PStr args) cb kw st =
       (inr (mkResult rc (Some out) (Some err)),
        mkState (created_dirs st) (launched st ++ [cmd])
          (logged st ++ announced ::
             (if rc =? 0 then [] else status_entries "FFmpeg" (mkKw true true false) rc err))
          (notified st ++ (if cb then progress_texts lines else [])))) /\
  (forall e,
     popen_outcome_of env cmd = PopenFailed e ->
     execute_ffmpeg_with_progress env self (map PStr args) cb kw st =
       (inl e,
        mkState (created_dirs st) (launched st ++ [cmd])
          (logged st ++ [announced; raised_entry "FFmpeg" e]) (notified st))).
Proof.
  intros Hc Hk cmd announced.
  assert (Hcmd : (with_threads self (PStr (_ffmpeg_path self) :: map PStr args)
                  ++ [PStr "-progress"; PStr "pipe:2"])%list = map PStr cmd).
  { rewrite with_threads_map. unfold cmd, ffmpeg_progress_command, ffmpeg_command.
    rewrite (map_app PStr _ ["-progress"; "pipe:2"]). reflexivity. }
  split.
  - intros rc lines out err H.
    unfold execute_ffmpeg_with_progress. rewrite Hcmd.
    unfold str_join, popen_and_wait, record_launch, logger. rewrite as_strings_map, Hc, Hk.
    run_monad. cbn [orb]. rewrite H.
    destruct cb.
    + rewrite monitor_progress_texts. cbn [created_dirs launched logged notified].
      unfold log_failure, logger. run_monad. cbn [returncode stderr].
      unfold status_entries. cbn [capture_output andb].
      destruct (rc =? 0); cbn [negb].
      * reflexivity.
      * destruct (PyStr.is_empty err); cbn [negb];
          cbn [created_dirs launched logged notified]; rewrite <- !app_assoc; reflexivity.
    + unfold log_failure, logger. run_monad. cbn [returncode stderr].
      unfold status_entries. cbn [capture_output andb]. rewrite app_nil_r.
      destruct (rc =? 0); cbn [negb].
      * reflexivity.
      * destruct (PyStr.is_empty err); cbn [negb];
          cbn [created_dirs launched logged notified]; rewrite <- !app_assoc; reflexivity.
  - intros e H.
    unfold execute_ffmpeg_with_progress. rewrite Hcmd.
    unfold str_join, popen_and_wait, record_launch, logger. rewrite as_strings_map, Hc, Hk.
    run_monad. cbn [orb]. rewrite H. cbn [created_dirs launched logged notified].
    rewrite <- app_assoc. reflexivity.
Qed.

End Executors.
Section Builders.
Context {P : Platform}.

Lemma sync_run_outcome (env : Env) (argv : list string) (st : State) :
  run_logged env "FFmpeg" (map PStr argv) (mkKw true true false) st =
    match subprocess_outcome env argv with
    | LaunchFailed e =>
        (inl e, after_run st argv [debug_entry "FFmpeg" argv; raised_entry "FFmpeg" e])
    | Exited rc out err =>
        (inr (mkResult rc (Some out) (Some err)),
         after_run st argv
           (debug_entry "FFmpeg" argv ::
              (if rc =? 0 then []
               else status_entries "FFmpeg" (mkKw true true false) rc err)))
    end.
Proof.
  destruct (subprocess_outcome env argv) as [e|rc out err] eqn:H.
  - apply run_logged_launch_failed. exact H.
  - rewrite (run_logged_exited _ _ _ _ _ _ _ _ H). cbn [check captured capture_output].
    destruct (rc =? 0); reflexivity.
Qed.

Lemma extract_frames_body (env : Env) (self : Self) (video_path output_pattern : string)
    (start_time duration_ fps_ : value) :
  extract_frames env self video_path output_pattern start_time duration_ fps_ =
  run_logged env "FFmpeg"
    (map PStr (ffmpeg_command self
                 (frames_args video_path output_pattern start_time duration_ fps_)))
    (mkKw true true false).
Proof.
  rewrite <- execute_ffmpeg_command_body. unfold extract_frames, frames_args, optional_flag.
  destruct (is_none start_time), (is_none duration_), (is_none fps_); reflexivity.
Qed.

(** X4.  [extract_frames] does not look at the file system and creates
    no directory: it launches ffmpeg once, on the start time (if not
    None) before [-i], then duration and fps filter (each if not None),
    then [-y] and the pattern.  Whatever the exit status, the result with
    both captured streams is returned; only a failed launch raises.  An
    optional value is left out when it is None, not when it is falsy: a
    start time of 0 gives [-ss 0]. *)
Theorem extract_frames_outcome (env : Env) (self : Self)
    (video_path output_pattern : string) (start_time duration_ fps_ : value) (st : State) :
  let cmd := ffmpeg_command self
               (frames_args video_path output_pattern start_time duration_ fps_) in
  extract_frames env self video_path output_pattern start_time duration_ fps_ st =
    match subprocess_outcome env cmd with
    | LaunchFailed e =>
        (inl e, after_run st cmd [debug_entry "FFmpeg" cmd; raised_entry "FFmpeg" e])
    | Exited rc out err =>
        (inr (mkResult rc (Some out) (Some err)),
         after_run st cmd
           (debug_entry "FFmpeg" cmd ::
              (if rc =? 0 then []
               else status_entries "FFmpeg" (mkKw true true false) rc err)))
    end /\
  (forall v, is_none v = false ->
     frames_args video_path output_pattern v PNone PNone
       = ["-ss"; py_str v; "-i"; video_path; "-y"; output_pattern]) /\
  frames_args video_path output_pattern PNone PNone PNone
    = ["-i"; video_path; "-y"; output_pattern].
Proof.
  cbv zeta. split; [|split].
  - rewrite extract_frames_body. apply sync_run_outcome.
  - intros v Hv. unfold frames_args, optional_flag. rewrite Hv. reflexivity.
  - reflexivity.
Qed.

(** X5.  [create_thumbnail] launches ffmpeg once on
    [-i path -ss offset -vframes 1 -y output], with no test of the input
    and no directory made for the output; the result is returned for
    every exit status, and a failed launch is logged and re-raised. *)
Theorem create_thumbnail_outcome (env : Env) (self : Self)
    (video_path output_path : string) (time_offset : value) (st : State) :
  let cmd := ffmpeg_command self (thumbnail_args video_path output_path time_offset) in
  create_thumbnail env self video_path output_path time_offset st =
    match subprocess_outcome env cmd with
    | LaunchFailed e =>
        (inl e, after_run st cmd [debug_entry "FFmpeg" cmd; raised_entry "FFmpeg" e])
    | Exited rc out err =>
        (inr (mkResult rc (Some out) (Some err)),
         after_run st cmd
           (debug_entry "FFmpeg" cmd ::
              (if rc =? 0 then []
               else status_entries "FFmpeg" (mkKw true true false) rc err)))
    end.
Proof.
  cbv zeta. rewrite <- sync_run_outcome, <- execute_ffmpeg_command_body. reflexivity.
Qed.

(** X6.  [convert_video] on an existing input makes the output directory
    before anything is launched, and only when the directory is named and
    not there: if [os.makedirs] raises, the exception reaches the caller
    with nothing launched or logged; otherwise the conversion is the
    executor call on a state that differs from the initial one by the new
    directory at most. *)
Theorem convert_video_output_directory (env : Env) (self : Self)
    (input_path output_path : string) (cb : bool) (options : dict) (st : State) :
  os_path_exists env input_path = true ->
  let dir := os_path_dirname env output_path in
  (forall e,
     output_dir_missing env st output_path = true -> os_makedirs env dir = Some e ->
     convert_video env self input_path output_path cb options st = (inl e, st)) /\
  (forall args,
     convert_args env input_path output_path options = inr args ->
     output_dir_missing env st output_path = true -> os_makedirs env dir = None ->
     convert_video env self input_path output_path cb options st =
       convert_executor env self cb args
         (mkState (created_dirs st ++ [dir]) (launched st) (logged st) (notified st))) /\
  (forall args,
     convert_args env input_path output_path options = inr args ->
     output_dir_missing env st output_path = false ->
     convert_video env self input_path output_path cb options st =
       convert_executor env self cb args st).
Proof.
  intros Hex dir. unfold output_dir_missing. fold dir.
  repeat split.
  - intros e Hmiss Hmk. unfold convert_video, path_exists, makedirs. run_monad.
    rewrite Hex. cbn [orb negb]. fold dir. rewrite Hmiss, Hmk. reflexivity.
  - intros args Hargs Hmiss Hmk. unfold convert_video, path_exists, makedirs. run_monad.
    rewrite Hex. cbn [orb negb]. fold dir. rewrite Hmiss, Hmk, Hargs.
    unfold convert_executor. destruct cb; reflexivity.
  - intros args Hargs Hmiss. unfold convert_video, path_exists, makedirs. run_monad.
    rewrite Hex. cbn [orb negb]. fold dir. rewrite Hmiss, Hargs.
    unfold convert_executor. destruct cb; reflexivity.
Qed.

Lemma codec_flag_strings (flag : string) (v : value) :
  codec_ok v = true -> exists ss, codec_flag flag v = map PStr ss.
Proof.
  unfold codec_ok, codec_flag. destruct (truthy v); cbn [negb orb].
  - destruct v; try discriminate. intros _. exists [flag; s]. reflexivity.
  - intros _. exists []. reflexivity.
Qed.

(** X7.  The generic keyword options of [convert_video] can never spoil
    the command line: each value that is not None goes through [str], in
    the order of the options.  So the argument vector of a conversion is
    a vector of strings as soon as the two resolved codecs are strings or
    falsy, whatever the other option values are. *)
Theorem convert_options_are_stringified (env : Env) (input_path output_path : string)
    (options : dict) :
  option_flags options
    = map PStr (flat_map (fun kv => optional_flag ("-" ++ fst kv) (snd kv)) options) /\
  (codec_ok (resolved_codec env options "vcodec" "default_video_codec" "libx264") = true ->
   codec_ok (resolved_codec env options "acodec" "default_audio_codec" "aac") = true ->
   exists sargs, convert_args env input_path output_path options = inr (map PStr sargs)).
Proof.
  split; [apply option_flags_strings|].
  intros Hv Ha. rewrite convert_args_resolved.
  destruct (codec_flag_strings "-vcodec" _ Hv) as [sv ->].
  destruct (codec_flag_strings "-acodec" _ Ha) as [sa ->].
  rewrite option_flags_strings.
  exists (["-i"; input_path] ++ sv ++ sa
          ++ flat_map (fun kv => optional_flag ("-" ++ fst kv) (snd kv))
               (other_options options)
          ++ ["-y"; output_path])%list.
  rewrite !map_app. reflexivity.
Qed.

End Builders.

Section ProbeMethods.
Context {P : Platform}.

Lemma probe_handlers_entries {A} (e : exn) (st : State)
    (argv : list string) (entries : list log_entry) :
  @probe_handlers A e (after_run st argv entries)
    = (inl e, after_run st argv (entries ++ probe_entries e)).
Proof.
  unfold probe_handlers, probe_entries, logger, after_run. run_monad.
  destruct e; cbn [created_dirs launched logged notified];
    rewrite ?app_nil_r, <- ?app_assoc; reflexivity.
Qed.

Lemma probe_then_outcome {A} (env : Env) (self : Self) (args : list string)
    (read : value -> res A) (st : State) :
  probe_then env self args read st = probe_outcome env self args read st.
Proof.
  unfold probe_then, probe_outcome. rewrite execute_ffprobe_command_body.
  unfold try_except at 1. unfold bind at 1.
  destruct (subprocess_outcome env (ffprobe_command self args)) as [e|rc out err] eqn:H.
  - rewrite (run_logged_launch_failed _ _ _ _ _ _ H). apply probe_handlers_entries.
  - rewrite (run_logged_exited _ _ _ _ _ _ _ _ H). cbn [check captured capture_output].
    destruct (rc =? 0).
    + unfold bind, lift. cbn [stdout loads].
      destruct (json_loads env out) as [data|].
      * destruct (read data) as [e|a]; [|reflexivity].
        rewrite (probe_handlers_entries e st _ [_]). reflexivity.
      * rewrite (probe_handlers_entries _ st _ [_]). reflexivity.
    + apply probe_handlers_entries.
Qed.

Lemma get_video_info_probes (env : Env) (self : Self) (video_path : string) (st : State) :
  os_path_exists env video_path = true ->
  get_video_info env self video_path st
    = probe_outcome env self (info_args video_path) extract_info st.
Proof.
  intros Hex. rewrite <- probe_then_outcome.
  unfold get_video_info, path_exists. run_monad. rewrite Hex. reflexivity.
Qed.

Lemma get_stream_info_probes (env : Env) (self : Self) (media_path : string)
    (stream_type : option string) (st : State) :
  os_path_exists env media_path = true ->
  get_stream_info env self media_path (type_value stream_type) st
    = probe_outcome env self (stream_args media_path stream_type)
        (fun data => get data "streams" (PList [])) st.
Proof.
  intros Hex. rewrite <- probe_then_outcome.
  unfold get_stream_info, path_exists. run_monad. rewrite Hex. cbn [orb negb].
  destruct stream_type as [[|c r]|]; reflexivity.
Qed.

(** X8.  [get_stream_info] on an existing file probes with
    [-select_streams] and the first character of the stream type when the
    type is a non-empty string (["video"] gives [v]), and without the
    flag when the type is None or empty.  When ffprobe exits with 0 and
    prints a JSON object, the method returns its [streams] entry, or the
    empty list when the object has none; a document that is not an object
    raises AttributeError, which no [except] clause logs. *)
Theorem get_stream_info_outcome (env : Env) (self : Self) (media_path : string)
    (stream_type : option string) (out err : string) (st : State) :
  os_path_exists env media_path = true ->
  let cmd := ffprobe_command self (stream_args media_path stream_type) in
  subprocess_outcome env cmd = Exited 0 out err ->
  (forall c rest, stream_type = Some (String c rest) ->
     cmd = [_ffprobe_path self; "-v"; "quiet"; "-print_format"; "json"; "-show_streams";
            "-select_streams"; String c EmptyString; media_path]) /\
  (stream_type = None \/ stream_type = Some EmptyString ->
     cmd = [_ffprobe_path self; "-v"; "quiet"; "-print_format"; "json"; "-show_streams";
            media_path]) /\
  (forall doc, json_loads env out = Some (PDict doc) ->
     get_stream_info env self media_path (type_value stream_type) st
       = (inr (match dict_lookup doc "streams" with
               | Some streams => streams
               | None => PList []
               end),
          after_run st cmd [debug_entry "FFprobe" cmd])) /\
  (forall data, json_loads env out = Some data -> is_dict data = false ->
     get_stream_info env self media_path (type_value stream_type) st
       = (inl AttributeError, after_run st cmd [debug_entry "FFprobe" cmd])).
Proof.
  intros Hex cmd Hrun. repeat split.
  - intros c rest ->. reflexivity.
  - intros [->| ->]; reflexivity.
  - intros doc Hjson. rewrite (get_stream_info_probes env self _ _ st Hex).
    unfold probe_outcome. fold cmd. rewrite Hrun, Hjson. reflexivity.
  - intros data Hjson Hd. rewrite (get_stream_info_probes env self _ _ st Hex).
    unfold probe_outcome. fold cmd. rewrite Hrun, Hjson.
    destruct data; try discriminate; reflexivity.
Qed.

(** X9.  How [get_video_info] fails once the file exists.  A non-zero
    exit status raises CalledProcessError, logged by the executor and
    again by the method; output that is not JSON raises JSONDecodeError,
    logged once as a parse failure; a failed launch is re-raised as it
    is, logged by the executor.  In each case ffprobe was launched exactly
    once and no summary is returned. *)
Theorem get_video_info_failures (env : Env) (self : Self) (video_path : string)
    (st : State) :
  os_path_exists env video_path = true ->
  let cmd := ffprobe_command self (info_args video_path) in
  (forall rc out err,
     rc <> 0 -> subprocess_outcome env cmd = Exited rc out err ->
     get_video_info env self video_path st =
       (inl (CalledProcessError rc cmd),
        after_run st cmd
          [debug_entry "FFprobe" cmd;
           raised_entry "FFprobe" (CalledProcessError rc cmd);
           Log Error "ffprobe command failed: %s" (AExn (CalledProcessError rc cmd))])) /\
  (forall out err,
     subprocess_outcome env cmd = Exited 0 out err -> json_loads env out = None ->
     get_video_info env self video_path st =
       (inl (JSONDecodeError "Expecting value"),
        after_run st cmd
          [debug_entry "FFprobe" cmd;
           Log Error "Failed to parse ffprobe output: %s"
               (AExn (JSONDecodeError "Expecting value"))])) /\
  (forall msg,
     subprocess_outcome env cmd = LaunchFailed (OSError msg) ->
     get_video_info env self video_path st =
       (inl (OSError msg),
        after_run st cmd [debug_entry "FFprobe" cmd; raised_entry "FFprobe" (OSError msg)])).
Proof.
  intros Hex cmd. repeat split.
  - intros rc out err Hrc H. rewrite (get_video_info_probes env self _ st Hex).
    unfold probe_outcome. fold cmd. rewrite H. apply Z.eqb_neq in Hrc. rewrite Hrc.
    reflexivity.
  - intros out err H Hjson. rewrite (get_video_info_probes env self _ st Hex).
    unfold probe_outcome. fold cmd. rewrite H, Hjson. reflexivity.
  - intros msg H. rewrite (get_video_info_probes env self _ st Hex).
    unfold probe_outcome. fold cmd. rewrite H. reflexivity.
Qed.

(** X10.  A container field that does not convert makes the whole summary
    fail: when [format.bit_rate] is a string [int] rejects (ffprobe prints
    ["N/A"] for an unknown rate), [get_video_info] raises the ValueError of
    [int], whatever the streams are; the error is not one the method
    catches, so only the executor's debug line is logged. *)
Theorem unreadable_bit_rate_raises (env : Env) (self : Self) (video_path out err : string)
    (st : State) (doc fmt : dict) (x : float) (rate : string) :
  os_path_exists env video_path = true ->
  let cmd := ffprobe_command self (info_args video_path) in
  subprocess_outcome env cmd = Exited 0 out err ->
  json_loads env out = Some (PDict doc) ->
  dict_lookup doc "format" = Some (PDict fmt) ->
  py_float (dict_get fmt "duration" (PInt 0)) = inr x ->
  dict_lookup fmt "bit_rate" = Some (PStr rate) ->
  PyStr.py_int rate = None ->
  get_video_info env self video_path st =
    (inl (ValueError "invalid literal for int() with base 10"),
     after_run st cmd [debug_entry "FFprobe" cmd]).
Proof.
  intros Hex cmd Hrun Hjson Hfmt Hdur Hrate Hint.
  rewrite (get_video_info_probes env self _ st Hex).
  unfold probe_outcome. fold cmd. rewrite Hrun, Hjson. cbn [Z.eqb].
  assert (Hin : str_in "format" (PDict doc) = inr true).
  { cbn [str_in]. f_equal. clear -Hfmt.
    induction doc as [|[k v] rest IH]; [discriminate|].
    cbn [dict_lookup] in Hfmt. cbn [existsb fst].
    destruct (String.eqb k "format"); [reflexivity|]. cbn [orb]. auto. }
  assert (Hx : extract_info (PDict doc)
               = inl (ValueError "invalid literal for int() with base 10")).
  { unfold extract_info, format_fields. rewrite Hin. cbn [rbind getitem].
    rewrite Hfmt. cbn [rbind get]. rewrite Hdur. cbn [rbind].
    unfold dict_get at 1. rewrite Hrate. cbn [py_int]. rewrite Hint. reflexivity. }
  rewrite Hx. reflexivity.
Qed.

End ProbeMethods.

Section Summaries.
Context {P : Platform}.

Lemma key_in_dict (d : dict) (k : string) :
  existsb (fun kv => String.eqb (fst kv) k) d =
    match dict_lookup d k with Some _ => true | None => false end.
Proof.
  induction d as [|[k' v] rest IH]; [reflexivity|].
  cbn [existsb dict_lookup fst]. destruct (String.eqb k' k); [reflexivity|exact IH].
Qed.

Lemma format_fields_keeps (i i' : MediaInfo) (data : value) :
  format_fields i data = inr i' ->
  width i' = width i /\ height i' = height i /\ video_codec i' = video_codec i /\
  audio_codec i' = audio_codec i /\ fps i' = fps i.
Proof.
  unfold format_fields.
  destruct (str_in "format" data) as [e|[]]; cbn [rbind]; try discriminate.
  - destruct (getitem data "format") as [e|format_info]; cbn [rbind]; [discriminate|].
    destruct (get format_info "duration" (PInt 0)) as [e|d]; cbn [rbind]; [discriminate|].
    destruct (py_float d) as [e|dur]; cbn [rbind]; [discriminate|].
    destruct (get format_info "bit_rate" (PInt 0)) as [e|b]; cbn [rbind]; [discriminate|].
    destruct (py_int b) as [e|br]; cbn [rbind]; [discriminate|].
    destruct (get format_info "size" (PInt 0)) as [e|z]; cbn [rbind]; [discriminate|].
    destruct (py_int z) as [e|sz]; cbn [rbind]; [discriminate|].
    intros H. injection H as <-. repeat split.
  - intros H. injection H as <-. repeat split.
Qed.

(** X11.  Keys the probe document lacks give the initial values and no
    error.  Without [format] and [streams] the summary is the initial one:
    duration 0.0, bit rate and size 0, everything else None.  With a
    [format] object that lacks the three fields, bit rate and size are 0
    and the duration is [float(0)]. *)
Theorem missing_keys_give_defaults (env : Env) (self : Self) (video_path out err : string)
    (st : State) (doc : dict) :
  os_path_exists env video_path = true ->
  let cmd := ffprobe_command self (info_args video_path) in
  subprocess_outcome env cmd = Exited 0 out err ->
  json_loads env out = Some (PDict doc) ->
  dict_lookup doc "streams" = None ->
  (dict_lookup doc "format" = None ->
   get_video_info env self video_path st
     = (inr initial_info, after_run st cmd [debug_entry "FFprobe" cmd])) /\
  (forall fmt zero,
     dict_lookup doc "format" = Some (PDict fmt) ->
     dict_lookup fmt "duration" = None -> dict_lookup fmt "bit_rate" = None ->
     dict_lookup fmt "size" = None ->
     float_of_int 0 = Some zero ->
     get_video_info env self video_path st
       = (inr (mkInfo zero PNone PNone None PNone PNone 0 0),
          after_run st cmd [debug_entry "FFprobe" cmd])).
Proof.
  intros Hex cmd Hrun Hjson Hstreams. split.
  - intros Hfmt. rewrite (get_video_info_probes env self _ st Hex).
    unfold probe_outcome. fold cmd. rewrite Hrun, Hjson. cbn [Z.eqb].
    unfold extract_info, format_fields. cbn [str_in]. rewrite key_in_dict, Hfmt.
    cbn [rbind get]. unfold dict_get. rewrite Hstreams. reflexivity.
  - intros fmt zero Hfmt Hd Hb Hs Hz. rewrite (get_video_info_probes env self _ st Hex).
    unfold probe_outcome. fold cmd. rewrite Hrun, Hjson. cbn [Z.eqb].
    unfold extract_info, format_fields. cbn [str_in]. rewrite key_in_dict, Hfmt.
    cbn [rbind getitem]. rewrite Hfmt. cbn [rbind get]. unfold dict_get.
    rewrite Hd, Hb, Hs, Hstreams. cbn [py_float py_int rbind]. rewrite Hz. reflexivity.
Qed.

Lemma scan_stream_not_video (i : MediaInfo) (s : value) :
  is_dict s = true -> codec_type_is "video" s = false ->
  scan_stream i s =
    inr (if codec_type_is "audio" s
         then mkInfo (duration i) (width i) (height i) (fps i) (video_codec i)
                     (field s "codec_name") (bitrate i) (file_size i)
         else i).
Proof.
  destruct s as [| | | | |l|d]; try discriminate. intros _.
  unfold codec_type_is, scan_stream, field. cbn [get rbind]. intros ->.
  destruct (eq_str (dict_get d "codec_type" PNone) "audio"); reflexivity.
Qed.

Lemma scan_streams_not_video (streams : list value) : forall i,
  forallb (fun s => is_dict s && negb (codec_type_is "video" s)) streams = true ->
  exists i', scan_streams i streams = inr i' /\
    width i' = width i /\ height i' = height i /\ video_codec i' = video_codec i /\
    fps i' = fps i /\ duration i' = duration i /\ bitrate i' = bitrate i /\
    file_size i' = file_size i.
Proof.
  induction streams as [|s rest IH]; intros i H.
  - exists i. repeat split.
  - cbn [forallb] in H. apply andb_true_iff in H as [Hs Hrest].
    apply andb_true_iff in Hs as [Hd Hv]. apply negb_true_iff in Hv.
    cbn [scan_streams]. rewrite (scan_stream_not_video i s Hd Hv). cbn [rbind].
    match goal with |- context [scan_streams ?j rest] =>
      destruct (IH j Hrest) as [i' [Hi' Hk]] end.
    exists i'. split; [exact Hi'|].
    destruct (codec_type_is "audio" s); exact Hk.
Qed.

(** X12.  A file without video stream: when every stream of the document
    is an object whose [codec_type] is not ["video"], [get_video_info]
    succeeds and leaves width, height, video codec and fps None, with the
    container fields as [format] gave them.  Streams that are neither
    video nor audio (subtitles, data) leave the summary exactly as it
    was. *)
Theorem no_video_stream_leaves_video_unset (env : Env) (self : Self)
    (video_path out err : string) (st : State) (doc : dict) (streams : list value)
    (info_f : MediaInfo) :
  os_path_exists env video_path = true ->
  subprocess_outcome env (ffprobe_command self (info_args video_path)) = Exited 0 out err ->
  json_loads env out = Some (PDict doc) ->
  format_fields initial_info (PDict doc) = inr info_f ->
  dict_lookup doc "streams" = Some (PList streams) ->
  forallb (fun s => is_dict s && negb (codec_type_is "video" s)) streams = true ->
  (exists info,
     fst (get_video_info env self video_path st) = inr info /\
     width info = PNone /\ height info = PNone /\ video_codec info = PNone /\
     fps info = None /\
     duration info = duration info_f /\ bitrate info = bitrate info_f /\
     file_size info = file_size info_f) /\
  (forallb (fun s => negb (codec_type_is "audio" s)) streams = true ->
   fst (get_video_info env self video_path st) = inr info_f).
Proof.
  intros Hex Hrun Hjson Hfmt Hstreams Hno.
  assert (Hget : fst (get_video_info env self video_path st)
                 = scan_streams info_f streams).
  { rewrite (get_video_info_probes env self _ st Hex). unfold probe_outcome.
    rewrite Hrun, Hjson. cbn [Z.eqb].
    assert (Hx : extract_info (PDict doc) = scan_streams info_f streams).
    { unfold extract_info. rewrite Hfmt. cbn [rbind get]. unfold dict_get.
      rewrite Hstreams. reflexivity. }
    rewrite Hx. destruct (scan_streams info_f streams); reflexivity. }
  destruct (format_fields_keeps _ _ _ Hfmt) as [Hw [Hh [Hc [_ Hf]]]].
  split.
  - destruct (scan_streams_not_video streams info_f Hno)
      as [info [Hinfo [Iw [Ih [Ic [If [Id [Ib Is]]]]]]]].
    exists info. rewrite Hget. split; [exact Hinfo|].
    rewrite Iw, Ih, Ic, If, Hw, Hh, Hc, Hf. repeat split; assumption.
  - intros Hna. rewrite Hget. clear Hget Hfmt Hstreams Hw Hh Hc Hf.
    revert Hno Hna. generalize info_f. induction streams as [|s rest IH]; intros i Hno Hna.
    + reflexivity.
    + cbn [forallb] in Hno, Hna.
      apply andb_true_iff in Hno as [Hs Hrest]. apply andb_true_iff in Hs as [Hd Hv].
      apply andb_true_iff in Hna as [Ha Harest].
      apply negb_true_iff in Hv, Ha.
      cbn [scan_streams]. rewrite (scan_stream_not_video i s Hd Hv), Ha. cbn [rbind].
      apply IH; assumption.
Qed.

Lemma no_slash_not_contained (s : string) :
  PyStr.all_chars (PyStr.not_char "/") s = true -> PyStr.contains "/" s = false.
Proof.
  induction s as [|c r IH]; [reflexivity|].
  cbn [PyStr.all_chars]. intros H. apply andb_true_iff in H as [Hc Hr].
  cbn [PyStr.contains]. rewrite (IH Hr), orb_false_r.
  unfold PyStr.not_char in Hc. apply negb_true_iff in Hc.
  cbn [prefix]. destruct (ascii_dec "/" c) as [E|E]; [|reflexivity].
  subst c. discriminate.
Qed.

Lemma split_on_nonempty (sep : ascii) (s : string) :
  (1 <= List.length (PyStr.split_on sep s))%nat.
Proof.
  induction s as [|c r IH]; cbn [PyStr.split_on List.length]; [lia|].
  destruct (Ascii.eqb c sep); cbn [List.length]; [lia|].
  destruct (PyStr.split_on sep r); cbn [List.length]; lia.
Qed.

Lemma split_on_length (sep : ascii) (x y : string) :
  List.length (PyStr.split_on sep (x ++ String sep y))
    = (List.length (PyStr.split_on sep x) + List.length (PyStr.split_on sep y))%nat.
Proof.
  induction x as [|c r IH]; cbn [append PyStr.split_on].
  - rewrite Ascii.eqb_refl. reflexivity.
  - destruct (Ascii.eqb c sep); cbn [List.length]; [rewrite IH; reflexivity|].
    pose proof (split_on_nonempty sep (r ++ String sep y)) as N1.
    pose proof (split_on_nonempty sep r) as N2.
    destruct (PyStr.split_on sep (r ++ String sep y)) as [|h t];
      destruct (PyStr.split_on sep r) as [|h' t']; cbn [List.length] in *; lia.
Qed.

(** X13.  Frame rates the loop does not expect, on a video stream.  A
    string without a slash leaves [fps] as it was and raises nothing.  A
    string with two slashes raises the ValueError of the failed
    unpacking; a denominator [int] rejects (["30/1.5"]) raises the
    ValueError of [int]; a JSON null, number or boolean raises TypeError
    at the [in] test.  None of these is caught by [get_video_info]. *)
Theorem malformed_frame_rate (info : MediaInfo) (d : dict) :
  dict_lookup d "codec_type" = Some (PStr "video") ->
  let seen := mkInfo (duration info) (dict_get d "width" PNone)
                (dict_get d "height" PNone) (fps info)
                (dict_get d "codec_name" PNone) (audio_codec info)
                (bitrate info) (file_size info) in
  (forall s, dict_lookup d "r_frame_rate" = Some (PStr s) ->
     PyStr.all_chars (PyStr.not_char "/") s = true ->
     scan_stream info (PDict d) = inr seen) /\
  (forall a b c, dict_lookup d "r_frame_rate" = Some (PStr (a ++ "/" ++ b ++ "/" ++ c)) ->
     scan_stream info (PDict d) = inl (ValueError "too many values to unpack (expected 2)")) /\
  (forall num den, dict_lookup d "r_frame_rate" = Some (PStr (num ++ "/" ++ den)) ->
     PyStr.all_chars (PyStr.not_char "/") num = true ->
     PyStr.all_chars (PyStr.not_char "/") den = true ->
     PyStr.py_int den = None ->
     scan_stream info (PDict d) = inl (ValueError "invalid literal for int() with base 10")) /\
  (forall v, dict_lookup d "r_frame_rate" = Some v ->
     is_str v = false -> unhashable v = false ->
     scan_stream info (PDict d) = inl TypeError).
Proof.
  intros Hvideo seen.
  assert (Hscan : scan_stream info (PDict d) = frame_rate seen (PDict d)).
  { unfold scan_stream. cbn [get rbind]. unfold dict_get at 1. rewrite Hvideo.
    cbn [eq_str]. rewrite String.eqb_refl. reflexivity. }
  rewrite Hscan. unfold frame_rate. cbn [get rbind].
  assert (Hg : forall v, dict_lookup d "r_frame_rate" = Some v ->
                         dict_get d "r_frame_rate" (PStr "0/1") = v).
  { intros v Hv. unfold dict_get. rewrite Hv. reflexivity. }
  repeat split.
  - intros s Hs Hno. rewrite (Hg _ Hs). cbn [str_in rbind].
    rewrite (no_slash_not_contained s Hno). reflexivity.
  - intros a b c Hs. rewrite (Hg _ Hs). cbn [str_in rbind]. rewrite contains_slash.
    cbn [split_method rbind].
    pose proof (split_on_length "/" a (b ++ "/" ++ c)) as Hl.
    pose proof (split_on_length "/" b c) as Hl'.
    pose proof (split_on_nonempty "/" a). pose proof (split_on_nonempty "/" b).
    pose proof (split_on_nonempty "/" c).
    change (a ++ "/" ++ b ++ "/" ++ c) with (a ++ String "/" (b ++ String "/" c)).
    change (b ++ "/" ++ c) with (b ++ String "/" c) in Hl.
    destruct (PyStr.split_on "/" (a ++ String "/" (b ++ String "/" c)))
      as [|p1 [|p2 [|p3 ps]]]; cbn [List.length] in *; try reflexivity; lia.
  - intros num den Hs Hn Hd Hint. rewrite (Hg _ Hs). cbn [str_in rbind].
    rewrite contains_slash.
    cbn [split_method rbind]. rewrite (split_rational num den Hn Hd).
    cbn [py_int rbind]. rewrite Hint. reflexivity.
  - intros v Hs Hstr Hh. rewrite (Hg _ Hs). destruct v; try discriminate; reflexivity.
Qed.

(** X14.  A video stream without [r_frame_rate] does not leave [fps]
    unset: the default ["0/1"] takes the place of the missing field, its
    denominator is not zero, and [fps] becomes
    [round(float("0") / float("1"), 2)], zero rather than None.  Of the
    platform only this is used: [float] reads ["0"] and ["1"], and the
    latter is not a zero float. *)
Theorem missing_frame_rate_reads_as_zero (info : MediaInfo) (d : dict) (x0 x1 : float) :
  dict_lookup d "codec_type" = Some (PStr "video") ->
  dict_lookup d "r_frame_rate" = None ->
  float_of_str "0" = Some x0 ->
  float_of_str "1" = Some x1 ->
  float_is_zero x1 = false ->
  frame_rate info (PDict d)
    = inr (set_fps info (Some (float_round2 (float_div x0 x1)))) /\
  scan_stream info (PDict d)
    = inr (mkInfo (duration info) (dict_get d "width" PNone)
             (dict_get d "height" PNone) (Some (float_round2 (float_div x0 x1)))
             (dict_get d "codec_name" PNone) (audio_codec info)
             (bitrate info) (file_size info)).
Proof.
  intros Hvideo Hrate H0 H1 Z1.
  assert (Hg : dict_get d "r_frame_rate" (PStr "0/1") = PStr "0/1").
  { unfold dict_get. rewrite Hrate. reflexivity. }
  assert (Hfr : forall i, frame_rate i (PDict d)
            = inr (set_fps i (Some (float_round2 (float_div x0 x1))))).
  { intros i. unfold frame_rate. cbn [get rbind].
    rewrite Hg. cbn [str_in rbind split_method py_int py_float].
    change (PyStr.contains "/" "0/1") with true. cbn iota.
    change (PyStr.split_on "/" "0/1") with ["0"; "1"]. cbn iota.
    change (PyStr.py_int "1") with (Some 1). cbn [rbind Z.eqb negb].
    rewrite H0, H1. cbn [rbind]. unfold truediv. rewrite Z1. reflexivity. }
  split; [apply Hfr|].
  unfold scan_stream. cbn [get rbind]. unfold dict_get at 1. rewrite Hvideo.
  cbn [eq_str]. rewrite String.eqb_refl. rewrite Hfr. reflexivity.
Qed.

End Summaries.

Section Catalog.
Context {P : Platform}.

Lemma listing_names_captured (rc : Z) (out err : string) :
  listing_names (mkResult rc (Some out) (Some err)) [] = inr (names_of rc out).
Proof. exact (listing_names_of (mkKw true true false) rc out err eq_refl). Qed.

Lemma get_media_formats_state (env : Env) (self : Self) (st : State) :
  snd (get_media_formats env self st) =
    match subprocess_outcome env (ffmpeg_command self ["-encoders"]) with
    | LaunchFailed _ => after_listing env self "-encoders" st
    | Exited _ _ _ => after_listing env self "-decoders" (after_listing env self "-encoders" st)
    end.
Proof.
  unfold get_media_formats, after_listing.
  change [PStr "-encoders"] with (map (@PStr float) ["-encoders"]).
  change [PStr "-decoders"] with (map (@PStr float) ["-decoders"]).
  rewrite !execute_ffmpeg_command_body.
  unfold try_except at 1. unfold bind at 1. rewrite sync_run_outcome.
  destruct (subprocess_outcome env (ffmpeg_command self ["-encoders"])) as [e|rc out err].
  - unfold logger. run_monad. cbn [snd after_run created_dirs launched logged notified].
    rewrite <- app_assoc. reflexivity.
  - unfold bind at 1. unfold lift at 1. rewrite listing_names_captured.
    unfold try_except at 1. unfold bind at 1. rewrite sync_run_outcome.
    destruct (subprocess_outcome env (ffmpeg_command self ["-decoders"])) as [e'|rc' out' err'].
    + unfold logger. run_monad. unfold after_run.
      cbn [snd created_dirs launched logged notified].
      f_equal. rewrite <- app_assoc. reflexivity.
    + unfold bind at 1. unfold lift at 1. rewrite listing_names_captured. reflexivity.
Qed.

(** X15.  [get_media_formats] launches ffmpeg with [-encoders], and then
    with [-decoders] unless the first launch itself failed: an exception
    in the encoder listing ends the method, so the decoder listing is
    never asked for, while a non-zero exit status of the encoder listing
    does not prevent it.  A failed launch is logged as a failure to get
    format information.  No directory is created. *)
Theorem get_media_formats_launches (env : Env) (self : Self) (st : State) :
  let enc := ffmpeg_command self ["-encoders"] in
  let dec := ffmpeg_command self ["-decoders"] in
  launched (snd (get_media_formats env self st)) =
    (launched st ++
       match subprocess_outcome env enc with
       | LaunchFailed _ => [enc]
       | Exited _ _ _ => [enc; dec]
       end)%list /\
  created_dirs (snd (get_media_formats env self st)) = created_dirs st /\
  (forall e, subprocess_outcome env enc = LaunchFailed e ->
     logged (snd (get_media_formats env self st)) =
       (logged st ++ [debug_entry "FFmpeg" enc; raised_entry "FFmpeg" e;
                      Log Error "Failed to get format information: %s" (AExn e)])%list).
Proof.
  cbv zeta. rewrite get_media_formats_state. unfold after_listing.
  destruct (subprocess_outcome env (ffmpeg_command self ["-encoders"])) as [e|rc out err].
  - repeat split. intros e' H. injection H as <-. reflexivity.
  - destruct (subprocess_outcome env (ffmpeg_command self ["-decoders"]));
      cbn [after_run created_dirs launched logged notified]; rewrite <- app_assoc;
      repeat split; discriminate.
Qed.

Lemma split_ws_tokens (s : string) : forall t,
  In t (PyStr.split_ws s) ->
  t <> EmptyString /\ PyStr.all_chars PyStr.not_space t = true.
Proof.
  induction s as [|c r IH]; intros t Ht; [destruct Ht|].
  cbn [PyStr.split_ws] in Ht.
  destruct (PyStr.is_space c) eqn:Ec; [apply IH; exact Ht|].
  assert (Hc : PyStr.not_space c = true) by (unfold PyStr.not_space; rewrite Ec; reflexivity).
  destruct r as [|c' r'].
  - destruct Ht as [<-|[]]. split; [discriminate|]. cbn. rewrite Hc. reflexivity.
  - destruct (PyStr.is_space c') eqn:Ec'.
    + destruct Ht as [<-|Ht]; [|apply IH; exact Ht].
      split; [discriminate|]. cbn. rewrite Hc. reflexivity.
    + destruct (PyStr.split_ws (String c' r')) as [|h tl].
      * destruct Ht as [<-|[]]. split; [discriminate|]. cbn. rewrite Hc. reflexivity.
      * destruct Ht as [<-|Ht].
        -- split; [discriminate|]. cbn [PyStr.all_chars]. rewrite Hc.
           apply (IH h). left. reflexivity.
        -- apply IH. right. exact Ht.
Qed.

Lemma listed_names_tokens (lines : list string) (name : string) :
  In name (listed_names lines) ->
  name <> EmptyString /\ PyStr.all_chars PyStr.not_space name = true.
Proof.
  unfold listed_names. intros H. apply in_flat_map in H as [line [_ Hn]].
  unfold second_token in Hn.
  destruct (PyStr.split_ws line) as [|t [|n rest]] eqn:E; try contradiction.
  destruct Hn as [<-|[]]. apply (split_ws_tokens line). rewrite E. right. left. reflexivity.
Qed.

(** X16.  Every name [get_media_formats] returns, encoder or decoder, is
    a token: it is not empty and holds no whitespace.  The same holds of
    every name the line loop collects from any list of lines. *)
Theorem format_names_are_tokens (env : Env) (self : Self) (st : State)
    (formats : Formats) (name : string) :
  fst (get_media_formats env self st) = inr formats ->
  In name (encoders formats ++ decoders formats) ->
  name <> EmptyString /\ PyStr.all_chars PyStr.not_space name = true.
Proof.
  rewrite get_media_formats_result. intros H Hin.
  assert (Hn : forall rc out, In name (names_of rc out) ->
                name <> EmptyString /\ PyStr.all_chars PyStr.not_space name = true).
  { intros rc out. unfold names_of. destruct (rc =? 0); [|intros []].
    apply listed_names_tokens. }
  apply in_app_or in Hin.
  destruct (subprocess_outcome env (ffmpeg_command self ["-encoders"])) as [e|rc out err].
  - injection H as <-. destruct Hin as [[]|[]].
  - destruct (subprocess_outcome env (ffmpeg_command self ["-decoders"]))
      as [e'|rc' out' err']; injection H as <-; cbn [encoders decoders] in Hin;
      destruct Hin as [Hin|Hin]; try (eapply Hn; exact Hin); destruct Hin.
Qed.

Lemma after_header (header : list string) (sep : string) (entries : list string) :
  (forall line, In line header -> is_separator line = false) ->
  is_separator sep = true ->
  after_first_separator (header ++ sep :: entries) = entries.
Proof.
  intros Hh Hs. induction header as [|l rest IH]; cbn [app after_first_separator].
  - rewrite Hs. reflexivity.
  - rewrite (Hh l (or_introl eq_refl)). apply IH. intros line Hl. apply Hh. right. exact Hl.
Qed.

(** X17.  The shape the tool prints: a header, the separator line, the
    entries.  Whatever the header holds, none of it is read as a name,
    and when no entry line starts with dashes the names are the second
    tokens of the entry lines, in their order. *)
Theorem listing_header_is_ignored (header : list string) (sep : string)
    (entries : list string) :
  (forall line, In line header -> is_separator line = false) ->
  is_separator sep = true ->
  scan_listing false [] (header ++ sep :: entries) = listed_names entries /\
  ((forall line, In line entries -> is_separator line = false) ->
   scan_listing false [] (header ++ sep :: entries) = flat_map second_token entries).
Proof.
  intros Hh Hs. rewrite scan_listing_names. cbn [app].
  rewrite (after_header header sep entries Hh Hs). split; [reflexivity|].
  intros He. unfold listed_names. f_equal.
  induction entries as [|l rest IH]; [reflexivity|].
  cbn [filter]. rewrite (He l (or_introl eq_refl)). cbn [negb]. f_equal.
  apply IH. intros line Hl. apply He. right. exact Hl.
Qed.

End Catalog.

Section Proxy.
Context {P : Platform}.


Lemma proxy_settings_tier_total (resolution quality : value) :
  unhashable resolution = false -> unhashable quality = false ->
  exists options, proxy_options resolution quality = inr options.
Proof.
  intros Hr Hq. unfold proxy_options.
  assert (Ht : exists r, target_res resolution = inr r).
  { destruct resolution; try discriminate; eexists; reflexivity. }
  destruct Ht as [r ->]. cbn [rbind].
  assert (Hs : exists q, quality_settings quality = inr q).
  { unfold quality_settings.
    change (table_lookup quality_map "medium") with (Some (mkQuality "23" "medium")).
    cbn [rbind]. unfold table_get.
    destruct quality; try discriminate; eexists; reflexivity. }
  destruct Hs as [q ->]. eexists. reflexivity.
Qed.

(** X19.  The order of the failures of [create_proxy], for the values of
    this model (None, booleans, numbers, strings, lists and dicts; tuples
    are not among them).  A resolution that is a list or a dict cannot be
    a dict key and raises TypeError at the first table lookup; with a
    resolution that is None, a boolean, a number or a string, a quality
    that is a list or a dict raises TypeError at the second lookup.  Both
    happen before the input is looked at.  With a resolution and a
    quality that are None, booleans, numbers or strings, a missing input
    raises the ValueError of [convert_video].  In each case the state is
    untouched: no directory made, no process launched, nothing logged. *)
Theorem create_proxy_error_order (env : Env) (self : Self)
    (input_path output_path : string) (resolution quality : value) (st : State) :
  (unhashable resolution = true ->
   create_proxy env self input_path output_path resolution quality st
     = (inl TypeError, st)) /\
  (is_scalar resolution = true -> unhashable quality = true ->
   create_proxy env self input_path output_path resolution quality st
     = (inl TypeError, st)) /\
  (is_scalar resolution = true -> is_scalar quality = true ->
   absent env st input_path ->
   exists options,
     proxy_options resolution quality = inr options /\
     create_proxy env self input_path output_path resolution quality st
       = (inl (ValueError ("Input file does not exist: " ++ input_path)), st)).
Proof.
  repeat split.
  - intros Hr. destruct resolution; try discriminate; reflexivity.
  - intros Hr Hq. unfold create_proxy, proxy_options.
    assert (Ht : exists r, target_res resolution = inr r).
    { destruct resolution; try discriminate; eexists; reflexivity. }
    destruct Ht as [r ->]. cbn [rbind].
    destruct quality; try discriminate; reflexivity.
  - intros Hr Hq [Hfs Hdirs]. unfold create_proxy.
    assert (Hr' : unhashable resolution = false)
      by (destruct resolution; try discriminate; reflexivity).
    assert (Hq' : unhashable quality = false)
      by (destruct quality; try discriminate; reflexivity).
    destruct (proxy_settings_tier_total resolution quality Hr' Hq') as [options Ho].
    exists options. split; [exact Ho|]. rewrite Ho.
    unfold convert_video, path_exists. run_monad. rewrite Hfs, Hdirs. reflexivity.
Qed.

End Proxy.

End ExtraFacts.

(* ===================================================================== *)
(** ** The statements on concrete calls *)
(* ===================================================================== *)

Module Checks.
Import Py FFmpegWrapper Vocabulary Scenarios WrapperFacts.

#[local] Existing Instance ExactPlatform.platform.

(** C1, the claim as stated fails: with two video and two audio streams
    the summary carries the values of the second of each, not of the
    first. *)
Lemma first_stream_is_overwritten :
  find (codec_type_is "video") two_video_streams = Some video_a /\
  find (codec_type_is "audio") two_video_streams = Some audio_a /\
  fst (get_video_info two_video_env self0 "in.mp4" initial_state) = inr overwritten_info /\
  width overwritten_info <> field video_a "width" /\
  height overwritten_info <> field video_a "height" /\
  video_codec overwritten_info <> field video_a "codec_name" /\
  fps overwritten_info <> own_fps video_a /\
  audio_codec overwritten_info <> field audio_a "codec_name".
Proof. repeat split; try reflexivity; discriminate. Qed.

Lemma get_video_info_takes_last_streams_witness :
  exists info,
    fst (get_video_info two_video_env self0 "in.mp4" initial_state) = inr info /\
    width info = PInt 640 /\ video_codec info = PStr "mjpeg" /\
    fps info = Some 25%Q /\ audio_codec info = PStr "mp3".
Proof.
  destruct (get_video_info_takes_last_streams two_video_env self0 "in.mp4" probe_output ""
              initial_state two_video_document two_video_streams initial_info
              eq_refl eq_refl eq_refl eq_refl eq_refl eq_refl)
    as [info [Hinfo [_ [Hvideo Haudio]]]].
  exists info. split; [exact Hinfo|].
  destruct (Hvideo [video_a; audio_a] video_b [audio_b] eq_refl eq_refl eq_refl)
    as [Hw [_ [Hc Hf]]].
  split; [exact Hw|]. split; [exact Hc|]. split; [exact (Hf 25%Q eq_refl)|].
  exact (Haudio [video_a; audio_a; video_b] audio_b [] eq_refl eq_refl eq_refl).
Defined.

(** C2, the claim as stated fails: [extract_frames], [create_thumbnail]
    and [validate_media_file] launch their process on a path that does not
    exist, and return what the process gives. *)
Lemma missing_input_still_launches :
  absent missing_env initial_state "missing.mp4" /\
  (fst (extract_frames missing_env self0 "missing.mp4" "frame_%04d.png"
          PNone PNone PNone initial_state)
     = inr (mkResult 1 (Some "") (Some "No such file or directory")) /\
   launched (snd (extract_frames missing_env self0 "missing.mp4" "frame_%04d.png"
                    PNone PNone PNone initial_state))
     = [["ffmpeg.exe"; "-i"; "missing.mp4"; "-y"; "frame_%04d.png"; "-threads"; "4"]]) /\
  (fst (create_thumbnail missing_env self0 "missing.mp4" "thumb.png"
          (PStr "00:00:01") initial_state)
     = inr (mkResult 1 (Some "") (Some "No such file or directory")) /\
   launched (snd (create_thumbnail missing_env self0 "missing.mp4" "thumb.png"
                    (PStr "00:00:01") initial_state))
     = [["ffmpeg.exe"; "-i"; "missing.mp4"; "-ss"; "00:00:01"; "-vframes"; "1";
         "-y"; "thumb.png"; "-threads"; "4"]]) /\
  (fst (validate_media_file missing_env self0 "missing.mp4" initial_state) = inr false /\
   launched (snd (validate_media_file missing_env self0 "missing.mp4" initial_state))
     = [["ffprobe.exe"; "-v"; "error"; "-show_entries"; "format=duration";
         "-of"; "csv=p=0"; "missing.mp4"]]).
Proof. repeat split; reflexivity. Qed.

Lemma missing_input_rejected_witness :
  absent missing_env initial_state "missing.mp4" /\
  get_video_info missing_env self0 "missing.mp4" initial_state
    = (inl (ValueError "Video file does not exist: missing.mp4"), initial_state) /\
  convert_video missing_env self0 "missing.mp4" "out.mp4" false [] initial_state
    = (inl (ValueError "Input file does not exist: missing.mp4"), initial_state).
Proof.
  assert (H : absent missing_env initial_state "missing.mp4") by (split; reflexivity).
  split; [exact H|].
  destruct (missing_input_rejected missing_env self0 "missing.mp4" initial_state H)
    as [Hconvert [Hinfo _]].
  split; [exact Hinfo|]. exact (Hconvert "out.mp4" false []).
Defined.

Lemma fps_of_rational_frame_rate_witness :
  fst (get_video_info (rated_env "30000/1001") self0 "in.mp4" initial_state)
    = inr (mkInfo (25 # 2)%Q (PInt 1920) PNone (Some (2997 # 100)%Q) PNone (PStr "mp3")
                  128000 500000) /\
  fst (get_video_info (rated_env "30000/0") self0 "in.mp4" initial_state)
    = inr (mkInfo (25 # 2)%Q (PInt 1920) PNone None PNone (PStr "mp3") 128000 500000).
Proof.
  pose (info_f := mkInfo (25 # 2)%Q PNone PNone None PNone PNone 128000 500000).
  pose (before := mkInfo (25 # 2)%Q PNone PNone None PNone (PStr "aac") 128000 500000).
  split.
  - destruct (fps_of_rational_frame_rate exact_platform_coherent
                (rated_env "30000/1001") self0 "in.mp4" probe_output "" initial_state
                (rated_document "30000/1001") [audio_a] [audio_b] info_f before initial_info
                (rate_stream "30000/1001") "30000" "1001" 30000 1001
                eq_refl eq_refl eq_refl eq_refl eq_refl eq_refl eq_refl eq_refl eq_refl
                eq_refl eq_refl)
      as [x [y [Hx [Hy [Hnz _]]]]].
    vm_compute in Hx. vm_compute in Hy. injection Hx as <-. injection Hy as <-.
    destruct Hnz as [_ [_ [_ [result [Hget [Hrest _]]]]]]; [discriminate|].
    rewrite Hget, <- Hrest. reflexivity.
  - destruct (fps_of_rational_frame_rate exact_platform_coherent
                (rated_env "30000/0") self0 "in.mp4" probe_output "" initial_state
                (rated_document "30000/0") [audio_a] [audio_b] info_f before initial_info
                (rate_stream "30000/0") "30000" "0" 30000 0
                eq_refl eq_refl eq_refl eq_refl eq_refl eq_refl eq_refl eq_refl eq_refl
                eq_refl eq_refl)
      as [x [y [_ [_ [_ Hz]]]]].
    destruct (Hz eq_refl) as [_ [result [Hget [Hrest _]]]].
    rewrite Hget, <- Hrest. reflexivity.
Defined.

Lemma codec_resolution_witness :
  convert_args settings_env "in.mp4" "out.mp4" [("acodec", PStr "mp3")]
    = inr [PStr "-i"; PStr "in.mp4"; PStr "-vcodec"; PStr "libx265";
           PStr "-acodec"; PStr "mp3"; PStr "-y"; PStr "out.mp4"] /\
  launched (snd (convert_video settings_env self0 "in.mp4" "out.mp4" false
                   [("acodec", PStr "mp3")] initial_state))
    = [["ffmpeg.exe"; "-i"; "in.mp4"; "-vcodec"; "libx265"; "-acodec"; "mp3";
        "-y"; "out.mp4"; "-threads"; "4"]] /\
  launched (snd (convert_video failing_env self0 "in.mp4" "out.mp4" true
                   [("crf", PInt 23)] initial_state))
    = [["ffmpeg.exe"; "-i"; "in.mp4"; "-vcodec"; "libx264"; "-acodec"; "aac";
        "-crf"; "23"; "-y"; "out.mp4"; "-threads"; "4"; "-progress"; "pipe:2"]].
Proof.
  destruct (codec_resolution settings_env "in.mp4" "out.mp4" [("acodec", PStr "mp3")])
    as [_ [Hargs [Hcall _]]].
  destruct (codec_resolution failing_env "in.mp4" "out.mp4" [("crf", PInt 23)])
    as [_ [_ [_ Hfixed]]].
  split; [exact Hargs|]. split.
  - exact (proj2 (Hcall self0 false initial_state eq_refl (or_introl eq_refl)
                    eq_refl eq_refl)).
  - exact (proj2 (Hfixed self0 true initial_state eq_refl (or_introl eq_refl)
                    eq_refl eq_refl eq_refl eq_refl)).
Defined.

(** C5, the claim as stated fails: run with [check=True], as
    [get_video_info] runs it, the ffprobe executor raises on exit status 2
    instead of returning the result. *)
Lemma check_true_raises_on_nonzero_exit :
  subprocess_outcome failing_env (ffprobe_command self0 ["-show_streams"; "in.mp4"])
    = Exited 2 "" "Invalid data found" /\
  fst (execute_ffprobe_command failing_env self0 (map PStr ["-show_streams"; "in.mp4"])
         (mkKw true true true) initial_state)
    = inl (CalledProcessError 2 ["ffprobe.exe"; "-show_streams"; "in.mp4"]) /\
  fst (execute_ffmpeg_command failing_env self0 (map PStr ["-i"; "in.mp4"])
         (mkKw true true true) initial_state)
    = inl (CalledProcessError 2 ["ffmpeg.exe"; "-i"; "in.mp4"; "-threads"; "4"]) /\
  fst (get_video_info failing_env self0 "in.mp4" initial_state)
    = inl (CalledProcessError 2 (probe_command self0 "in.mp4")).
Proof. repeat split; reflexivity. Qed.

Lemma sync_execution_outcomes_witness :
  execute_ffmpeg_command failing_env self0 (map PStr ["-i"; "in.mp4"])
    (mkKw true true false) initial_state
  = (inr (mkResult 2 (Some "") (Some "Invalid data found")),
     mkState [] [["ffmpeg.exe"; "-i"; "in.mp4"; "-threads"; "4"]]
       [Log Debug "Executing FFmpeg command: %s" (AStr "ffmpeg.exe -i in.mp4 -threads 4");
        Log Error "FFmpeg command failed with return code %s" (AInt 2);
        Log Error "FFmpeg stderr: %s" (AStr "Invalid data found")] []).
Proof.
  destruct (sync_execution_outcomes failing_env self0 ["-i"; "in.mp4"]
              (mkKw true true false) initial_state) as [Hexit _].
  rewrite (Hexit 2 "" "Invalid data found"); [reflexivity|discriminate|reflexivity].
Defined.

(** C6, the claim as stated fails: a line that follows the first
    separator and itself starts with a row of dashes is not read as an
    entry, although it is a non-blank line with a second token. *)
Lemma later_separator_line_is_skipped :
  fst (get_media_formats listing_env self0 initial_state)
    = inr (mkFormats ["libx264"; "aac"] ["libx264"; "aac"]) /\
  scan_listing false [] (PyStr.split_on "010" listing_two_separators) = ["libx264"; "aac"] /\
  spec_format_names listing_two_separators = ["libx264"; "libdash"; "aac"] /\
  scan_listing false [] (PyStr.split_on "010" listing_two_separators)
    <> spec_format_names listing_two_separators.
Proof. repeat split; try reflexivity. discriminate. Qed.

Lemma catalog_names_skip_separators_witness :
  scan_listing false [] ["Encoders:"; " V..... = Video"; " V..... libx264 H.264"] = [] /\
  fst (get_media_formats listing_env self0 initial_state)
    = inr (mkFormats ["libx264"; "aac"] ["libx264"; "aac"]).
Proof.
  destruct (catalog_names_skip_separators listing_env self0 initial_state)
    as [_ [Hnone Hformats]].
  split.
  - apply Hnone. intros line Hin. simpl in Hin.
    destruct Hin as [<-|[<-|[<-|[]]]]; reflexivity.
  - rewrite Hformats. reflexivity.
Defined.


Lemma unknown_quality_is_medium_witness :
  quality_settings (PStr "ultra") = inr (mkQuality "23" "medium") /\
  create_proxy two_video_env self0 "in.mp4" "out.mp4" (PStr "720p") (PStr "ultra")
    initial_state
  = create_proxy two_video_env self0 "in.mp4" "out.mp4" (PStr "720p") (PStr "medium")
      initial_state /\
  launched (snd (create_proxy two_video_env self0 "in.mp4" "out.mp4" (PStr "720p")
                   (PStr "ultra") initial_state))
    = [["ffmpeg.exe"; "-i"; "in.mp4"; "-vcodec"; "libx264"; "-acodec"; "aac";
        "-vf"; "scale=1280x720"; "-crf"; "23"; "-preset"; "medium";
        "-y"; "out.mp4"; "-threads"; "4"]].
Proof.
  destruct (unknown_quality_is_medium two_video_env self0 "in.mp4" "out.mp4"
              (PStr "720p") "ultra" initial_state) as [Hq [_ [_ [Hcall Hemit]]]];
    try discriminate.
  split; [exact Hq|]. split; [exact Hcall|].
  destruct (Hemit "720p" eq_refl) as [_ [_ Hlaunch]].
  exact (Hlaunch eq_refl (or_introl eq_refl) eq_refl eq_refl).
Defined.

Lemma thread_flag_follows_arguments_witness :
  0 < _max_threads self0 /\
  launched (snd (execute_ffmpeg_command two_video_env self0
                   (map PStr ["-i"; "in.mp4"; "-y"; "out.mp4"])
                   (mkKw true true false) initial_state))
    = [["ffmpeg.exe"; "-i"; "in.mp4"; "-y"; "out.mp4"; "-threads"; "4"]] /\
  launched (snd (execute_ffmpeg_with_progress two_video_env self0
                   (map PStr ["-i"; "in.mp4"; "-y"; "out.mp4"]) true
                   (mkKw false false false) initial_state))
    = [["ffmpeg.exe"; "-i"; "in.mp4"; "-y"; "out.mp4"; "-threads"; "4";
        "-progress"; "pipe:2"]].
Proof.
  assert (Hpos : 0 < _max_threads self0) by reflexivity.
  split; [exact Hpos|].
  destruct (thread_flag_follows_arguments two_video_env self0
              ["-i"; "in.mp4"; "-y"; "out.mp4"] (mkKw true true false) true
              initial_state Hpos) as [_ [Hsync _]].
  destruct (thread_flag_follows_arguments two_video_env self0
              ["-i"; "in.mp4"; "-y"; "out.mp4"] (mkKw false false false) true
              initial_state Hpos) as [_ [_ [Hprogress _]]].
  split; [exact Hsync|]. exact (Hprogress eq_refl eq_refl).
Defined.

Lemma none_options_emit_no_flag_witness :
  convert_args two_video_env "in.mp4" "out.mp4" [("crf", PInt 23); ("preset", PNone)]
    = convert_args two_video_env "in.mp4" "out.mp4" [("crf", PInt 23)] /\
  convert_args two_video_env "in.mp4" "out.mp4" [("vcodec", PNone); ("crf", PInt 23)]
    = inr [PStr "-i"; PStr "in.mp4"; PStr "-acodec"; PStr "aac";
           PStr "-crf"; PStr "23"; PStr "-y"; PStr "out.mp4"].
Proof.
  destruct (none_options_emit_no_flag two_video_env "in.mp4" "out.mp4")
    as [Hnone [Hvcodec _]].
  split.
  - apply (Hnone [("crf", PInt 23)] [] "preset"); discriminate.
  - exact (Hvcodec [("vcodec", PNone); ("crf", PInt 23)] PNone eq_refl eq_refl).
Defined.

End Checks.

(* ===================================================================== *)
(** ** The further facts on concrete calls *)
(* ===================================================================== *)

Module ExtraChecks.
Import Py FFmpegWrapper Vocabulary Scenarios WrapperFacts ExtraFacts.

#[local] Existing Instance ExactPlatform.platform.

Lemma non_string_argument_rejected_witness :
  execute_ffmpeg_command two_video_env self0 [PStr "-crf"; PInt 23]
    (mkKw true true false) initial_state = (inl TypeError, initial_state) /\
  convert_video two_video_env self0 "in.mp4" "out.mp4" false [("vcodec", PInt 5)]
    initial_state = (inl TypeError, initial_state).
Proof.
  destruct (non_string_argument_rejected two_video_env self0 [PStr "-crf"; PInt 23]
              (mkKw true true false) false initial_state eq_refl)
    as [Hsync [_ [_ Hconvert]]].
  split; [exact Hsync|].
  exact (Hconvert "in.mp4" "out.mp4" [("vcodec", PInt 5)] (PInt 5)
           eq_refl eq_refl eq_refl eq_refl eq_refl).
Defined.

Lemma progress_execution_outcomes_witness :
  execute_ffmpeg_with_progress progress_env self0 (map PStr ["-i"; "in.mp4"; "-y"; "out.mp4"])
    true (mkKw false false false) initial_state
  = (inr (mkResult 1 (Some "") (Some "Conversion failed!")),
     mkState []
       [["ffmpeg.exe"; "-i"; "in.mp4"; "-y"; "out.mp4"; "-threads"; "4";
         "-progress"; "pipe:2"]]
       [Log Debug "Executing FFmpeg command with progress: %s"
          (AStr "ffmpeg.exe -i in.mp4 -y out.mp4 -threads 4 -progress pipe:2");
        Log Error "FFmpeg command failed with return code %s" (AInt 1);
        Log Error "FFmpeg stderr: %s" (AStr "Conversion failed!")]
       ["FFmpeg: frame=  120 fps= 30 time=00:00:05.00 bitrate= 900kbits/s";
        "FFmpeg: frame=  240 fps= 30 time=00:00:10.00 bitrate= 910kbits/s"]).
Proof.
  destruct (progress_execution_outcomes progress_env self0 ["-i"; "in.mp4"; "-y"; "out.mp4"]
              true (mkKw false false false) initial_state eq_refl eq_refl)
    as [Hexit _].
  rewrite (Hexit 1 progress_lines "" "Conversion failed!" eq_refl). reflexivity.
Defined.

Lemma extract_frames_outcome_witness :
  frames_args "in.mp4" "f_%04d.png" (PInt 0) PNone PNone
    = ["-ss"; "0"; "-i"; "in.mp4"; "-y"; "f_%04d.png"] /\
  fst (extract_frames failing_env self0 "in.mp4" "f_%04d.png" (PInt 0) PNone (PInt 5)
         initial_state)
    = inr (mkResult 2 (Some "") (Some "Invalid data found")).
Proof.
  destruct (extract_frames_outcome failing_env self0 "in.mp4" "f_%04d.png"
              (PInt 0) PNone (PInt 5) initial_state) as [Hrun [Hzero _]].
  split.
  - exact (Hzero (PInt 0) eq_refl).
  - rewrite Hrun. reflexivity.
Defined.

Lemma convert_video_output_directory_witness :
  convert_video (dir_env (Some (OSError "Permission denied"))) self0 "in.mp4"
    "renders/out.mp4" false [] initial_state
    = (inl (OSError "Permission denied"), initial_state) /\
  created_dirs (snd (convert_video (dir_env None) self0 "in.mp4" "renders/out.mp4"
                       false [] initial_state)) = ["renders"] /\
  launched (snd (convert_video (dir_env None) self0 "in.mp4" "renders/out.mp4"
                   false [] initial_state))
    = [["ffmpeg.exe"; "-i"; "in.mp4"; "-vcodec"; "libx264"; "-acodec"; "aac";
        "-y"; "renders/out.mp4"; "-threads"; "4"]].
Proof.
  destruct (convert_video_output_directory (dir_env (Some (OSError "Permission denied")))
              self0 "in.mp4" "renders/out.mp4" false [] initial_state eq_refl)
    as [Hrefused _].
  destruct (convert_video_output_directory (dir_env None)
              self0 "in.mp4" "renders/out.mp4" false [] initial_state eq_refl)
    as [_ [Hmade _]].
  split; [exact (Hrefused _ eq_refl eq_refl)|].
  rewrite (Hmade _ eq_refl eq_refl eq_refl). split; reflexivity.
Defined.

Lemma convert_options_are_stringified_witness :
  exists sargs,
    convert_args two_video_env "in.mp4" "out.mp4"
      [("crf", PInt 0); ("an", PBool true); ("vcodec", PNone)] = inr (map PStr sargs).
Proof.
  exact (proj2 (convert_options_are_stringified two_video_env "in.mp4" "out.mp4"
                  [("crf", PInt 0); ("an", PBool true); ("vcodec", PNone)])
           eq_refl eq_refl).
Defined.

Lemma get_stream_info_outcome_witness :
  get_stream_info two_video_env self0 "in.mp4" (PStr "video") initial_state
  = (inr (PList two_video_streams),
     after_run initial_state
       ["ffprobe.exe"; "-v"; "quiet"; "-print_format"; "json"; "-show_streams";
        "-select_streams"; "v"; "in.mp4"]
       [Log Debug "Executing FFprobe command: %s"
          (AStr "ffprobe.exe -v quiet -print_format json -show_streams -select_streams v in.mp4")]).
Proof.
  destruct (get_stream_info_outcome two_video_env self0 "in.mp4" (Some "video")
              probe_output "" initial_state eq_refl eq_refl) as [_ [_ [Hdoc _]]].
  exact (Hdoc two_video_document eq_refl).
Defined.

Lemma get_video_info_failures_witness :
  fst (get_video_info failing_env self0 "in.mp4" initial_state)
    = inl (CalledProcessError 2 (ffprobe_command self0 (info_args "in.mp4"))) /\
  fst (get_video_info garbage_env self0 "in.mp4" initial_state)
    = inl (JSONDecodeError "Expecting value") /\
  fst (get_video_info no_binary_env self0 "in.mp4" initial_state)
    = inl (OSError "No such file or directory").
Proof.
  destruct (get_video_info_failures failing_env self0 "in.mp4" initial_state eq_refl)
    as [Hexit _].
  destruct (get_video_info_failures garbage_env self0 "in.mp4" initial_state eq_refl)
    as [_ [Hjson _]].
  destruct (get_video_info_failures no_binary_env self0 "in.mp4" initial_state eq_refl)
    as [_ [_ Hlaunch]].
  split; [|split].
  - rewrite (Hexit 2 "" "Invalid data found"); [reflexivity|discriminate|reflexivity].
  - rewrite (Hjson "not json" "" eq_refl eq_refl). reflexivity.
  - rewrite (Hlaunch "No such file or directory" eq_refl). reflexivity.
Defined.

Lemma unreadable_bit_rate_raises_witness :
  fst (get_video_info unknown_rate_env self0 "in.mp4" initial_state)
    = inl (ValueError "invalid literal for int() with base 10").
Proof.
  rewrite (unreadable_bit_rate_raises unknown_rate_env self0 "in.mp4" probe_output ""
             initial_state unknown_rate_document
             [("duration", PStr "12"); ("bit_rate", PStr "N/A"); ("size", PStr "500000")]
             12%Q "N/A" eq_refl eq_refl eq_refl eq_refl eq_refl eq_refl eq_refl).
  reflexivity.
Defined.

Lemma missing_keys_give_defaults_witness :
  fst (get_video_info empty_env self0 "in.mp4" initial_state) = inr initial_info.
Proof.
  destruct (missing_keys_give_defaults empty_env self0 "in.mp4" probe_output ""
              initial_state [] eq_refl eq_refl eq_refl eq_refl) as [Hnone _].
  rewrite (Hnone eq_refl). reflexivity.
Defined.

Lemma no_video_stream_leaves_video_unset_witness :
  exists info,
    fst (get_video_info audio_env self0 "song.mp3" initial_state) = inr info /\
    width info = PNone /\ video_codec info = PNone /\ fps info = None.
Proof.
  destruct (no_video_stream_leaves_video_unset audio_env self0 "song.mp3" probe_output ""
              initial_state audio_document [audio_b; subtitle] initial_info
              eq_refl eq_refl eq_refl eq_refl eq_refl eq_refl)
    as [[info [Hinfo [Hw [_ [Hc [Hf _]]]]]] _].
  exists info. repeat split; assumption.
Defined.

Lemma malformed_frame_rate_witness :
  scan_stream initial_info
    (PDict [("codec_type", PStr "video"); ("r_frame_rate", PStr "30/1/1")])
    = inl (ValueError "too many values to unpack (expected 2)") /\
  scan_stream initial_info
    (PDict [("codec_type", PStr "video"); ("r_frame_rate", PStr "30/1.5")])
    = inl (ValueError "invalid literal for int() with base 10") /\
  scan_stream initial_info
    (PDict [("codec_type", PStr "video"); ("r_frame_rate", PNone)])
    = inl TypeError.
Proof.
  split; [|split].
  - exact (proj1 (proj2 (malformed_frame_rate initial_info
                           [("codec_type", PStr "video"); ("r_frame_rate", PStr "30/1/1")]
                           eq_refl)) "30" "1" "1" eq_refl).
  - exact (proj1 (proj2 (proj2 (malformed_frame_rate initial_info
                           [("codec_type", PStr "video"); ("r_frame_rate", PStr "30/1.5")]
                           eq_refl))) "30" "1.5" eq_refl eq_refl eq_refl eq_refl).
  - exact (proj2 (proj2 (proj2 (malformed_frame_rate initial_info
                           [("codec_type", PStr "video"); ("r_frame_rate", PNone)]
                           eq_refl))) PNone eq_refl eq_refl eq_refl).
Defined.

Lemma missing_frame_rate_reads_as_zero_witness :
  scan_stream initial_info (PDict [("codec_type", PStr "video"); ("width", PInt 640)])
    = inr (mkInfo 0%Q (PInt 640) PNone (Some 0%Q) PNone PNone 0 0).
Proof.
  exact (proj2 (missing_frame_rate_reads_as_zero initial_info
                  [("codec_type", PStr "video"); ("width", PInt 640)] 0%Q 1%Q
                  eq_refl eq_refl eq_refl eq_refl eq_refl)).
Defined.

Lemma get_media_formats_launches_witness :
  launched (snd (get_media_formats no_binary_env self0 initial_state))
    = [["ffmpeg.exe"; "-encoders"; "-threads"; "4"]] /\
  launched (snd (get_media_formats failing_env self0 initial_state))
    = [["ffmpeg.exe"; "-encoders"; "-threads"; "4"];
       ["ffmpeg.exe"; "-decoders"; "-threads"; "4"]] /\
  logged (snd (get_media_formats no_binary_env self0 initial_state))
    = [Log Debug "Executing FFmpeg command: %s" (AStr "ffmpeg.exe -encoders -threads 4");
       Log Error "FFmpeg command failed: %s" (AExn (OSError "No such file or directory"));
       Log Error "Failed to get format information: %s"
         (AExn (OSError "No such file or directory"))].
Proof.
  destruct (get_media_formats_launches no_binary_env self0 initial_state)
    as [Hnone [_ Hlog]].
  destruct (get_media_formats_launches failing_env self0 initial_state) as [Hboth _].
  split; [rewrite Hnone; reflexivity|]. split; [rewrite Hboth; reflexivity|].
  rewrite (Hlog (OSError "No such file or directory") eq_refl). reflexivity.
Defined.

Lemma format_names_are_tokens_witness :
  "libx264"%string <> EmptyString /\
  PyStr.all_chars PyStr.not_space "libx264" = true.
Proof.
  apply (format_names_are_tokens listing_env self0 initial_state
           (mkFormats ["libx264"; "aac"] ["libx264"; "aac"]) "libx264").
  - reflexivity.
  - left. reflexivity.
Defined.

Lemma listing_header_is_ignored_witness :
  scan_listing false []
    (["Encoders:"; " V..... = Video"; " A..... = Audio"] ++
     " ------" :: [" V..... libx264 H.264"; " A..... aac AAC"; ""])
  = ["libx264"; "aac"].
Proof.
  destruct (listing_header_is_ignored
              ["Encoders:"; " V..... = Video"; " A..... = Audio"] " ------"
              [" V..... libx264 H.264"; " A..... aac AAC"; ""]) as [_ Hentries].
  - intros line [<-|[<-|[<-|[]]]]; reflexivity.
  - reflexivity.
  - rewrite Hentries; [reflexivity|].
    intros line [<-|[<-|[<-|[]]]]; reflexivity.
Defined.


Lemma create_proxy_error_order_witness :
  create_proxy missing_env self0 "missing.mp4" "out.mp4" (PList []) (PStr "fast")
    initial_state = (inl TypeError, initial_state) /\
  create_proxy missing_env self0 "missing.mp4" "out.mp4" (PStr "720p") (PDict [])
    initial_state = (inl TypeError, initial_state) /\
  create_proxy missing_env self0 "missing.mp4" "out.mp4" (PStr "720p") (PStr "fast")
    initial_state
    = (inl (ValueError "Input file does not exist: missing.mp4"), initial_state).
Proof.
  destruct (create_proxy_error_order missing_env self0 "missing.mp4" "out.mp4"
              (PList []) (PStr "fast") initial_state) as [Htype _].
  destruct (create_proxy_error_order missing_env self0 "missing.mp4" "out.mp4"
              (PStr "720p") (PDict []) initial_state) as [_ [Hquality _]].
  destruct (create_proxy_error_order missing_env self0 "missing.mp4" "out.mp4"
              (PStr "720p") (PStr "fast") initial_state) as [_ [_ Hmissing]].
  split; [exact (Htype eq_refl)|]. split; [exact (Hquality eq_refl eq_refl)|].
  destruct (Hmissing eq_refl eq_refl (conj eq_refl eq_refl)) as [options [_ Hcall]].
  exact Hcall.
Defined.

End ExtraChecks.

(* ===================================================================== *)
(** ** The builtins and the scenarios of the spec, evaluated *)
(* ===================================================================== *)

Module Evaluated.
Import Py FFmpegWrapper Scenarios.

#[local] Existing Instance ExactPlatform.platform.

Example strip_ex : PyStr.strip "  ------ " = "------".
Proof. reflexivity. Qed.

Example split_ws_ex :
  PyStr.split_ws " V..... libx264   H.264 " = ["V....."; "libx264"; "H.264"].
Proof. reflexivity. Qed.

Example split_on_ex : PyStr.split_on "/" "30000/1001" = ["30000"; "1001"].
Proof. reflexivity. Qed.

Example py_int_ex : PyStr.py_int " -1_001 " = Some (-1001) /\ PyStr.py_int "1__0" = None.
Proof. split; reflexivity. Qed.

(** The unit separator (31) is whitespace for [str.strip], not for
    [int]. *)
Example unit_separator_ex :
  let s := String "5" (String (ascii_of_nat 31) EmptyString) in
  PyStr.strip s = "5" /\ PyStr.py_int s = None /\ ExactPlatform.read_float s = None.
Proof. repeat split; reflexivity. Qed.

Example read_float_ex :
  ExactPlatform.read_float " 12.5 " = Some (25 # 2)%Q /\
  ExactPlatform.read_float "-1_0.0_1" = Some (-1001 # 100)%Q /\
  ExactPlatform.read_float "7." = Some (7 # 1)%Q /\
  ExactPlatform.read_float ".5" = Some (1 # 2)%Q /\
  ExactPlatform.read_float "." = None /\
  ExactPlatform.read_float "1_.5" = None /\
  ExactPlatform.read_float "1._5" = None /\
  ExactPlatform.read_float "30000/1001" = None.
Proof. repeat split; reflexivity. Qed.

Example str_of_int_ex :
  PyStr.str_of_int 4 = "4" /\ PyStr.str_of_int (-12) = "-12" /\ PyStr.str_of_int 0 = "0".
Proof. repeat split. Qed.

(** End-to-end scenario 1, with a duration the reference platform reads. *)
Example probe_document_info :
  extract_info probe_document
    = inr (mkInfo 12%Q (PInt 1920) (PInt 1080) (Some (2997 # 100)%Q)
                  (PStr "h264") (PStr "aac") 128000 500000).
Proof. reflexivity. Qed.

(** End-to-end scenario 2. *)
Example proxy_1080p_fast :
  launched (snd (create_proxy two_video_env self0 "in.mp4" "out.mp4"
                   (PStr "1080p") (PStr "fast") initial_state))
    = [["ffmpeg.exe"; "-i"; "in.mp4"; "-vcodec"; "libx264"; "-acodec"; "aac";
        "-vf"; "scale=1920x1080"; "-crf"; "28"; "-preset"; "fast";
        "-y"; "out.mp4"; "-threads"; "4"]].
Proof. reflexivity. Qed.

End Evaluated.
